(** * straggler-shield: the pulse pipeline and the reconciliation controller

    A shallow embedding of the sources of the agent:
    - [pkg/pulse]: thresholds, failure taxonomy, statistics, the four-stage
      validation pipeline ([RunPulse]), the report of the management
      utility, the metrics, and the stub of a build without CUDA;
    - [cuda/gpu_pulse.cu]: the control flow of the native entry points;
    - [pkg/k8s]: the reconciliation controller ([ReconcileNode]) with its
      taint and condition patches;
    - [cmd/benchmark]: the scenarios and the report;
    - [cmd/agent]: the watch loop and its back-off.

    Go values are modelled as the code has them: [int64] and
    [time.Duration] as [Z] with the wrap-around written out, [float64] as
    the IEEE-754 binary64 numbers of [SpecFloat], strings as [string], the
    API server as a finite map from node names to node objects. *)

From Stdlib Require Import ZArith Lia Bool Ascii String List.
From Stdlib Require Import Floats.SpecFloat.
From stdpp Require Import base option list gmap strings pretty.

Local Open Scope string_scope.
Local Open Scope Z_scope.

(* ===================================================================== *)
(** ** Go's [int64] *)
(* ===================================================================== *)

Module Int64.

Definition min_int : Z := - 2 ^ 63.
Definition max_int : Z := 2 ^ 63 - 1.

Definition in_range (z : Z) : Prop := min_int <= z <= max_int.

(** Two's-complement wrap-around of an unbounded result. *)
Definition wrap (z : Z) : Z := (z + 2 ^ 63) mod 2 ^ 64 - 2 ^ 63.

Definition add (a b : Z) : Z := wrap (a + b).
Definition sub (a b : Z) : Z := wrap (a - b).
Definition mul (a b : Z) : Z := wrap (a * b).

(** Go's [/] truncates toward zero; [None] is the run-time panic on a zero
    divisor. *)
Definition div (a b : Z) : option Z :=
  if b =? 0 then None else Some (wrap (Z.quot a b)).

(** Go's [%] has the sign of the dividend. *)
Definition rem (a b : Z) : option Z :=
  if b =? 0 then None else Some (Z.rem a b).

(** Saturation, as [time.Time.Sub] does. *)
Definition saturate (z : Z) : Z :=
  if z <? min_int then min_int else if max_int <? z then max_int else z.

End Int64.

(* ===================================================================== *)
(** ** Go's [float64]: IEEE-754 binary64, round to nearest even *)
(* ===================================================================== *)

Module Float64.

Definition prec : Z := 53.
Definition emax : Z := 1024.

Definition float64 : Type := spec_float.

Definition zero : float64 := S754_zero false.

(** [float64(n)] for an integer [n]: the nearest binary64 number. *)
Definition of_int (n : Z) : float64 := binary_normalize prec emax n 0 false.

Definition add (x y : float64) : float64 := SFadd prec emax x y.
Definition mul (x y : float64) : float64 := SFmul prec emax x y.
Definition div (x y : float64) : float64 := SFdiv prec emax x y.
Definition sqrt (x : float64) : float64 := SFsqrt prec emax x.

(** [x < y] and [x > y]; both are false as soon as one side is NaN. *)
Definition ltb (x y : float64) : bool := SFltb x y.
Definition gtb (x y : float64) : bool := SFltb y x.

(** [int(f)]: truncation toward zero. For NaN, the infinities and values
    outside [int64] Go leaves the result to the implementation; amd64 yields
    the most negative integer. *)
Definition to_int (f : float64) : Z :=
  match f with
  | S754_zero _ => 0
  | S754_finite s m e =>
      let v := match e with
               | Z0 => Zpos m
               | Zpos p => Zpos m * 2 ^ Zpos p
               | Zneg p => Zpos m / 2 ^ Zpos p
               end in
      let r := if s then - v else v in
      if (Int64.min_int <=? r) && (r <=? Int64.max_int) then r else Int64.min_int
  | _ => Int64.min_int
  end.

(** The literals of the sources. 0.20 is the binary64 nearest to 1/5; the
    others are exact. *)
Definition lit_0_20 : float64 := S754_finite false 7205759403792794 (-55).
Definition lit_0_5 : float64 := S754_finite false 4503599627370496 (-53).
Definition lit_5_0 : float64 := S754_finite false 5629499534213120 (-50).
Definition lit_1e9 : float64 := S754_finite false 8388608000000000 (-23).

(** A positive finite-or-infinite number: neither zero nor NaN. *)
Definition positive_float (f : float64) : Prop :=
  match f with
  | S754_finite false _ _ | S754_infinity false => True
  | _ => False
  end.

End Float64.

Abbreviation float64 := Float64.float64.

(* ===================================================================== *)
(** ** The parts of Go's [strconv], [strings] and [time] the agent calls *)
(* ===================================================================== *)

Module Strconv.

Definition digit_of (c : ascii) : option Z :=
  let n := Z.of_N (N_of_ascii c) in
  if (48 <=? n) && (n <=? 57) then Some (n - 48) else None.

Fixpoint parse_digits (s : string) (acc : Z) : option Z :=
  match s with
  | EmptyString => Some acc
  | String c rest =>
      match digit_of c with
      | Some d => parse_digits rest (acc * 10 + d)
      | None => None
      end
  end.

(** The result of [strconv.ParseInt(s, 10, 64)]: a value with a nil error,
    a syntax error (value 0), or a range error (value clamped to the nearest
    bound of [int64]). *)
Inductive parsed : Type :=
  | POk (v : Z)
  | PErrSyntax
  | PErrRange (clamped : Z).

(** [strconv.ParseInt(s, 10, 64)]: an optional sign, then one or more
    decimal digits (no underscores in base 10), and a value that fits
    [int64]. *)
Definition ParseInt (s : string) : parsed :=
  match s with
  | EmptyString => PErrSyntax
  | String c rest =>
      let '(neg, body) :=
        if Ascii.eqb c "+"%char then (false, rest)
        else if Ascii.eqb c "-"%char then (true, rest)
        else (false, s) in
      match body with
      | EmptyString => PErrSyntax
      | _ =>
          match parse_digits body 0 with
          | None => PErrSyntax
          | Some un =>
              if neg then (if un <=? 2 ^ 63 then POk (- un) else PErrRange (- 2 ^ 63))
              else (if un <? 2 ^ 63 then POk un else PErrRange (2 ^ 63 - 1))
          end
      end
  end.

(** [strconv.Atoi]: on a 64-bit platform its fast path and its fall-back to
    [ParseInt(s, 10, 0)] accept the same strings with the same values. *)
Definition Atoi (s : string) : parsed := ParseInt s.

(** The value half of the pair [(v, err)] that Go returns. *)
Definition parsed_value (p : parsed) : Z :=
  match p with
  | POk v => v
  | PErrSyntax => 0
  | PErrRange v => v
  end.

(** [strconv.Itoa] on a non-negative integer. *)
Definition Itoa (n : Z) : string :=
  if n <? 0 then "-" ++ pretty (Z.to_N (- n)) else pretty (Z.to_N n).

End Strconv.

Module Strings.

Definition upper_byte (c : ascii) : ascii :=
  let n := N_of_ascii c in
  if (97 <=? n)%N && (n <=? 122)%N then ascii_of_N (n - 32) else c.

(** [strings.ToUpper], byte-wise on the ASCII letters. (Go maps runes; the
    only use is followed by searches for ASCII digits and capitals, which
    no other rune maps to among A, B, G and H.) *)
Fixpoint ToUpper (s : string) : string :=
  match s with
  | EmptyString => EmptyString
  | String c rest => String (upper_byte c) (ToUpper rest)
  end.

(** [strings.Contains s substr]. *)
Fixpoint Contains (s substr : string) : bool :=
  if String.prefix substr s then true
  else match s with
       | EmptyString => false
       | String _ rest => Contains rest substr
       end.

(** ASCII white space. ([strings.TrimSpace] also trims the Unicode spaces
    beyond ASCII, which the management utility does not print.) *)
Definition is_space (c : ascii) : bool :=
  let n := N_of_ascii c in
  ((9 <=? n)%N && (n <=? 13)%N) || (n =? 32)%N.

Fixpoint trim_left (s : string) : string :=
  match s with
  | String c rest => if is_space c then trim_left rest else s
  | EmptyString => EmptyString
  end.

Fixpoint trim_right (s : string) : string :=
  match s with
  | EmptyString => EmptyString
  | String c rest =>
      match trim_right rest with
      | EmptyString => if is_space c then EmptyString else String c EmptyString
      | rest' => String c rest'
      end
  end.

(** [strings.TrimSpace]. *)
Definition TrimSpace (s : string) : string := trim_right (trim_left s).

(** [strings.Split s sep] for a non-empty separator: [skip] counts the
    bytes of a separator already matched, [cur] is the piece being read,
    last byte first. *)
Fixpoint Split_go (sep s : string) (skip : nat) (cur : string) : list string :=
  match s with
  | EmptyString => [String.rev cur]
  | String c rest =>
      match skip with
      | S skip' => Split_go sep rest skip' cur
      | O =>
          if String.prefix sep s
          then String.rev cur :: Split_go sep rest (String.length sep - 1) EmptyString
          else Split_go sep rest O (String c cur)
      end
  end.

Definition Split (s sep : string) : list string := Split_go sep s O EmptyString.

End Strings.

Module Time.

(** [time.Duration] is an [int64] count of nanoseconds. *)
Abbreviation Duration := Z.

Definition Nanosecond : Duration := 1.
Definition Microsecond : Duration := 1000.
Definition Millisecond : Duration := 1000000.
Definition Second : Duration := 1000000000.
Definition Minute : Duration := 60000000000.

(** [d.Milliseconds()]: [int64(d) / 1e6], truncating. *)
Definition Milliseconds (d : Duration) : Z := Z.quot d 1000000.

(** [d.Seconds()]. *)
Definition Seconds (d : Duration) : float64 :=
  let sec := Z.quot d Second in
  let nsec := Z.rem d Second in
  Float64.add (Float64.of_int sec)
              (Float64.div (Float64.of_int nsec) Float64.lit_1e9).

(** [time.Since t], that is [time.Now().Sub(t)]: the difference of the two
    instants, saturated to the range of [Duration]. Instants are
    nanoseconds on an unbounded time line. *)
Definition Since (now t : Z) : Duration := Int64.saturate (now - t).

(** [fmtFrac]: the fraction of [v / 10^prec] is put in front of [buf],
    trailing zeros and a bare decimal point omitted. *)
Fixpoint fmtFrac_go (prec : nat) (v : Z) (print : bool) (buf : string)
  : bool * string * Z :=
  match prec with
  | O => (print, buf, v)
  | S prec' =>
      let digit := v mod 10 in
      let print' := print || negb (digit =? 0) in
      let buf' := if print' then String (ascii_of_N (Z.to_N (digit + 48))) buf
                  else buf in
      fmtFrac_go prec' (v / 10) print' buf'
  end.

Definition fmtFrac (buf : string) (v : Z) (prec : nat) : string * Z :=
  let '(print, buf', v') := fmtFrac_go prec v false buf in
  (if print then String "."%char buf' else buf', v').

(** [fmtInt]. *)
Definition fmtInt (buf : string) (v : Z) : string := pretty (Z.to_N v) ++ buf.

Definition micro_sign : string :=
  String (ascii_of_N 194) (String (ascii_of_N 181) EmptyString).

(** [d.String()]. *)
Definition String_ (d : Duration) : string :=
  let neg := d <? 0 in
  let u := if neg then (- d) mod 2 ^ 64 else d in
  let body :=
    if u <? Second then
      if u =? 0 then "0s"
      else
        let '(prec, unit) :=
          if u <? Microsecond then (0%nat, "ns")
          else if u <? Millisecond then (3%nat, micro_sign ++ "s")
          else (6%nat, "ms") in
        let '(buf, u') := fmtFrac unit u prec in
        fmtInt buf u'
    else
      let '(buf, u1) := fmtFrac "s" u 9 in
      let buf := fmtInt buf (u1 mod 60) in
      let u2 := u1 / 60 in
      if 0 <? u2 then
        let buf := fmtInt (String "m"%char buf) (u2 mod 60) in
        let u3 := u2 / 60 in
        if 0 <? u3 then fmtInt (String "h"%char buf) u3 else buf
      else buf in
  if neg && negb (u =? 0) then String "-"%char body else body.

End Time.

(* ===================================================================== *)
(** ** State passing *)
(* ===================================================================== *)

(** Effectful Go code is embedded as a function from the state before to
    the result and the state after. *)
Definition State (S A : Type) : Type := S -> A * S.

Definition ret {S A} (a : A) : State S A := fun s => (a, s).
Definition bind {S A B} (m : State S A) (k : A -> State S B) : State S B :=
  fun s => let '(a, s') := m s in k a s'.

Declare Scope st_scope.
Delimit Scope st_scope with st.
Notation "x <- m ;; k" := (bind m (fun x => k))
  (at level 100, m at next level, right associativity) : st_scope.
Notation "m ;;; k" := (bind m (fun _ => k))
  (at level 100, right associativity) : st_scope.

(* ===================================================================== *)
(** ** Package [pulse]: failure taxonomy (errors.go) *)
(* ===================================================================== *)

Module Pulse.

Import Time.

(** The three sentinel errors. *)
Inductive sentinel : Type :=
  | StragglerDetected
  | HighVariance
  | InterconnectDegraded.

Definition sentinel_eqb (a b : sentinel) : bool :=
  match a, b with
  | StragglerDetected, StragglerDetected => true
  | HighVariance, HighVariance => true
  | InterconnectDegraded, InterconnectDegraded => true
  | _, _ => false
  end.

(** What an error message is formatted from: the format of the source and
    its arguments (the rendering to text is [fmt]'s). *)
Inductive errtext : Type :=
  | TxtCudaError (dev run rc : Z)
  | TxtOutOfMemory (dev run rc : Z)
  | TxtReturnCode (rc dev run : Z)
  | TxtMean (dev : Z) (mean : Duration)
  | TxtCV (dev : Z) (cv : float64)
  | TxtPeerUnavailable (src dst : Z)
  | TxtP2PReturnCode (src dst rc : Z)
  | TxtBandwidth (src dst : Z) (bw min : float64)
  | TxtPreflightECC (i ecc : Z)
  | TxtPreflightTemp (i temp max : Z)
  | TxtClock (i sm max : Z)
  | TxtWrapped (inner : errtext)
  | TxtSentinel (which : Z)
  | TxtOther (msg : string).

(** Go's [error] values as the package builds them. *)
Inductive error : Type :=
  | Sentinel (s : sentinel)
      (* one of the package-level [errors.New] values, compared by identity *)
  | Errorf (t : errtext)
      (* [fmt.Errorf] without [%w], or [errors.New]: wraps nothing *)
  | ErrorfW (t : errtext) (s : sentinel)
      (* [fmt.Errorf] with one [%w], on a sentinel *)
  | PulseFailure (Cause : error) (MeasuredValue ThresholdValue : float64)
                 (Unit : string).

Definition ErrStragglerDetected : error := Sentinel StragglerDetected.
Definition ErrHighVariance : error := Sentinel HighVariance.
Definition ErrInterconnectDegraded : error := Sentinel InterconnectDegraded.

(** [errors.Is err target] for a sentinel target: walk the [Unwrap] chain. *)
Fixpoint errors_Is (err : error) (target : sentinel) : bool :=
  match err with
  | Sentinel s => sentinel_eqb s target
  | Errorf _ => false
  | ErrorfW _ s => sentinel_eqb s target
  | PulseFailure cause _ _ _ => errors_Is cause target
  end.

(** [err.Error()]: what [%v] prints. A carrier prints its cause. *)
Fixpoint Error_ (err : error) : errtext :=
  match err with
  | Sentinel StragglerDetected => TxtSentinel 0
  | Sentinel HighVariance => TxtSentinel 1
  | Sentinel InterconnectDegraded => TxtSentinel 2
  | Errorf t => t
  | ErrorfW t _ => t
  | PulseFailure cause _ _ _ => Error_ cause
  end.

(** [errors.As err &detail] for [*PulseFailure]: the first carrier on the
    [Unwrap] chain, as (measured, threshold, unit). Only a carrier wraps
    another error here, so the chain holds a carrier exactly when the error
    is one. *)
Definition errors_As (err : error) : option (float64 * float64 * string) :=
  match err with
  | PulseFailure _ m t u => Some (m, t, u)
  | _ => None
  end.

Definition IsStragglerErr (err : error) : bool :=
  errors_Is err StragglerDetected
  || errors_Is err HighVariance
  || errors_Is err InterconnectDegraded.

(* ===================================================================== *)
(** ** Package [pulse]: thresholds (errors.go, syscheck.go) *)
(* ===================================================================== *)

(** The process environment; [os.Getenv] gives the empty string for a
    variable that is not set. *)
Definition Getenv (env : gmap string string) (key : string) : string :=
  default "" (env !! key).

Definition nonempty (s : string) : bool :=
  match s with EmptyString => false | _ => true end.

(** [detectGPUThreshold], on the product name that [DetectGPUName] returned. *)
Definition detectGPUThreshold (gpuName : string) : Duration :=
  let name := Strings.ToUpper gpuName in
  if Strings.Contains name "B200" || Strings.Contains name "GB200"
  then Int64.mul 15 Millisecond
  else if Strings.Contains name "H100" || Strings.Contains name "H200"
  then Int64.mul 35 Millisecond
  else if Strings.Contains name "A100"
  then Int64.mul 100 Millisecond
  else Int64.mul 500 Millisecond.

(** [DetectGPUName], on the outcome of the [nvidia-smi] name query: [None]
    when the command failed, else its standard output. *)
Definition DetectGPUName (out : option string) : string :=
  match out with
  | None => "unknown"
  | Some o =>
      let name := Strings.TrimSpace o in
      if nonempty name then name else "unknown"
  end.

(** The initialiser of [stragglerThreshold]. *)
Definition stragglerThreshold (env : gmap string string) (gpuName : string)
  : Duration :=
  let s := Getenv env "PULSE_THRESHOLD_MS" in
  if nonempty s then
    match Strconv.ParseInt s with
    | Strconv.POk v =>
        if 0 <? v then Int64.mul v Millisecond
        else detectGPUThreshold gpuName
    | _ => detectGPUThreshold gpuName
    end
  else detectGPUThreshold gpuName.

(** [envFloat64]; [ParseFloat s] is [strconv.ParseFloat(s, 64)], [None] for
    a non-nil error. *)
Definition envFloat64 (ParseFloat : string -> option float64)
    (env : gmap string string) (key : string) (def : float64) : float64 :=
  let s := Getenv env key in
  if nonempty s then
    match ParseFloat s with
    | Some v => if Float64.gtb v Float64.zero then v else def
    | None => def
    end
  else def.

Definition envInt (env : gmap string string) (key : string) (def : Z) : Z :=
  let s := Getenv env key in
  if nonempty s then
    match Strconv.Atoi s with
    | Strconv.POk v => if 0 <? v then v else def
    | _ => def
    end
  else def.

(** [ThresholdMS], on the resolved [stragglerThreshold]. *)
Definition ThresholdMS (stragglerThreshold : Duration) : Z :=
  Milliseconds stragglerThreshold.

(** The package-level threshold variables, set once at start-up. *)
Record Thresholds : Type := {
  thr_straggler : Duration;        (* stragglerThreshold *)
  thr_cv : float64;                (* maxCoefficientOfVar *)
  thr_p2p : float64;               (* minP2PBandwidthGBs *)
  thr_temp : Z                     (* maxIdleTempC *)
}.

Definition minClockFraction : float64 := Float64.lit_0_5.

Definition initThresholds (ParseFloat : string -> option float64)
    (env : gmap string string) (gpuName : string) : Thresholds :=
  {| thr_straggler := stragglerThreshold env gpuName;
     thr_cv := envFloat64 ParseFloat env "PULSE_CV_MAX" Float64.lit_0_20;
     thr_p2p := envFloat64 ParseFloat env "P2P_MIN_GBS" Float64.lit_5_0;
     thr_temp := envInt env "IDLE_TEMP_MAX" 70 |}.

(* ===================================================================== *)
(** ** Package [pulse]: hardware probes (syscheck.go, gpu_pulse.h) *)
(* ===================================================================== *)

Record gpuStats : Type := {
  SMClockMHz : Z;
  MaxSMClockMHz : Z;
  TempC : Z;
  ECCErrors : Z
}.

(** Return codes of the native library. *)
Definition GPU_PULSE_OK : Z := 0.
Definition GPU_PULSE_ERR_CUDA : Z := 1.
Definition GPU_PULSE_ERR_OOM : Z := 2.
Definition GPU_PULSE_ERR_P2P : Z := 3.

(** What the host answers during one pulse. The pipeline is the only
    reader, so each answer is a function of the question asked:
    - [hw_smi k]: the [k]-th run of the management utility, [None] when the
      command fails, else its standard output;
    - [hw_device_count]: the result of [gpu_device_count()];
    - [hw_gemm dev i]: return code of the [i]-th [run_gpu_pulse(dev)] and
      the wall-clock time the call took;
    - [hw_p2p src dst]: return code of [run_p2p_check(src, dst, &bw)] and
      the bandwidth it stored, if it stored one. *)
Record Hardware : Type := {
  hw_smi : nat -> option string;
  hw_device_count : Z;
  hw_gemm : Z -> nat -> Z * Duration;
  hw_p2p : Z -> Z -> Z * option float64
}.

(** The native and external calls a pulse makes, in order, and the metrics
    it records. *)
Inductive Event : Type :=
  | EvSMI
  | EvDeviceCount
  | EvGemm (dev : Z)
  | EvP2P (src dst : Z)
  | EvPulseDuration (device : string) (seconds : float64)
  | EvPulseCV (device : string) (cv : float64).

(** A pulse is a computation that appends to the event trace. *)
Definition Tr (A : Type) : Type := State (list Event) A.

Definition emit (e : Event) : Tr unit := fun tr => (tt, (tr ++ [e])%list).

(** The field parser of [queryAllSMI]. *)
Definition parseField (s : string) : Z :=
  let s := Strings.TrimSpace s in
  if String.eqb s "N/A" || String.eqb s "[N/A]" then 0
  else Strconv.parsed_value (Strconv.Atoi s).

Definition newline : string := String (ascii_of_N 10) EmptyString.

Fixpoint parseLines (lines : list string) (result : list gpuStats)
  : option (list gpuStats) :=
  match lines with
  | [] => Some result
  | line :: rest =>
      if nonempty line then
        match Strings.Split line ", " with
        | [f0; f1; f2; f3] =>
            parseLines rest
              (result ++ [ {| SMClockMHz := parseField f0;
                              MaxSMClockMHz := parseField f1;
                              TempC := parseField f2;
                              ECCErrors := parseField f3 |} ])%list
        | _ => None
        end
      else parseLines rest result
  end.

(** [queryAllSMI]: [None] is a non-nil error. *)
Definition queryAllSMI (hw : Hardware) (k : nat) : Tr (option (list gpuStats)) :=
  (emit EvSMI ;;;
   ret match hw_smi hw k with
       | None => None
       | Some out => parseLines (Strings.Split (Strings.TrimSpace out) newline) []
       end)%st.

Fixpoint preflight_loop (maxIdleTempC : Z) (i : Z) (stats : list gpuStats)
  : option error :=
  match stats with
  | [] => None
  | s :: rest =>
      if 0 <? ECCErrors s then Some (Errorf (TxtPreflightECC i (ECCErrors s)))
      else if maxIdleTempC <? TempC s
      then Some (Errorf (TxtPreflightTemp i (TempC s) maxIdleTempC))
      else preflight_loop maxIdleTempC (i + 1) rest
  end.

Definition preflight (th : Thresholds) (hw : Hardware) : Tr (option error) :=
  (q <- queryAllSMI hw 0 ;;
   ret match q with
       | None => None
       | Some stats => preflight_loop (thr_temp th) 0 stats
       end)%st.

Fixpoint validateClocks_loop (i : Z) (stats : list gpuStats) : option error :=
  match stats with
  | [] => None
  | s :: rest =>
      if MaxSMClockMHz s =? 0 then validateClocks_loop (i + 1) rest
      else
        let threshold :=
          Float64.to_int (Float64.mul (Float64.of_int (MaxSMClockMHz s))
                                      minClockFraction) in
        if SMClockMHz s <? threshold
        then Some (Errorf (TxtClock i (SMClockMHz s) (MaxSMClockMHz s)))
        else validateClocks_loop (i + 1) rest
  end.

Definition validateClocks (hw : Hardware) : Tr (option error) :=
  (q <- queryAllSMI hw 1 ;;
   ret match q with
       | None => None
       | Some stats => validateClocks_loop 0 stats
       end)%st.

(** [deviceCount]: the C [int] is widened, anything below 1 becomes 1. *)
Definition deviceCount (hw : Hardware) : Tr Z :=
  (emit EvDeviceCount ;;;
   let n := hw_device_count hw in
   ret (if n <? 1 then 1 else n))%st.

(* ===================================================================== *)
(** ** Package [pulse]: statistics and the pipeline (pulse.go) *)
(* ===================================================================== *)

Definition pulseRuns : nat := 5.

(** [computeStats]. [None] is the run-time panic of the integer division
    when the slice is empty. *)
Definition computeStats (durations : list Duration) : option (Duration * float64) :=
  let sum := fold_left (fun acc d => Int64.add acc d) durations 0 in
  match Int64.div sum (Z.of_nat (length durations)) with
  | None => None
  | Some meanNs =>
      let variance :=
        fold_left
          (fun acc d =>
             let delta := Float64.of_int (Int64.sub d meanNs) in
             Float64.add acc (Float64.mul delta delta))
          durations Float64.zero in
      let variance :=
        Float64.div variance (Float64.of_int (Z.of_nat (length durations))) in
      Some (meanNs,
            if 0 <? meanNs
            then Float64.div (Float64.sqrt variance) (Float64.of_int meanNs)
            else Float64.zero)
  end.

(** The timed runs of [runDevicePulse]: [todo] runs are left, [i] is the
    index of the next one, [durations] holds the elapsed times so far. A
    non-zero return code ends the loop with (elapsed, error). *)
Fixpoint timedRuns (hw : Hardware) (deviceID : Z) (todo : nat) (i : nat)
    (durations : list Duration) : Tr (list Duration + Duration * error) :=
  match todo with
  | O => ret (inl durations)
  | S todo' =>
      (emit (EvGemm deviceID) ;;;
       let '(rc, elapsed) := hw_gemm hw deviceID i in
       let run := Z.of_nat i + 1 in
       if rc =? GPU_PULSE_OK
       then timedRuns hw deviceID todo' (S i) (durations ++ [elapsed])%list
       else if rc =? GPU_PULSE_ERR_CUDA
       then ret (inr (elapsed, Errorf (TxtCudaError deviceID run rc)))
       else if rc =? GPU_PULSE_ERR_OOM
       then ret (inr (elapsed, Errorf (TxtOutOfMemory deviceID run rc)))
       else ret (inr (elapsed, Errorf (TxtReturnCode rc deviceID run))))%st
  end.

(** The pass/fail decision of [runDevicePulse] on the statistics. *)
Definition judge (th : Thresholds) (deviceID : Z) (mean : Duration) (cv : float64)
  : option error :=
  if thr_straggler th <? mean then
    Some (PulseFailure (ErrorfW (TxtMean deviceID mean) StragglerDetected)
            (Float64.of_int (Milliseconds mean))
            (Float64.of_int (Milliseconds (thr_straggler th)))
            "ms")
  else if Float64.gtb cv (thr_cv th) then
    Some (PulseFailure (ErrorfW (TxtCV deviceID cv) HighVariance)
            cv (thr_cv th) "cv")
  else None.

(** [runDevicePulse]: (mean, cv, err). *)
Definition runDevicePulse (th : Thresholds) (hw : Hardware) (deviceID : Z)
  : Tr (Duration * float64 * option error) :=
  (r <- timedRuns hw deviceID pulseRuns 0 [] ;;
   ret match r with
       | inr (elapsed, err) => (elapsed, Float64.zero, Some err)
       | inl durations =>
           match computeStats durations with
           | Some (mean, cv) => (mean, cv, judge th deviceID mean cv)
           | None => (0, Float64.zero, None)   (* not reached: five runs *)
           end
       end)%st.

(** [checkP2P]. The Go variable that receives the bandwidth starts at 0. *)
Definition checkP2P (th : Thresholds) (hw : Hardware) (src dst : Z)
  : Tr (option error) :=
  (emit (EvP2P src dst) ;;;
   let '(rc, written) := hw_p2p hw src dst in
   let min := thr_p2p th in
   ret (if rc =? GPU_PULSE_OK then
          let bw := default Float64.zero written in
          if Float64.ltb bw min then
            Some (PulseFailure
                    (ErrorfW (TxtBandwidth src dst bw min) InterconnectDegraded)
                    bw min "gbs")
          else None
        else if rc =? GPU_PULSE_ERR_P2P then
          Some (PulseFailure
                  (ErrorfW (TxtPeerUnavailable src dst) InterconnectDegraded)
                  Float64.zero min "gbs")
        else
          Some (PulseFailure
                  (ErrorfW (TxtP2PReturnCode src dst rc) InterconnectDegraded)
                  Float64.zero min "gbs")))%st.

(** The device loop of [RunPulse]: [todo] devices are left, [dev] is the
    next index. The result is the worst mean when every device passed,
    or the pair that [RunPulse] returns at once. *)
Fixpoint deviceLoop (th : Thresholds) (hw : Hardware) (todo : nat) (dev : Z)
    (worstMean : Duration) : Tr (Duration + Duration * error) :=
  match todo with
  | O => ret (inl worstMean)
  | S todo' =>
      (r <- runDevicePulse th hw dev ;;
       let '(mean, cv, err) := r in
       let devLabel := Strconv.Itoa dev in
       emit (EvPulseDuration devLabel (Seconds mean)) ;;;
       emit (EvPulseCV devLabel cv) ;;;
       match err with
       | Some e => ret (inr (mean, e))
       | None =>
           deviceLoop th hw todo' (dev + 1)
                      (if worstMean <? mean then mean else worstMean)
       end)%st
  end.

(** The ring loop of [RunPulse]: segments [i -> (i+1) % count]. *)
Fixpoint ringLoop (th : Thresholds) (hw : Hardware) (count : Z) (todo : nat)
    (i : Z) : Tr (option error) :=
  match todo with
  | O => ret None
  | S todo' =>
      (e <- checkP2P th hw i (Z.rem (i + 1) count) ;;
       match e with
       | Some err => ret (Some err)
       | None => ringLoop th hw count todo' (i + 1)
       end)%st
  end.

(** The P2P stage of [RunPulse]: skipped unless there are two devices. *)
Definition ringStage (th : Thresholds) (hw : Hardware) (count : Z)
  : Tr (option error) :=
  if 1 <? count then ringLoop th hw count (Z.to_nat count) 0 else ret None.

(** [RunPulse]: (duration, err). *)
Definition RunPulse (th : Thresholds) (hw : Hardware) : Tr (Duration * option error) :=
  (pf <- preflight th hw ;;
   match pf with
   | Some err => ret (0, Some err)
   | None =>
       count <- deviceCount hw ;;
       dl <- deviceLoop th hw (Z.to_nat count) 0 0 ;;
       match dl with
       | inr (mean, err) => ret (mean, Some err)
       | inl worstMean =>
           ring <- ringStage th hw count ;;
           match ring with
           | Some err => ret (worstMean, Some err)
           | None =>
               vc <- validateClocks hw ;;
               match vc with
               | Some err =>
                   ret (worstMean,
                        Some (PulseFailure
                                (ErrorfW (TxtWrapped (Error_ err)) StragglerDetected)
                                (Float64.of_int (Milliseconds worstMean))
                                (Float64.of_int (Milliseconds (thr_straggler th)))
                                "ms"))
               | None => ret (worstMean, None)
               end
           end
       end
   end)%st.

End Pulse.

(* ===================================================================== *)
(** ** Package [k8s]: the reconciliation controller *)
(* ===================================================================== *)

Module K8s.

Import Time.

(** *** Node objects (the fields of [corev1.Node] the controller touches) *)

Record Taint : Type := {
  Key : string;
  Value : string;
  Effect : string
}.

Record NodeCondition : Type := {
  Type_ : string;
  Status : string;
  Reason : string;
  Message : string;
  LastTransitionTime : Z      (* an instant, in nanoseconds *)
}.

Record Node : Type := {
  Name : string;
  Taints : list Taint;               (* node.Spec.Taints *)
  Conditions : list NodeCondition    (* node.Status.Conditions *)
}.

Definition TaintEffectNoSchedule : string := "NoSchedule".
Definition ConditionTrue : string := "True".
Definition ConditionFalse : string := "False".
Definition NodeReady : string := "Ready".

Definition zombieTaintKey : string := "sunk.coreweave.com/zombie-quarantine".
Definition zombieCondition : string := "GPUStraggler".

(** The initialiser of [readyTransitionWindow]. *)
Definition readyTransitionWindow (env : gmap string string) : Duration :=
  let s := Pulse.Getenv env "READY_WINDOW_SECONDS" in
  if Pulse.nonempty s then
    match Strconv.Atoi s with
    | Strconv.POk v =>
        if 0 <? v then Int64.mul v Second else Int64.mul 5 Minute
    | _ => Int64.mul 5 Minute
    end
  else Int64.mul 5 Minute.

(** *** The world a reconciliation runs in *)

Inductive Level : Type := LevelInfo | LevelWarn | LevelError.

Inductive Attr : Type :=
  | AStr (s : string)
  | AInt (n : Z)
  | AFloat (f : float64)
  | ADuration (d : Duration)
  | AErr (e : Pulse.error).

Record LogRecord : Type := {
  log_level : Level;
  log_msg : string;
  log_attrs : list (string * Attr)
}.

(** The requests the controller sends to the API server. *)
Inductive Request : Type :=
  | ReqGet (nodeName : string)
  | ReqPatchSpec (nodeName : string) (taints : list Taint)
  | ReqPatchStatus (nodeName : string) (conds : list NodeCondition).

(** - [nodes]: the objects the API server stores, by name;
    - [requests]: the requests received so far, oldest first;
    - [faults]: the fate of the coming API requests, one entry a request,
      [true] for a request that fails (none left: requests succeed);
    - [clock], [ticks]: [clock k] is what the [k]-th reading of the wall
      clock gives, [ticks] counts the readings made;
    - [pulseCalls]: how often the pulse function was invoked;
    - [logs]: the records written to the controller's logger;
    - [stragglerTotal]: the labels the counter was incremented with. *)
Record World : Type := {
  nodes : gmap string Node;
  requests : list Request;
  faults : list bool;
  clock : nat -> Z;
  ticks : nat;
  pulseCalls : nat;
  logs : list LogRecord;
  stragglerTotal : list string
}.

(** Errors of [ReconcileNode], by the call that failed. *)
Inductive ReconcileError : Type :=
  | ErrGetNode (nodeName : string)
  | ErrPatchSpec
  | ErrPatchStatus
  | ErrPatchSpecRemove
  | ErrPatchStatusClear.

(** The pulse function the controller is built with: the result of its
    [k]-th invocation. *)
Definition pulseFunc : Type := nat -> Duration * option Pulse.error.

Record Controller : Type := {
  runPulse : pulseFunc
}.

(** [NewController]: the real pulse, on the host's hardware. *)
Definition NewController (th : Pulse.Thresholds) (hw : nat -> Pulse.Hardware)
  : Controller :=
  {| runPulse := fun k => fst (Pulse.RunPulse th (hw k) []) |}.

Definition newControllerWithPulse (fn : pulseFunc) : Controller :=
  {| runPulse := fn |}.

(** One request to the API server: it is received, and takes the next
    fault, if any. *)
Definition request (r : Request) : State World bool :=
  fun w =>
    (hd false (faults w),
     {| nodes := nodes w; requests := (requests w ++ [r])%list;
        faults := tl (faults w); clock := clock w;
        ticks := ticks w; pulseCalls := pulseCalls w; logs := logs w;
        stragglerTotal := stragglerTotal w |}).

Definition set_nodes (f : gmap string Node -> gmap string Node) : State World unit :=
  fun w =>
    (tt, {| nodes := f (nodes w); requests := requests w; faults := faults w;
            clock := clock w;
            ticks := ticks w; pulseCalls := pulseCalls w; logs := logs w;
            stragglerTotal := stragglerTotal w |}).

(** [Nodes().Get]: [None] is a non-nil error. *)
Definition Get (nodeName : string) : State World (option Node) :=
  (failed <- request (ReqGet nodeName) ;;
   fun w => (if failed then None else nodes w !! nodeName, w))%st.

(** [Nodes().Patch] with a merge patch [{"spec":{"taints":[...]}}]: the
    array replaces the stored one. [false] is a non-nil error. *)
Definition PatchTaints (nodeName : string) (taints : list Taint) : State World bool :=
  (failed <- request (ReqPatchSpec nodeName taints) ;;
   fun w =>
     match (if failed then None else nodes w !! nodeName) with
     | None => (false, w)
     | Some n =>
         (_ <- set_nodes (insert nodeName
                 {| Name := Name n; Taints := taints; Conditions := Conditions n |}) ;;
          ret true) w
     end)%st.

(** [Nodes().Patch] on the status subresource with
    [{"status":{"conditions":[...]}}]. *)
Definition PatchConditions (nodeName : string) (conds : list NodeCondition)
  : State World bool :=
  (failed <- request (ReqPatchStatus nodeName conds) ;;
   fun w =>
     match (if failed then None else nodes w !! nodeName) with
     | None => (false, w)
     | Some n =>
         (_ <- set_nodes (insert nodeName
                 {| Name := Name n; Taints := Taints n; Conditions := conds |}) ;;
          ret true) w
     end)%st.

(** [time.Now()] / [metav1.Now()]. *)
Definition Now : State World Z :=
  fun w =>
    (clock w (ticks w),
     {| nodes := nodes w; requests := requests w; faults := faults w;
        clock := clock w;
        ticks := S (ticks w); pulseCalls := pulseCalls w; logs := logs w;
        stragglerTotal := stragglerTotal w |}).

Definition Log (lvl : Level) (msg : string) (attrs : list (string * Attr))
  : State World unit :=
  fun w =>
    (tt,
     {| nodes := nodes w; requests := requests w; faults := faults w;
        clock := clock w;
        ticks := ticks w; pulseCalls := pulseCalls w;
        logs := (logs w ++ [ {| log_level := lvl; log_msg := msg;
                                log_attrs := attrs |} ])%list;
        stragglerTotal := stragglerTotal w |}).

(** [metrics.StragglerTotal.WithLabelValues(reason).Inc()]. *)
Definition IncStragglerTotal (reason : string) : State World unit :=
  fun w =>
    (tt,
     {| nodes := nodes w; requests := requests w; faults := faults w;
        clock := clock w;
        ticks := ticks w; pulseCalls := pulseCalls w; logs := logs w;
        stragglerTotal := (stragglerTotal w ++ [reason])%list |}).

(** [c.runPulse()]. *)
Definition callPulse (c : Controller) : State World (Duration * option Pulse.error) :=
  fun w =>
    (runPulse c (pulseCalls w),
     {| nodes := nodes w; requests := requests w; faults := faults w;
        clock := clock w;
        ticks := ticks w; pulseCalls := S (pulseCalls w); logs := logs w;
        stragglerTotal := stragglerTotal w |}).

(** *** controller.go *)

(** The loop of [justBecameReady]; [now] is read when the first condition
    with type Ready and status True is met. *)
Fixpoint justBecameReady_loop (conds : list NodeCondition) (within : Duration)
  : State World bool :=
  match conds with
  | [] => ret false
  | c :: rest =>
      if String.eqb (Type_ c) NodeReady && String.eqb (Status c) ConditionTrue
      then (now <- Now ;;
            ret (Since now (LastTransitionTime c) <? within))%st
      else justBecameReady_loop rest within
  end.

Definition justBecameReady (node : Node) (within : Duration) : State World bool :=
  justBecameReady_loop (Conditions node) within.

Fixpoint IsNodeReady_loop (conds : list NodeCondition) : bool :=
  match conds with
  | [] => false
  | c :: rest =>
      if String.eqb (Type_ c) NodeReady
      then String.eqb (Status c) ConditionTrue
      else IsNodeReady_loop rest
  end.

Definition IsNodeReady (node : Node) : bool := IsNodeReady_loop (Conditions node).

(** [upsertCondition]: the first condition of the same type is replaced in
    place, else the new one is appended. *)
Fixpoint upsertCondition (conditions : list NodeCondition) (c : NodeCondition)
  : list NodeCondition :=
  match conditions with
  | [] => [c]
  | existing :: rest =>
      if String.eqb (Type_ existing) (Type_ c) then c :: rest
      else existing :: upsertCondition rest c
  end.

Definition hasTaintKey (taints : list Taint) (key : string) : bool :=
  existsb (fun t => String.eqb (Key t) key) taints.

(** [applyTaint]. *)
Definition applyTaint (nodeName : string) (node : Node) (elapsed : Duration)
  : State World (option ReconcileError) :=
  if hasTaintKey (Taints node) zombieTaintKey then ret None
  else
    (ok <- PatchTaints nodeName
             (Taints node ++ [ {| Key := zombieTaintKey;
                                  Value := String_ elapsed;
                                  Effect := TaintEffectNoSchedule |} ])%list ;;
     if negb ok then ret (Some ErrPatchSpec)
     else
       now <- Now ;;
       let cond := {| Type_ := zombieCondition;
                      Status := ConditionTrue;
                      Reason := "StragglerDetected";
                      Message := "GPU pulse took " ++ String_ elapsed
                                 ++ " (threshold 500ms)";
                      LastTransitionTime := now |} in
       ok <- PatchConditions nodeName (upsertCondition (Conditions node) cond) ;;
       if negb ok then ret (Some ErrPatchStatus) else ret None)%st.

(** [removeTaint]. *)
Definition removeTaint (nodeName : string) (node : Node)
  : State World (option ReconcileError) :=
  let filtered :=
    List.filter (fun t => negb (String.eqb (Key t) zombieTaintKey)) (Taints node) in
  if (length filtered =? length (Taints node))%nat then ret None
  else
    (ok <- PatchTaints nodeName filtered ;;
     if negb ok then ret (Some ErrPatchSpecRemove)
     else
       now <- Now ;;
       let cond := {| Type_ := zombieCondition;
                      Status := ConditionFalse;
                      Reason := "PulsePassed";
                      Message := "GPU pulse passed; node cleared for Slurm scheduling";
                      LastTransitionTime := now |} in
       ok <- PatchConditions nodeName (upsertCondition (Conditions node) cond) ;;
       if negb ok then ret (Some ErrPatchStatusClear)
       else
         Log LevelInfo "zombie taint removed — node cleared for Slurm"
             [("node_name", AStr nodeName)] ;;;
         ret None)%st.

(** [ReconcileNode], with the resolved [readyTransitionWindow]. *)
Definition ReconcileNode (c : Controller) (window : Duration) (nodeName : string)
  : State World (option ReconcileError) :=
  (got <- Get nodeName ;;
   match got with
   | None => ret (Some (ErrGetNode nodeName))
   | Some node =>
       fresh <- justBecameReady node window ;;
       if negb fresh then ret None
       else
         Log LevelInfo "node ready after join/reboot — running GPU pulse"
             [("node", AStr nodeName)] ;;;
         r <- callPulse c ;;
         let '(elapsed, err) := r in
         match err with
         | None =>
             Log LevelInfo "GPU pulse passed"
                 [("node", AStr nodeName); ("elapsed", ADuration elapsed)] ;;;
             removeTaint nodeName node
         | Some err =>
             if Pulse.IsStragglerErr err then
               let '(logReason, promReason) :=
                 if Pulse.errors_Is err Pulse.HighVariance
                 then ("fail-slow variance pattern (high CV across runs)",
                       "high_variance")
                 else if Pulse.errors_Is err Pulse.InterconnectDegraded
                 then ("NVLink/P2P interconnect degraded", "interconnect_degraded")
                 else ("latency threshold exceeded", "latency_threshold_exceeded") in
               let logArgs :=
                 [("node_name", AStr nodeName);
                  ("failure_reason", AStr logReason);
                  ("elapsed_ms", AInt (Milliseconds elapsed))] in
               let logArgs :=
                 match Pulse.errors_As err with
                 | Some (m, t, u) =>
                     (logArgs ++ [("measured_value", AFloat m);
                                  ("threshold_value", AFloat t);
                                  ("unit", AStr u)])%list
                 | None => logArgs
                 end in
               Log LevelWarn "zombie node quarantined" logArgs ;;;
               IncStragglerTotal promReason ;;;
               applyTaint nodeName node elapsed
             else
               Log LevelError "GPU pulse hard failure — quarantining node"
                   [("node_name", AStr nodeName);
                    ("failure_reason", AStr "pre_flight_failure");
                    ("err", AErr err)] ;;;
               IncStragglerTotal "pre_flight_failure" ;;;
               applyTaint nodeName node elapsed
         end
   end)%st.

End K8s.

(* ===================================================================== *)
(** ** Vocabulary of the specification *)
(* ===================================================================== *)

Module Spec.

Import Time K8s.

(** How many taints carry [key]; how many conditions have type [ty]. *)
Definition taintCount (key : string) (taints : list Taint) : nat :=
  length (List.filter (fun t => String.eqb (Key t) key) taints).

Definition conditionCount (ty : string) (conds : list NodeCondition) : nat :=
  length (List.filter (fun c => String.eqb (Type_ c) ty) conds).

(** The condition the recency gate looks at: the first one with type Ready
    and status True. *)
Definition readyTrue (n : Node) : option NodeCondition :=
  List.find (fun c => String.eqb (Type_ c) NodeReady
                      && String.eqb (Status c) ConditionTrue)
            (Conditions n).

(** The decision of the recency gate on the node [n] in the world [w]:
    the first Ready/True condition is younger than the window at the next
    reading of the clock. *)
Definition recentlyReady (n : Node) (within : Duration) (w : World) : bool :=
  match readyTrue n with
  | Some rc => Since (clock w (ticks w)) (LastTransitionTime rc) <? within
  | None => false
  end.

(** The ready window as configured, in seconds: the value of
    READY_WINDOW_SECONDS when it is a positive integer, else 300. *)
Definition configuredWindowSeconds (env : gmap string string) : Z :=
  match Strconv.Atoi (Pulse.Getenv env "READY_WINDOW_SECONDS") with
  | Strconv.POk v => if 0 <? v then v else 300
  | _ => 300
  end.

(** The condition and the taint that the controller writes. *)
Definition passCondition (now : Z) : NodeCondition :=
  {| Type_ := zombieCondition; Status := ConditionFalse; Reason := "PulsePassed";
     Message := "GPU pulse passed; node cleared for Slurm scheduling";
     LastTransitionTime := now |}.

Definition failCondition (elapsed : Duration) (now : Z) : NodeCondition :=
  {| Type_ := zombieCondition; Status := ConditionTrue;
     Reason := "StragglerDetected";
     Message := "GPU pulse took " ++ String_ elapsed ++ " (threshold 500ms)";
     LastTransitionTime := now |}.

Definition quarantineTaint (elapsed : Duration) : Taint :=
  {| Key := zombieTaintKey; Value := String_ elapsed;
     Effect := TaintEffectNoSchedule |}.

Definition withoutKey (key : string) (taints : list Taint) : list Taint :=
  List.filter (fun t => negb (String.eqb (Key t) key)) taints.

(** The ways [ReconcileNode] returns nil on the node [nodeName]: [n] is the
    stored node before, the index is the stored node after. *)
Inductive Outcome (c : Controller) (nodeName : string) (w : World) (n : Node)
    (w' : World) : Node -> Prop :=
  | OutGate :
      pulseCalls w' = pulseCalls w ->
      requests w' = (requests w ++ [ReqGet nodeName])%list ->
      Outcome c nodeName w n w' n
  | OutPassAbsent elapsed :
      pulseCalls w' = S (pulseCalls w) ->
      runPulse c (pulseCalls w) = (elapsed, None) ->
      hasTaintKey (Taints n) zombieTaintKey = false ->
      requests w' = (requests w ++ [ReqGet nodeName])%list ->
      Outcome c nodeName w n w' n
  | OutPassCleared elapsed now :
      pulseCalls w' = S (pulseCalls w) ->
      runPulse c (pulseCalls w) = (elapsed, None) ->
      hasTaintKey (Taints n) zombieTaintKey = true ->
      requests w' =
        (requests w ++
         [ReqGet nodeName;
          ReqPatchSpec nodeName (withoutKey zombieTaintKey (Taints n));
          ReqPatchStatus nodeName
            (upsertCondition (Conditions n) (passCondition now))])%list ->
      Outcome c nodeName w n w'
        {| Name := Name n; Taints := withoutKey zombieTaintKey (Taints n);
           Conditions := upsertCondition (Conditions n) (passCondition now) |}
  | OutFailPresent elapsed err :
      pulseCalls w' = S (pulseCalls w) ->
      runPulse c (pulseCalls w) = (elapsed, Some err) ->
      hasTaintKey (Taints n) zombieTaintKey = true ->
      requests w' = (requests w ++ [ReqGet nodeName])%list ->
      Outcome c nodeName w n w' n
  | OutFailApplied elapsed err now :
      pulseCalls w' = S (pulseCalls w) ->
      runPulse c (pulseCalls w) = (elapsed, Some err) ->
      hasTaintKey (Taints n) zombieTaintKey = false ->
      requests w' =
        (requests w ++
         [ReqGet nodeName;
          ReqPatchSpec nodeName (Taints n ++ [quarantineTaint elapsed]);
          ReqPatchStatus nodeName
            (upsertCondition (Conditions n) (failCondition elapsed now))])%list ->
      Outcome c nodeName w n w'
        {| Name := Name n;
           Taints := (Taints n ++ [quarantineTaint elapsed])%list;
           Conditions := upsertCondition (Conditions n) (failCondition elapsed now) |}.

(** What an operation of the controller leaves alone besides the API
    server. *)
Definition quiet (w w' : World) : Prop :=
  pulseCalls w' = pulseCalls w /\ stragglerTotal w' = stragglerTotal w
  /\ clock w' = clock w.

(** *** The pipeline *)

Import Pulse.

(** The sum of the samples, unbounded. *)
Definition sumZ (ds : list Z) : Z := fold_right Z.add 0 ds.

(** The mean of the squared deviations from [m], in [float64], the
    deviations themselves being exact integers. *)
Definition meanSquareAbout (m : Z) (ds : list Z) : float64 :=
  Float64.div
    (fold_left (fun acc d => Float64.add acc
                  (Float64.mul (Float64.of_int (d - m)) (Float64.of_int (d - m))))
               ds Float64.zero)
    (Float64.of_int (Z.of_nat (length ds))).

(** The ring over [count] devices: segment [i -> (i+1) mod count] for
    [i] from 0 to [count - 1]. *)
Definition segment (count i : Z) : Z * Z := (i, (i + 1) mod count).

Definition ring (count : Z) : list (Z * Z) :=
  List.map (segment count) (seqZ 0 count).

(** A segment fails when the native call returns a non-zero code or
    reports a bandwidth below the minimum. *)
Definition segmentFails (th : Thresholds) (hw : Hardware) (sd : Z * Z) : bool :=
  let '(rc, written) := hw_p2p hw (fst sd) (snd sd) in
  negb (rc =? 0)
  || Float64.ltb (default Float64.zero written) (thr_p2p th).

(** The segments that are probed: up to and including the first that
    fails. *)
Fixpoint probed (fails : Z * Z -> bool) (segs : list (Z * Z)) : list (Z * Z) :=
  match segs with
  | [] => []
  | sd :: rest => if fails sd then [sd] else sd :: probed fails rest
  end.

Definition probeEvent (sd : Z * Z) : Event := EvP2P (fst sd) (snd sd).

(** The error [checkP2P] returns for a segment, and the error of the first
    segment that fails. *)
Definition segmentError (th : Thresholds) (hw : Hardware) (sd : Z * Z)
  : option error :=
  fst (checkP2P th hw (fst sd) (snd sd) []).

Definition firstError (th : Thresholds) (hw : Hardware) (segs : list (Z * Z))
  : option error :=
  match List.find (segmentFails th hw) segs with
  | Some sd => segmentError th hw sd
  | None => None
  end.

Definition isP2P (e : Event) : bool :=
  match e with EvP2P _ _ => true | _ => false end.

(** The same host with another answer to [gpu_device_count()]. *)
Definition withDeviceCount (hw : Hardware) (n : Z) : Hardware :=
  {| hw_smi := hw_smi hw; hw_device_count := n;
     hw_gemm := hw_gemm hw; hw_p2p := hw_p2p hw |}.

(** The elapsed times of the five runs on a device. *)
Definition fiveRuns (hw : Hardware) (dev : Z) : list Duration :=
  List.map (fun i => snd (hw_gemm hw dev i)) [0; 1; 2; 3; 4]%nat.

(** The largest value of PULSE_THRESHOLD_MS whose nanoseconds fit
    [int64]. *)
Definition maxThresholdMS : Z := 9223372036854.

(** *** What the device loop returns *)

(** What [runDevicePulse] returns for a device. *)
Definition deviceResult (th : Thresholds) (hw : Hardware) (dev : Z)
  : Duration * float64 * option error :=
  fst (runDevicePulse th hw dev []).

Definition deviceMean (th : Thresholds) (hw : Hardware) (dev : Z) : Duration :=
  fst (fst (deviceResult th hw dev)).

Definition devicePasses (th : Thresholds) (hw : Hardware) (dev : Z) : bool :=
  match snd (deviceResult th hw dev) with None => true | Some _ => false end.

(** The largest mean among the devices, and [worst]. *)
Definition worstOf (th : Thresholds) (hw : Hardware) (devs : list Z) (worst : Duration)
  : Duration :=
  fold_left (fun w dev => Z.max w (deviceMean th hw dev)) devs worst.

(** The device count the pipeline works with. *)
Definition effectiveCount (hw : Hardware) : Z :=
  if hw_device_count hw <? 1 then 1 else hw_device_count hw.

(** *** Traces and overrides *)

(** [m] only appends events that satisfy [P]. *)
Definition appends (P : Event -> Prop) {A} (m : Tr A) : Prop :=
  forall tr, exists evs, snd (m tr) = (tr ++ evs)%list /\ Forall P evs.

(** The events of the GEMM stage for the devices [lo <= dev < hi]. *)
Definition gemmStage (lo hi : Z) (e : Event) : Prop :=
  match e with
  | EvGemm dev => lo <= dev < hi
  | EvPulseDuration _ _ | EvPulseCV _ _ => True
  | _ => False
  end.

Definition isSMI (e : Event) : Prop := e = EvSMI.

(** The override as the operator wrote it: the integer that
    PULSE_THRESHOLD_MS (or another integer variable) parses to, when it
    parses and is positive. *)
Definition intOverride (env : gmap string string) (key : string) : option Z :=
  match Strconv.ParseInt (Getenv env key) with
  | Strconv.POk v => if 0 <? v then Some v else None
  | _ => None
  end.

End Spec.

(* ===================================================================== *)
(** ** Scenarios *)
(* ===================================================================== *)

(** The nodes, worlds and pulse functions of [syncer_test.go], and a few
    more in their style. *)
Module Scenarios.

Import Time K8s.

(** The instant at which the scenarios run. *)
Definition t0 : Z := 1700000000 * Second.

Definition ms (n : Z) : Duration := n * Millisecond.
Definition minutes (n : Z) : Duration := n * Minute.

(** [freshNode]: a node whose Ready condition went True [age] ago. *)
Definition freshNode (name : string) (age : Duration) : Node :=
  {| Name := name;
     Taints := [];
     Conditions := [ {| Type_ := NodeReady; Status := ConditionTrue;
                        Reason := ""; Message := "";
                        LastTransitionTime := t0 - age |} ] |}.

(** [quarantinedNode]: the same, with the taint of an earlier failure. *)
Definition quarantinedNode (name : string) (age : Duration) : Node :=
  {| Name := name;
     Taints := [ {| Key := zombieTaintKey; Value := "820ms";
                    Effect := TaintEffectNoSchedule |} ];
     Conditions := Conditions (freshNode name age) |}.

(** A node that someone else tainted with the quarantine key, to evict. *)
Definition evictedNode (name : string) (age : Duration) : Node :=
  {| Name := name;
     Taints := [ {| Key := zombieTaintKey; Value := "manual";
                    Effect := "NoExecute" |} ];
     Conditions := Conditions (freshNode name age) |}.

(** A node whose taint was taken off by hand after a quarantine: the
    condition of the quarantine is still there. *)
Definition untaintedNode (name : string) (age : Duration) : Node :=
  {| Name := name;
     Taints := [];
     Conditions :=
       Conditions (freshNode name age) ++
       [ {| Type_ := zombieCondition; Status := ConditionTrue;
            Reason := "StragglerDetected";
            Message := "GPU pulse took 820ms (threshold 500ms)";
            LastTransitionTime := t0 - minutes 60 |} ] |}.

(** The fake API server holding one node, no faults, the clock at [t0]. *)
Definition world (n : Node) : World :=
  {| nodes := {[ Name n := n ]};
     requests := [];
     faults := [];
     clock := fun _ => t0;
     ticks := 0;
     pulseCalls := 0;
     logs := [];
     stragglerTotal := [] |}.

(** A process environment with no variable set. *)
Definition emptyEnv : gmap string string := ∅.

(** A mock pulse with a fixed answer. *)
Definition mockPulse (d : Duration) (err : option Pulse.error) : Controller :=
  newControllerWithPulse (fun _ => (d, err)).

(** Run one reconciliation and look at the result, the stored node and the
    number of pulse invocations. *)
Definition observe (c : Controller) (window : Duration) (n : Node)
  : option ReconcileError * option Node * nat :=
  let '(r, w') := ReconcileNode c window (Name n) (world n) in
  (r, nodes w' !! Name n, pulseCalls w').

(** *** Hosts *)

Import Pulse.

(** The thresholds of a host with an unrecognised GPU and no overrides. *)
Definition defaultThresholds : Thresholds :=
  {| thr_straggler := ms 500; thr_cv := Float64.lit_0_20;
     thr_p2p := Float64.lit_5_0; thr_temp := 70 |}.

(** Output of the management utility for [n] cool devices at full clock. *)
Fixpoint smiRows (n : nat) : string :=
  match n with
  | O => ""
  | S n' => "1980, 1980, 45, 0" ++ newline ++ smiRows n'
  end.

Definition gbs (n : Z) : float64 := Float64.of_int n.

(** Two devices: device 0 takes 100 ms on every run; device 1 takes 10 ms
    four times and 210 ms once. *)
Definition hwUneven : Hardware :=
  {| hw_smi := fun _ => Some (smiRows 2);
     hw_device_count := 2;
     hw_gemm := fun dev i =>
       if dev =? 0 then (0, ms 100)
       else (0, if (i =? 4)%nat then ms 210 else ms 10);
     hw_p2p := fun _ _ => (0, Some (gbs 100)) |}.

(** Two steady devices, 100 ms and 50 ms, with a dead link 1 -> 0. *)
Definition hwDeadLink : Hardware :=
  {| hw_smi := fun _ => Some (smiRows 2);
     hw_device_count := 2;
     hw_gemm := fun dev _ => if dev =? 0 then (0, ms 100) else (0, ms 50);
     hw_p2p := fun src _ =>
       if src =? 1 then (GPU_PULSE_ERR_P2P, None) else (0, Some (gbs 100)) |}.

(** Three steady devices; the probe 1 -> 2 cannot allocate its buffers
    (return code 2, no bandwidth stored); the other links make 100 GB/s. *)
Definition hwRingOOM : Hardware :=
  {| hw_smi := fun _ => Some (smiRows 3);
     hw_device_count := 3;
     hw_gemm := fun _ _ => (0, ms 100);
     hw_p2p := fun src _ =>
       if src =? 1 then (GPU_PULSE_ERR_OOM, None) else (0, Some (gbs 100)) |}.

(** Three steady devices on a healthy ring. *)
Definition hwHealthy3 : Hardware :=
  {| hw_smi := fun _ => Some (smiRows 3);
     hw_device_count := 3;
     hw_gemm := fun _ _ => (0, ms 100);
     hw_p2p := fun _ _ => (0, Some (gbs 100)) |}.

(** A host whose device enumeration fails; the device itself works. *)
Definition hwNoCount : Hardware :=
  {| hw_smi := fun _ => None;
     hw_device_count := -1;
     hw_gemm := fun _ _ => (0, ms 100);
     hw_p2p := fun _ _ => (GPU_PULSE_ERR_P2P, None) |}.

(** A device that is slow and erratic at once: 100, 100, 100, 100 and
    2600 ms, mean 600 ms. *)
Definition hwSlowErratic : Hardware :=
  {| hw_smi := fun _ => None;
     hw_device_count := 1;
     hw_gemm := fun _ i => (0, if (i =? 4)%nat then ms 2600 else ms 100);
     hw_p2p := fun _ _ => (0, Some (gbs 100)) |}.

(** A device just above the fall-back threshold of 500 ms: four runs of
    500 ms and one of 500 ms and 4 ns, an exact mean of 500000000.8 ns. *)
Definition hwBarelySlow : Hardware :=
  {| hw_smi := fun _ => None;
     hw_device_count := 1;
     hw_gemm := fun _ i => (0, if (i =? 4)%nat then ms 500 + 4 else ms 500);
     hw_p2p := fun _ _ => (0, Some (gbs 100)) |}.

(** An environment with one variable set. *)
Definition env1 (key value : string) : gmap string string := {[ key := value ]}.

End Scenarios.

(* ===================================================================== *)
(** ** The build without the cuda tag *)
(* ===================================================================== *)

Module Stub.

Import Pulse K8s.

(** [RunPulse] of the build without the cuda tag. *)
Definition RunPulse : Time.Duration * option error :=
  (0, Some (Errorf (TxtOther "built without cuda support: recompile with -tags cuda"))).

(** [NewController] in that build. *)
Definition NewController : Controller :=
  {| runPulse := fun _ => RunPulse |}.

End Stub.

(* ===================================================================== *)
(** ** Vocabulary for the controller: reasons, evidence, the open gate *)
(* ===================================================================== *)

Module Evidence.
Import Time Pulse K8s Spec.

(** The sentinel at the end of the [Unwrap] chain of an error, if any. *)
Fixpoint sentinelOf (e : error) : option sentinel :=
  match e with
  | Sentinel s => Some s
  | Errorf _ => None
  | ErrorfW _ s => Some s
  | PulseFailure cause _ _ _ => sentinelOf cause
  end.

(** The value of the [reason] label of the quarantine counter. *)
Definition reasonLabel (s : option sentinel) : string :=
  match s with
  | Some StragglerDetected => "latency_threshold_exceeded"
  | Some HighVariance => "high_variance"
  | Some InterconnectDegraded => "interconnect_degraded"
  | None => "pre_flight_failure"
  end.

(** The recency gate lets the node through: its first Ready/True condition
    is younger than the window at the next reading of the clock. *)
Definition gateOpen (n : Node) (within : Duration) (w : World) : Prop :=
  exists rc, readyTrue n = Some rc
    /\ Since (clock w (ticks w)) (LastTransitionTime rc) < within.

(** The node with other taints, or other conditions. *)
Definition withTaints (n : Node) (taints : list Taint) : Node :=
  {| Name := Name n; Taints := taints; Conditions := Conditions n |}.

Definition withConditions (n : Node) (conds : list NodeCondition) : Node :=
  {| Name := Name n; Taints := Taints n; Conditions := conds |}.

(** The world when [ReconcileNode] reaches [removeTaint] or [applyTaint]:
    the node was fetched, the clock read once, the pulse invoked once;
    [lgs] are the records logged and [labels] the counter increments. *)
Definition afterPulse (w : World) (nodeName : string) (lgs : list LogRecord)
    (labels : list string) : World :=
  {| nodes := nodes w;
     requests := (requests w ++ [ReqGet nodeName])%list;
     faults := tl (faults w);
     clock := clock w;
     ticks := S (ticks w);
     pulseCalls := S (pulseCalls w);
     logs := (logs w ++ lgs)%list;
     stragglerTotal := (stragglerTotal w ++ labels)%list |}.

(** The record that announces the pulse. *)
Definition announceLog (nodeName : string) : LogRecord :=
  {| log_level := LevelInfo;
     log_msg := "node ready after join/reboot — running GPU pulse";
     log_attrs := [("node", AStr nodeName)] |}.

(** The attributes the evidence record always has, and those it takes from
    a failure carrier. *)
Definition baseEvidence (nodeName reason : string) (elapsed : Duration)
  : list (string * Attr) :=
  [("node_name", AStr nodeName); ("failure_reason", AStr reason);
   ("elapsed_ms", AInt (Milliseconds elapsed))].

Definition carrierEvidence (measured threshold : float64) (unit : string)
  : list (string * Attr) :=
  [("measured_value", AFloat measured); ("threshold_value", AFloat threshold);
   ("unit", AStr unit)].

(** The text of the [failure_reason] attribute. *)
Definition reasonText (s : sentinel) : string :=
  match s with
  | StragglerDetected => "latency threshold exceeded"
  | HighVariance => "fail-slow variance pattern (high CV across runs)"
  | InterconnectDegraded => "NVLink/P2P interconnect degraded"
  end.

End Evidence.

(* ===================================================================== *)
(** ** An API server that refuses requests *)
(* ===================================================================== *)

Module Faults.

Import Time K8s Scenarios.

(** The fake API server of [world], with a script of failing requests. *)
Definition faultyWorld (n : Node) (script : list bool) : World :=
  {| nodes := nodes (world n); requests := []; faults := script;
     clock := fun _ => t0; ticks := 0; pulseCalls := 0; logs := [];
     stragglerTotal := [] |}.

End Faults.

(* ===================================================================== *)
(** ** Vocabulary for the pipeline: stages and their verdicts *)
(* ===================================================================== *)

Module Stages.

Import Time Pulse Spec.

(** What [queryAllSMI] returns on its [k]-th run. *)
Definition smiStats (hw : Hardware) (k : nat) : option (list gpuStats) :=
  fst (queryAllSMI hw k []).

(** A device the pre-flight check rejects. *)
Definition unfit (maxIdleTempC : Z) (s : gpuStats) : bool :=
  (0 <? ECCErrors s) || (maxIdleTempC <? TempC s).

(** The error of the pre-flight check for row [i]. *)
Definition unfitError (maxIdleTempC : Z) (i : Z) (s : gpuStats) : error :=
  if 0 <? ECCErrors s then Errorf (TxtPreflightECC i (ECCErrors s))
  else Errorf (TxtPreflightTemp i (TempC s) maxIdleTempC).

(** The clock floor of a device: [int(float64(max) * minClockFraction)]. *)
Definition clockFloor (s : gpuStats) : Z :=
  Float64.to_int (Float64.mul (Float64.of_int (MaxSMClockMHz s)) minClockFraction).

(** A device the post-pulse check rejects. *)
Definition derated (s : gpuStats) : bool :=
  negb (MaxSMClockMHz s =? 0) && (SMClockMHz s <? clockFloor s).

(** The verdicts of the four stages, each on its own. *)
Definition preflightVerdict (th : Thresholds) (hw : Hardware) : option error :=
  fst (preflight th hw []).

Definition firstFailing (th : Thresholds) (hw : Hardware) : option Z :=
  List.find (fun d => negb (devicePasses th hw d)) (seqZ 0 (effectiveCount hw)).

Definition worstMean (th : Thresholds) (hw : Hardware) : Duration :=
  worstOf th hw (seqZ 0 (effectiveCount hw)) 0.

Definition ringVerdict (th : Thresholds) (hw : Hardware) : option error :=
  if 1 <? effectiveCount hw
  then firstError th hw (ring (effectiveCount hw)) else None.

Definition clockVerdict (hw : Hardware) : option error :=
  fst (validateClocks hw []).

(** The carrier [RunPulse] wraps a clock error in. *)
Definition clockFailure (th : Thresholds) (worst : Duration) (e : error) : error :=
  PulseFailure (ErrorfW (TxtWrapped (Error_ e)) StragglerDetected)
    (Float64.of_int (Milliseconds worst))
    (Float64.of_int (Milliseconds (thr_straggler th)))
    "ms".

(** The text of the error for run [i] (counted from 0) of device [dev]
    that returned the code [rc]. *)
Definition runError (dev : Z) (i : nat) (rc : Z) : errtext :=
  if rc =? GPU_PULSE_ERR_CUDA then TxtCudaError dev (Z.of_nat i + 1) rc
  else if rc =? GPU_PULSE_ERR_OOM then TxtOutOfMemory dev (Z.of_nat i + 1) rc
  else TxtReturnCode rc dev (Z.of_nat i + 1).

End Stages.

(* ===================================================================== *)
(** ** More hosts *)
(* ===================================================================== *)

Module Hosts.

Import Time Pulse Scenarios.

(** Two devices; the second reports three uncorrectable ECC errors. *)
Definition hwECC : Hardware :=
  {| hw_smi := fun _ => Some ("1980, 1980, 45, 0" ++ newline ++ "1980, 1980, 45, 3");
     hw_device_count := 2;
     hw_gemm := fun _ _ => (0, ms 100);
     hw_p2p := fun _ _ => (0, Some (gbs 100)) |}.

(** One steady device whose SM clock is stuck at 900 of 1980 MHz after the
    pulse. *)
Definition hwDerated : Hardware :=
  {| hw_smi := fun k => Some (if (k =? 0)%nat then "1980, 1980, 45, 0"
                              else "900, 1980, 45, 0");
     hw_device_count := 1;
     hw_gemm := fun _ _ => (0, ms 100);
     hw_p2p := fun _ _ => (0, Some (gbs 100)) |}.

(** One device whose third run ends in a CUDA error after 7 ms. *)
Definition hwCudaError : Hardware :=
  {| hw_smi := fun _ => None;
     hw_device_count := 1;
     hw_gemm := fun _ i => if (i =? 2)%nat then (GPU_PULSE_ERR_CUDA, ms 7)
                           else (0, ms 100);
     hw_p2p := fun _ _ => (0, Some (gbs 100)) |}.

End Hosts.

(* ===================================================================== *)
(** ** The benchmark command (cmd/benchmark/main.go) *)
(* ===================================================================== *)

Module Benchmark.

Import Time Pulse.

(** The outcome of one run. [FailureReason] is the text of the error,
    [None] for the empty string of a run that passed. *)
Record runResult : Type := {
  Run : Z;
  ElapsedMS : Z;
  Verdict : string;
  FailureReason : option errtext;
  MeasuredValue : float64;
  ThresholdValue : float64;
  Unit : string
}.

(** [reportSummary]; its verdict field is [SummaryVerdict] here. *)
Record reportSummary : Type := {
  Total : Z;
  Passed : Z;
  Failed : Z;
  WorstElapsedMS : Z;
  SummaryVerdict : string
}.

Record report : Type := {
  Timestamp : string;
  Hostname : string;
  GPUArch : string;
  CalibratedThreshMS : Z;
  Scenario : string;
  Runs : list runResult;
  Summary : reportSummary
}.

(** A scenario has the signature of [pulse.RunPulse]; as for the pulse
    function of the controller, [fn k] is the result of its [k]-th
    invocation. *)
Definition scenario : Type := nat -> Duration * option error.

(** The literals 0.350 and 1.20: the nearest binary64 numbers. *)
Definition lit_0_350 : float64 := S754_finite false 6305039478318694 (-54).
Definition lit_1_20 : float64 := S754_finite false 5404319552844595 (-52).

Definition msgStraggler : string :=
  "straggler detected: GPU pulse latency exceeded threshold".
Definition msgHighVariance : string :=
  "straggler detected: high run-to-run variance (fail-slow pattern)".
Definition msgInterconnect : string :=
  "straggler detected: NVLink/P2P bandwidth below threshold".

(** The simulated scenarios, on the value of [pulse.ThresholdMS()]. *)
Definition healthy (thresholdMS : Z) : scenario := fun _ =>
  let elapsed := Int64.mul (Z.quot thresholdMS 4) Millisecond in
  let elapsed := if elapsed <? Millisecond then Millisecond else elapsed in
  (elapsed, None).

Definition straggler (thresholdMS : Z) : scenario := fun _ =>
  let threshMS := thresholdMS in
  let elapsed := Int64.mul (Int64.mul threshMS 5) Millisecond in
  (elapsed,
   Some (PulseFailure
           (ErrorfW (TxtOther ("GPU 0: " ++ msgStraggler ++ " (mean="
                               ++ Strconv.Itoa (Int64.mul threshMS 5) ++ "ms)"))
                    StragglerDetected)
           (Float64.of_int (Int64.mul threshMS 5))
           (Float64.of_int threshMS)
           "ms")).

Definition highVariance (thresholdMS : Z) : scenario := fun _ =>
  let elapsed := Int64.mul (Z.quot thresholdMS 3) Millisecond in
  let elapsed := if elapsed <? Millisecond then Millisecond else elapsed in
  (elapsed,
   Some (PulseFailure
           (ErrorfW (TxtOther ("GPU 0: " ++ msgHighVariance ++ " (cv=0.350)"))
                    HighVariance)
           lit_0_350 Float64.lit_0_20 "cv")).

Definition p2pDegraded : scenario := fun _ =>
  (0,
   Some (PulseFailure
           (ErrorfW (TxtOther ("GPU 2→3: " ++ msgInterconnect
                               ++ " (1.20 GB/s < 5.0 GB/s minimum)"))
                    InterconnectDegraded)
           lit_1_20 Float64.lit_5_0 "gbs")).

(** The map [scenarios]; [real] is [pulse.RunPulse] of the build. *)
Definition scenarios (real : scenario) (thresholdMS : Z) : gmap string scenario :=
  {[ "real" := real;
     "healthy" := healthy thresholdMS;
     "straggler" := straggler thresholdMS;
     "high-variance" := highVariance thresholdMS;
     "p2p-degraded" := p2pDegraded ]}.

(** The record [execute] makes of run [i] from what the scenario returned. *)
Definition record (i : Z) (res : Duration * option error) : runResult :=
  let '(elapsed, err) := res in
  match err with
  | None =>
      {| Run := i; ElapsedMS := Milliseconds elapsed; Verdict := "pass";
         FailureReason := None; MeasuredValue := Float64.zero;
         ThresholdValue := Float64.zero; Unit := "" |}
  | Some e =>
      match errors_As e with
      | Some (m, t, u) =>
          {| Run := i; ElapsedMS := Milliseconds elapsed; Verdict := "fail";
             FailureReason := Some (Error_ e); MeasuredValue := m;
             ThresholdValue := t; Unit := u |}
      | None =>
          {| Run := i; ElapsedMS := Milliseconds elapsed; Verdict := "fail";
             FailureReason := Some (Error_ e); MeasuredValue := Float64.zero;
             ThresholdValue := Float64.zero; Unit := "" |}
      end
  end.

(** The loop of [execute]: [todo] iterations are left, [i] is the loop
    variable, [k] counts the invocations of [fn]. *)
Fixpoint execute_loop (fn : scenario) (todo : nat) (i : Z) (k : nat)
    (results : list runResult) : list runResult :=
  match todo with
  | O => results
  | S todo' =>
      execute_loop fn todo' (i + 1) (S k) (results ++ [record i (fn k)])%list
  end.

(** A [runResult] takes 80 bytes on a 64-bit platform: two integers, two
    floats and three strings of two words each. The run-time refuses an
    allocation of more than [maxAlloc] bytes, 2^48 on linux/amd64. *)
Definition runResultSize : Z := 80.
Definition maxAlloc : Z := 2 ^ 48.

(** [execute], on a host that has the memory for [room] runs. [None] is
    the death of the process: the run-time panic of
    [make([]runResult, 0, count)] on a negative capacity and on a capacity
    of more than [maxAlloc] bytes, and the fatal error of a host that has
    not the memory. The loop [for i := 1; i <= count; i++] runs [count]
    times. *)
Definition execute (room : Z) (fn : scenario) (count : Z)
  : option (list runResult) :=
  if (count <? 0) || (maxAlloc <? count * runResultSize) || (room <? count)
  then None
  else Some (execute_loop fn (Z.to_nat count) 1 0 []).

(** [summarize]. The counters are bounded by the length of the slice. *)
Definition summarize (runs : list runResult) : reportSummary :=
  let s :=
    fold_left
      (fun s r =>
         let s :=
           if String.eqb (Verdict r) "pass"
           then {| Total := Total s; Passed := Passed s + 1; Failed := Failed s;
                   WorstElapsedMS := WorstElapsedMS s;
                   SummaryVerdict := SummaryVerdict s |}
           else {| Total := Total s; Passed := Passed s; Failed := Failed s + 1;
                   WorstElapsedMS := WorstElapsedMS s;
                   SummaryVerdict := SummaryVerdict s |} in
         if WorstElapsedMS s <? ElapsedMS r
         then {| Total := Total s; Passed := Passed s; Failed := Failed s;
                 WorstElapsedMS := ElapsedMS r;
                 SummaryVerdict := SummaryVerdict s |}
         else s)
      runs
      {| Total := Z.of_nat (length runs); Passed := 0; Failed := 0;
         WorstElapsedMS := 0; SummaryVerdict := "" |} in
  {| Total := Total s; Passed := Passed s; Failed := Failed s;
     WorstElapsedMS := WorstElapsedMS s;
     SummaryVerdict := if 0 <? Failed s then "STRAGGLER" else "HEALTHY" |}.

(** A run that passed, as [summarize] tells it. *)
Definition passed (r : runResult) : bool := String.eqb (Verdict r) "pass".

(** What the command sees of its host. *)
Record Host : Type := {
  host_name : string;        (* os.Hostname() *)
  host_now : string;         (* time.Now().UTC().Format(time.RFC3339) *)
  host_gpu : string;         (* pulse.DetectGPUName() *)
  host_thresholdMS : Z;      (* pulse.ThresholdMS() *)
  host_real : scenario;      (* pulse.RunPulse *)
  host_room : Z              (* the largest count the host has the memory for *)
}.

(** How the command ends: with status 1 and a message, by the death of
    the process (a panic, or a fatal error for want of memory), or with
    the report printed. *)
Inductive Outcome : Type :=
  | Exit1 (stderr : string)
  | Crashed
  | Printed (r : report).

(** [encoding/json] refuses a float that is NaN or infinite. *)
Definition encodable (f : float64) : bool :=
  match f with
  | S754_zero _ | S754_finite _ _ _ => true
  | _ => false
  end.

(** [main], on the values of the flags [--scenario] and [--count]. *)
Definition main (h : Host) (scenarioName : string) (count : Z) : Outcome :=
  match scenarios (host_real h) (host_thresholdMS h) !! scenarioName with
  | None => Exit1 "unknown scenario"
  | Some fn =>
      if count <? 1 then Exit1 "--count must be >= 1"
      else
        match execute (host_room h) fn count with
        | None => Crashed
        | Some runs =>
            if forallb (fun r => encodable (MeasuredValue r)
                                 && encodable (ThresholdValue r)) runs
            then Printed {| Timestamp := host_now h; Hostname := host_name h;
                            GPUArch := host_gpu h;
                            CalibratedThreshMS := host_thresholdMS h;
                            Scenario := scenarioName; Runs := runs;
                            Summary := summarize runs |}
            else Exit1 "json encode"
        end
  end.

(** The counts [execute] has the room for on the host. *)
Definition fits (h : Host) (count : Z) : Prop :=
  count * runResultSize <= maxAlloc /\ count <= host_room h.

(** A host with an A100 and the stub pulse, for the examples. *)
Definition hostA100 : Host :=
  {| host_name := "bench-1"; host_now := "2025-01-01T00:00:00Z";
     host_gpu := "NVIDIA A100"; host_thresholdMS := 100;
     host_real := fun _ => Stub.RunPulse;
     host_room := 1000000 |}.

End Benchmark.

(* ===================================================================== *)
(** ** The agent command (cmd/agent/main.go): the watch loop *)
(* ===================================================================== *)

Module Agent.

Import Time K8s.

(** The types of watch events. *)
Inductive EventType : Type := Added | Modified | Deleted | Bookmark | Error.

(** The object of an event: a node, or something the type assertion of
    [ev.Object] to a node pointer refuses. *)
Inductive Object : Type :=
  | ObjNode (n : Node)
  | ObjOther.

(** What one [select] of [watchOnce] receives: the cancellation of the
    context, the closing of the result channel, or an event. *)
Inductive Received : Type :=
  | CtxDone
  | ChanClosed
  | Ev (ty : EventType) (obj : Object).

(** How [watchOnce] stands after the stream it was given: returned an
    error, returned nil, or still waiting in [select]. *)
Inductive WatchReturn : Type := RetErr | RetNil | Waiting.

(** The loop of [watchOnce]: [i] is the position of the next item of the
    stream, [spawned] the positions of the events for which
    [go tryReconcile] was started. *)
Fixpoint watch_loop (wasReady : bool) (i : nat) (stream : list Received)
    (spawned : list nat) : WatchReturn * list nat :=
  match stream with
  | [] => (Waiting, spawned)
  | CtxDone :: _ => (RetNil, spawned)
  | ChanClosed :: _ => (RetNil, spawned)
  | Ev ty obj :: rest =>
      match ty with
      | Modified | Added =>
          match obj with
          | ObjNode node =>
              let ready := IsNodeReady node in
              watch_loop ready (S i) rest
                (if ready && negb wasReady then spawned ++ [i] else spawned)%list
          | ObjOther => watch_loop wasReady (S i) rest spawned
          end
      | _ => watch_loop wasReady (S i) rest spawned
      end
  end.

(** [watchOnce]; [opened] tells whether the watch could be opened. *)
Definition watchOnce (opened : bool) (stream : list Received)
  : WatchReturn * list nat :=
  if opened then watch_loop false 0 stream [] else (RetErr, []).

(** One turn of the loop of [run]: whether [watchOnce] returned an error,
    whether the context was cancelled when it returned, and whether it was
    cancelled during the wait. *)
Record Round : Type := {
  watchFailed : bool;
  cancelledAfterWatch : bool;
  cancelledInWait : bool
}.

(** What [run] does besides watching. *)
Inductive Action : Type :=
  | Warned (backoff : Duration)      (* "watch ended, reconnecting" *)
  | Waited (backoff : Duration).     (* time.After(backoff) fired *)

Definition maxBackoff : Duration := Int64.mul 30 Second.

(** The loop of [run]. The result tells whether [run] returned; it has
    not when the rounds given are used up. *)
Fixpoint run_loop (backoff : Duration) (rounds : list Round) (trace : list Action)
  : bool * list Action :=
  match rounds with
  | [] => (false, trace)
  | r :: rest =>
      if watchFailed r && cancelledAfterWatch r then (true, trace)
      else
        let trace := if watchFailed r then (trace ++ [Warned backoff])%list
                     else trace in
        if cancelledAfterWatch r then (true, trace)
        else if cancelledInWait r then (true, trace)
        else run_loop (Z.min (Int64.mul backoff 2) maxBackoff) rest
                      (trace ++ [Waited backoff])%list
  end.

Definition run (rounds : list Round) : bool * list Action :=
  run_loop Second rounds [].

(** *** Vocabulary *)

(** The readiness an item of the stream shows, when [watchOnce] looks at
    it: only Added and Modified events that carry a node are looked at. *)
Definition readiness (r : Received) : option bool :=
  match r with
  | Ev Added (ObjNode n) | Ev Modified (ObjNode n) => Some (IsNodeReady n)
  | _ => None
  end.

(** The items [watchOnce] receives before it returns: those before the
    first cancellation or closing. *)
Fixpoint live (stream : list Received) : list Received :=
  match stream with
  | [] => []
  | CtxDone :: _ | ChanClosed :: _ => []
  | e :: rest => e :: live rest
  end.

(** Position [j] of [evs] is a rising edge of readiness, [b] being the
    readiness before the first item: the item shows the node ready, and
    every earlier showing of a ready node (and [b], when true) is followed,
    before [j], by a showing of a node that is not ready. *)
Definition rising (b : bool) (evs : list Received) (j : nat) : Prop :=
  (exists x, evs !! j = Some x /\ readiness x = Some true)
  /\ (b = true -> exists m y, (m < j)%nat /\ evs !! m = Some y
                              /\ readiness y = Some false)
  /\ (forall m y, (m < j)%nat -> evs !! m = Some y -> readiness y = Some true ->
        exists m' y', (m < m' < j)%nat /\ evs !! m' = Some y'
                      /\ readiness y' = Some false).

(** The waits of a trace of [run]. *)
Definition waits (trace : list Action) : list Duration :=
  flat_map (fun a => match a with Waited d => [d] | Warned _ => [] end) trace.

(** A node whose Ready condition is False, and a stream: the node is
    shown Ready twice, deleted, shown not Ready, shown Ready again; then
    the server closes the stream. *)
Definition notReadyNode (name : string) : Node :=
  {| Name := name; Taints := [];
     Conditions := [ {| Type_ := NodeReady; Status := ConditionFalse;
                        Reason := ""; Message := "";
                        LastTransitionTime := Scenarios.t0 |} ] |}.

Definition flapping : list Received :=
  let up := ObjNode (Scenarios.freshNode "gpu-node-1" (Scenarios.minutes 1)) in
  let down := ObjNode (notReadyNode "gpu-node-1") in
  [Ev Added up; Ev Modified up; Ev Deleted up; Ev Modified down; Ev Modified up;
   ChanClosed; Ev Modified down; Ev Modified up].

End Agent.

(* ===================================================================== *)
(** ** The native library (cuda/gpu_pulse.cu): control flow *)
(* ===================================================================== *)

Module Native.

Import Time Pulse.

(** The buffers the two entry points allocate. *)
Inductive Buffer : Type := h_A | h_B | d_A | d_B | d_C | src_buf | dst_buf.

(** What an entry point does to memory and to the device: a successful
    allocation, the release of a buffer that was allocated ([free] of a
    null pointer does nothing), a kernel launch, a peer copy. *)
Inductive Op : Type :=
  | Alloc (b : Buffer)
  | Release (b : Buffer)
  | Launch
  | PeerCopy.

(** What the runtime answers during one [run_gpu_pulse]: whether each
    call succeeds. The results of the copies, of the launches and of the
    synchronisations are not looked at by the code. *)
Record GemmAnswers : Type := {
  setDevice_ok : bool;          (* cudaSetDevice(device_id) == cudaSuccess *)
  malloc_A : bool;              (* h_A != NULL *)
  malloc_B : bool;              (* h_B != NULL *)
  cudaMalloc_A : bool;
  cudaMalloc_B : bool;
  cudaMalloc_C : bool;
  kernels_ok : bool             (* copies, launches, synchronisations *)
}.

Definition released (ok : bool) (b : Buffer) : list Op :=
  if ok then [Release b] else [].

Definition allocated (ok : bool) (b : Buffer) : list Op :=
  if ok then [Alloc b] else [].

(** [run_gpu_pulse]: the return code and what was done. *)
Definition run_gpu_pulse (a : GemmAnswers) : Z * list Op :=
  if negb (setDevice_ok a) then (GPU_PULSE_ERR_CUDA, [])
  else
    let ops := (allocated (malloc_A a) h_A ++ allocated (malloc_B a) h_B)%list in
    if negb (malloc_A a) || negb (malloc_B a)
    then (GPU_PULSE_ERR_OOM,
          (ops ++ released (malloc_A a) h_A ++ released (malloc_B a) h_B)%list)
    else
      (* label oom: free(h_A); free(h_B); return GPU_PULSE_ERR_CUDA *)
      let oom ops := (GPU_PULSE_ERR_CUDA, (ops ++ [Release h_A; Release h_B])%list) in
      if negb (cudaMalloc_A a) then oom ops
      else
        let ops := (ops ++ [Alloc d_A])%list in
        if negb (cudaMalloc_B a) then oom (ops ++ [Release d_A])%list
        else
          let ops := (ops ++ [Alloc d_B])%list in
          if negb (cudaMalloc_C a) then oom (ops ++ [Release d_A; Release d_B])%list
          else
            let ops := (ops ++ [Alloc d_C])%list in
            (GPU_PULSE_OK,
             (ops ++ [Launch; Launch;
                      Release d_A; Release d_B; Release d_C;
                      Release h_A; Release h_B])%list).

(** The result of [cudaDeviceEnablePeerAccess]. *)
Inductive PeerAccess : Type := PeerEnabled | PeerAlreadyEnabled | PeerError.

(** What the runtime answers during one [run_p2p_check]. [elapsed_ms] is
    the time between the two events, a [float] widened to [double]. *)
Record P2PAnswers : Type := {
  can_access : bool;
  enablePeer : PeerAccess;
  cudaMalloc_src : bool;
  cudaMalloc_dst : bool;
  elapsed_ms : float64
}.

(** The literal 1e-3, and the transfer size of 100 MiB. *)
Definition lit_1e_3 : float64 := S754_finite false 4611686018427388 (-62).
Definition transfer_size : Z := 100 * 1024 * 1024.

(** [run_p2p_check]: the return code, the bandwidth stored through the
    pointer, if one was stored, and what was done. *)
Definition run_p2p_check (a : P2PAnswers) : Z * option float64 * list Op :=
  if negb (can_access a) then (GPU_PULSE_ERR_P2P, None, [])
  else
    match enablePeer a with
    | PeerError => (GPU_PULSE_ERR_P2P, None, [])
    | _ =>
        if negb (cudaMalloc_src a) then (GPU_PULSE_ERR_OOM, None, [])
        else if negb (cudaMalloc_dst a)
        then (GPU_PULSE_ERR_OOM, None, [Alloc src_buf; Release src_buf])
        else
          let bw :=
            Float64.div
              (Float64.div (Float64.of_int transfer_size)
                           (Float64.mul (elapsed_ms a) lit_1e_3))
              Float64.lit_1e9 in
          (GPU_PULSE_OK, Some bw,
           [Alloc src_buf; Alloc dst_buf; PeerCopy; PeerCopy;
            Release src_buf; Release dst_buf])
    end.

(** [gpu_device_count], on the result of [cudaGetDeviceCount]: [None] for
    an error. *)
Definition gpu_device_count (n : option Z) : Z :=
  match n with
  | None => -1
  | Some n => n
  end.

(** The host as the Go side sees it through the native library: the
    answers of the runtime to each call, and the wall-clock time of each
    GEMM call. *)
Record Runtime : Type := {
  rt_smi : nat -> option string;
  rt_count : option Z;
  rt_gemm : Z -> nat -> GemmAnswers;
  rt_gemm_time : Z -> nat -> Time.Duration;
  rt_p2p : Z -> Z -> P2PAnswers
}.

Definition hardwareOf (rt : Runtime) : Hardware :=
  {| hw_smi := rt_smi rt;
     hw_device_count := gpu_device_count (rt_count rt);
     hw_gemm := fun dev i => (fst (run_gpu_pulse (rt_gemm rt dev i)),
                              rt_gemm_time rt dev i);
     hw_p2p := fun src dst => fst (run_p2p_check (rt_p2p rt src dst)) |}.

(** How often an operation occurs. *)
Definition Op_eqb (x y : Op) : bool :=
  match x, y with
  | Alloc b, Alloc b' | Release b, Release b' =>
      match b, b' with
      | h_A, h_A | h_B, h_B | d_A, d_A | d_B, d_B | d_C, d_C
      | src_buf, src_buf | dst_buf, dst_buf => true
      | _, _ => false
      end
  | Launch, Launch | PeerCopy, PeerCopy => true
  | _, _ => false
  end.

Definition count (x : Op) (ops : list Op) : nat :=
  length (List.filter (Op_eqb x) ops).

Definition buffers : list Buffer := [h_A; h_B; d_A; d_B; d_C; src_buf; dst_buf].

(** No leak and no stray release: every buffer is allocated at most once,
    released as often as it was allocated, and at no point of the run
    released more often than allocated. *)
Definition leak_free (ops : list Op) : Prop :=
  forall b,
    (count (Alloc b) ops <= 1)%nat
    /\ count (Release b) ops = count (Alloc b) ops
    /\ forall n, (count (Release b) (firstn n ops)
                  <= count (Alloc b) (firstn n ops))%nat.

Definition leak_freeb (ops : list Op) : bool :=
  forallb
    (fun b =>
       (count (Alloc b) ops <=? 1)%nat
       && (count (Release b) ops =? count (Alloc b) ops)%nat
       && forallb
            (fun n => (count (Release b) (firstn n ops)
                       <=? count (Alloc b) (firstn n ops))%nat)
            (seq 0 (S (length ops))))
    buffers.

(** Every call of one [run_gpu_pulse] that the code checks succeeded. *)
Definition gemm_ok (a : GemmAnswers) : bool :=
  setDevice_ok a && malloc_A a && malloc_B a
  && cudaMalloc_A a && cudaMalloc_B a && cudaMalloc_C a.

(** Peer access is there, and could be enabled. *)
Definition peer_ok (a : P2PAnswers) : bool :=
  can_access a
  && match enablePeer a with PeerError => false | _ => true end.

(** The bandwidth [run_p2p_check] computes from the elapsed time. *)
Definition bandwidth (a : P2PAnswers) : float64 :=
  Float64.div
    (Float64.div (Float64.of_int transfer_size)
                 (Float64.mul (elapsed_ms a) lit_1e_3))
    Float64.lit_1e9.

(** A runtime on which everything succeeds, a GEMM call taking 100 ms and
    a peer copy 0.5 ms. *)
Definition allGood : GemmAnswers :=
  {| setDevice_ok := true; malloc_A := true; malloc_B := true;
     cudaMalloc_A := true; cudaMalloc_B := true; cudaMalloc_C := true;
     kernels_ok := true |}.

Definition goodLink : P2PAnswers :=
  {| can_access := true; enablePeer := PeerAlreadyEnabled;
     cudaMalloc_src := true; cudaMalloc_dst := true;
     elapsed_ms := S754_finite false 4503599627370496 (-53) |}.

(** A host with two devices: device memory runs out in the third run of
    device 0, after 7 ms. *)
Definition rtDeviceMemory : Runtime :=
  {| rt_smi := fun _ => None;
     rt_count := Some 2;
     rt_gemm := fun dev i =>
       if (dev =? 0) && (i =? 2)%nat
       then {| setDevice_ok := true; malloc_A := true; malloc_B := true;
               cudaMalloc_A := true; cudaMalloc_B := false; cudaMalloc_C := true;
               kernels_ok := true |}
       else allGood;
     rt_gemm_time := fun dev i =>
       if (dev =? 0) && (i =? 2)%nat then 7 * Millisecond else 100 * Millisecond;
     rt_p2p := fun _ _ => goodLink |}.

End Native.

(* ===================================================================== *)
(** ** The report of the management utility *)
(* ===================================================================== *)

Module Smi.

Import Pulse.

(** What [nvidia-smi] prints for the query of [queryAllSMI] in the format
    csv,noheader,nounits: one row per device, its fields separated by a
    comma and a space, each row ended by a newline. *)
Fixpoint join (sep : string) (pieces : list string) : string :=
  match pieces with
  | [] => ""
  | [p] => p
  | p :: rest => p ++ sep ++ join sep rest
  end.

Definition joinFields (fields : list string) : string := join ", " fields.

Fixpoint render (rows : list (list string)) : string :=
  match rows with
  | [] => ""
  | r :: rest => joinFields r ++ newline ++ render rest
  end.

(** A field as the utility prints it: not empty, and free of white space
    and of commas. Numbers, N/A and [N/A] are such fields. *)
Fixpoint plain (s : string) : bool :=
  match s with
  | EmptyString => true
  | String c rest =>
      negb (Strings.is_space c) && negb (Ascii.eqb c ","%char) && plain rest
  end.

(** The string does not hold the byte [c0]. *)
Fixpoint lacks (c0 : ascii) (s : string) : bool :=
  match s with
  | EmptyString => true
  | String c rest => negb (Ascii.eqb c c0) && lacks c0 rest
  end.

Definition field_ok (f : string) : bool := nonempty f && plain f.

Definition row_ok (r : list string) : bool :=
  match r with
  | [] => false
  | _ => forallb field_ok r
  end.

(** What a row of four fields is read as. *)
Definition readRow (r : list string) : gpuStats :=
  {| SMClockMHz := parseField (nth 0 r "");
     MaxSMClockMHz := parseField (nth 1 r "");
     TempC := parseField (nth 2 r "");
     ECCErrors := parseField (nth 3 r "") |}.

Definition fourFields (r : list string) : bool := (length r =? 4)%nat.

(** The row of a device. *)
Definition rowOf (s : gpuStats) : list string :=
  [Strconv.Itoa (SMClockMHz s); Strconv.Itoa (MaxSMClockMHz s);
   Strconv.Itoa (TempC s); Strconv.Itoa (ECCErrors s)].

Definition stats_in_range (s : gpuStats) : Prop :=
  Int64.in_range (SMClockMHz s) /\ Int64.in_range (MaxSMClockMHz s)
  /\ Int64.in_range (TempC s) /\ Int64.in_range (ECCErrors s).

(** A host whose utility prints [out] at every call. *)
Definition reporting (out : string) : Hardware :=
  {| hw_smi := fun _ => Some out;
     hw_device_count := 1;
     hw_gemm := fun _ _ => (0, 0);
     hw_p2p := fun _ _ => (0, None) |}.

End Smi.

(* ===================================================================== *)
(** ** The metrics of a pulse *)
(* ===================================================================== *)

Module Metrics.

Import Time Pulse Spec Scenarios Stages.

(** The observations among the events of a pulse. *)
Definition isMetric (e : Event) : bool :=
  match e with
  | EvPulseDuration _ _ | EvPulseCV _ _ => true
  | _ => false
  end.

Definition metrics (tr : list Event) : list Event := List.filter isMetric tr.

(** The coefficient of variation [runDevicePulse] returns for a device. *)
Definition deviceCV (th : Thresholds) (hw : Hardware) (dev : Z) : float64 :=
  snd (fst (deviceResult th hw dev)).

(** The two observations [RunPulse] records for a device. *)
Definition observations (th : Thresholds) (hw : Hardware) (dev : Z) : list Event :=
  [EvPulseDuration (Strconv.Itoa dev) (Seconds (deviceMean th hw dev));
   EvPulseCV (Strconv.Itoa dev) (deviceCV th hw dev)].

(** The devices from [dev] on that are pulsed: up to the first among
    [count] that fails, that one included. *)
Definition pulsedFrom (th : Thresholds) (hw : Hardware) (dev count : Z) : list Z :=
  match List.find (fun d => negb (devicePasses th hw d)) (seqZ dev count) with
  | Some k => seqZ dev (k - dev + 1)
  | None => seqZ dev count
  end.

(** Four devices of 100 ms each, but for the third, which takes 900 ms. *)
Definition hwSlowThird : Hardware :=
  {| hw_smi := fun _ => None;
     hw_device_count := 4;
     hw_gemm := fun dev _ => (0, if dev =? 2 then ms 900 else ms 100);
     hw_p2p := fun _ _ => (0, Some (gbs 100)) |}.

End Metrics.

(* ===================================================================== *)
(** ** Arithmetic of [int64] *)
(* ===================================================================== *)

Module Int64Facts.

Lemma wrap_small (z : Z) : Int64.in_range z -> Int64.wrap z = z.
Proof.
  unfold Int64.in_range, Int64.wrap, Int64.min_int, Int64.max_int. intros H.
  rewrite Z.mod_small; lia.
Qed.

Lemma wrap_in_range (z : Z) : Int64.in_range (Int64.wrap z).
Proof.
  unfold Int64.in_range, Int64.wrap, Int64.min_int, Int64.max_int.
  pose proof (Z.mod_pos_bound (z + 2 ^ 63) (2 ^ 64) ltac:(lia)). lia.
Qed.

(** A saturated difference is never below a wrapped non-negative bound that
    the exact difference reaches. *)
Lemma saturate_ge (a W : Z) :
  0 <= W -> W <= a -> Int64.wrap W <= Int64.saturate a.
Proof.
  intros H0 H.
  destruct (Z_le_gt_dec W Int64.max_int) as [Hs|Hb].
  - rewrite wrap_small
      by (unfold Int64.in_range, Int64.min_int, Int64.max_int in *; lia).
    unfold Int64.saturate, Int64.min_int, Int64.max_int in *.
    destruct (Z.ltb_spec a (- 2 ^ 63)); [lia|].
    destruct (Z.ltb_spec (2 ^ 63 - 1) a); lia.
  - pose proof (wrap_in_range W) as Hr.
    unfold Int64.saturate, Int64.in_range, Int64.min_int, Int64.max_int in *.
    destruct (Z.ltb_spec a (- 2 ^ 63)); [lia|].
    destruct (Z.ltb_spec (2 ^ 63 - 1) a); lia.
Qed.

End Int64Facts.


(* ===================================================================== *)
(** ** Rounding to [float64] keeps positive numbers positive *)
(* ===================================================================== *)

Module Float64Facts.

Import Float64.

Lemma digits2_pos_bound (p : positive) :
  2 ^ (Zpos (digits2_pos p) - 1) <= Zpos p.
Proof.
  induction p as [p IH|p IH|]; cbn [digits2_pos].
  - rewrite Pos2Z.inj_succ.
    replace (Z.succ (Zpos (digits2_pos p)) - 1) with (Z.succ (Zpos (digits2_pos p) - 1)) by lia.
    rewrite Z.pow_succ_r by lia. lia.
  - rewrite Pos2Z.inj_succ.
    replace (Z.succ (Zpos (digits2_pos p)) - 1) with (Z.succ (Zpos (digits2_pos p) - 1)) by lia.
    rewrite Z.pow_succ_r by lia. lia.
  - reflexivity.
Qed.

Lemma shr_1_m (mrs : shr_record) :
  0 <= shr_m mrs -> shr_m (shr_1 mrs) = shr_m mrs / 2.
Proof.
  destruct mrs as [m r s]. cbn [shr_m shr_1]. intros H.
  destruct m as [|[p|p|]|p]; cbn [shr_m]; try lia.
  - reflexivity.
  - rewrite (Pos2Z.inj_xI p). apply Z.div_unique with (r := 1); lia.
  - rewrite (Pos2Z.inj_xO p). apply Z.div_unique with (r := 0); lia.
  - reflexivity.
Qed.

Lemma pow2_pos (n : positive) : 0 < 2 ^ Zpos n.
Proof. apply Z.pow_pos_nonneg; lia. Qed.

Lemma iter_shr_1_m (n : positive) :
  forall mrs, 0 <= shr_m mrs ->
    shr_m (SpecFloat.iter_pos shr_1 n mrs) = shr_m mrs / 2 ^ Zpos n.
Proof.
  induction n as [n IH|n IH|]; intros mrs H; cbn [SpecFloat.iter_pos].
  - assert (H1 : 0 <= shr_m (shr_1 mrs))
      by (rewrite shr_1_m by exact H; apply Z.div_pos; lia).
    assert (H2 : 0 <= shr_m (SpecFloat.iter_pos shr_1 n (shr_1 mrs)))
      by (rewrite IH by exact H1; apply Z.div_pos; [exact H1 | apply Z.pow_pos_nonneg; lia]).
    rewrite IH by exact H2. rewrite IH by exact H1. rewrite shr_1_m by exact H.
    rewrite !Z.div_div by (pose proof (pow2_pos n); lia).
    f_equal. rewrite (Pos2Z.inj_xI n).
    replace (2 * Zpos n + 1) with (1 + Zpos n + Zpos n) by lia.
    rewrite (Z.pow_add_r 2 (1 + Zpos n) (Zpos n)) by lia.
    rewrite (Z.pow_add_r 2 1 (Zpos n)) by lia. lia.
  - assert (H2 : 0 <= shr_m (SpecFloat.iter_pos shr_1 n mrs))
      by (rewrite IH by exact H; apply Z.div_pos; [exact H | apply Z.pow_pos_nonneg; lia]).
    rewrite IH by exact H2. rewrite IH by exact H.
    rewrite Z.div_div by (pose proof (pow2_pos n); lia).
    f_equal. rewrite (Pos2Z.inj_xO n).
    replace (2 * Zpos n) with (Zpos n + Zpos n) by lia.
    rewrite Z.pow_add_r by lia. reflexivity.
  - rewrite shr_1_m by exact H. reflexivity.
Qed.

Lemma shr_record_of_loc_m m l : shr_m (shr_record_of_loc m l) = m.
Proof. destruct l as [|[| |]]; reflexivity. Qed.

(** Shifting to the canonical exponent does not lose a positive mantissa
    as long as the exponent is not below [emin]. *)
Lemma shr_fexp_pos (p : positive) (e : Z) (l : location) :
  emin prec emax <= e ->
  0 < shr_m (fst (shr_fexp prec emax (Zpos p) e l))
  /\ emin prec emax <= snd (shr_fexp prec emax (Zpos p) e l).
Proof.
  intros He. unfold shr_fexp, shr. cbn [Zdigits2].
  pose proof (digits2_pos_bound p) as Hd.
  set (d := Zpos (digits2_pos p)) in *.
  destruct (fexp prec emax (d + e) - e) as [|n|n] eqn:En; cbn [fst snd].
  - rewrite shr_record_of_loc_m. lia.
  - rewrite iter_shr_1_m by (rewrite shr_record_of_loc_m; lia).
    rewrite shr_record_of_loc_m.
    assert (Hn : Zpos n = d - prec) by (unfold fexp in En; lia).
    split; [|lia].
    apply Z.div_str_pos. split; [apply Z.pow_pos_nonneg; lia|].
    eapply Z.le_trans; [|exact Hd].
    apply Z.pow_le_mono_r; [lia|]. unfold prec in Hn. lia.
  - rewrite shr_record_of_loc_m. lia.
Qed.

Lemma round_nearest_even_pos m l : 0 < m -> 0 < round_nearest_even m l.
Proof.
  intros H. destruct l as [|[| |]]; cbn [round_nearest_even]; try lia.
  destruct (Z.even m); lia.
Qed.

Lemma binary_round_aux_pos (p : positive) (e : Z) (l : location) :
  emin prec emax <= e ->
  positive_float (binary_round_aux prec emax false (Zpos p) e l).
Proof.
  intros He. unfold binary_round_aux.
  destruct (shr_fexp_pos p e l He) as [H1 H2].
  destruct (shr_fexp prec emax (Zpos p) e l) as [mrs' e'] eqn:E1. cbn [fst snd] in H1, H2.
  pose proof (round_nearest_even_pos (shr_m mrs') (loc_of_shr_record mrs') H1) as Hr.
  destruct (round_nearest_even (shr_m mrs') (loc_of_shr_record mrs')) as [|q|q] eqn:Eq;
    try lia.
  destruct (shr_fexp_pos q e' loc_Exact H2) as [H3 _].
  destruct (shr_fexp prec emax (Zpos q) e' loc_Exact) as [mrs'' e''] eqn:E2.
  cbn [fst] in H3.
  destruct (shr_m mrs'') as [|m|m]; try lia.
  destruct (Z.leb e'' (emax - prec)); exact I.
Qed.

(** [float64(n)] of a positive integer is positive. *)
Lemma of_int_pos (n : Z) : 0 < n -> positive_float (of_int n).
Proof.
  intros H. destruct n as [|p|p]; try lia.
  unfold of_int, binary_normalize, binary_round.
  destruct (shl_align p 0 (fexp prec emax (Zpos (digits2_pos p) + 0))) as [mz ez] eqn:E.
  apply binary_round_aux_pos.
  unfold shl_align in E.
  destruct (fexp prec emax (Zpos (digits2_pos p) + 0) - 0) as [|k|k] eqn:Ek;
    injection E as <- <-; try (vm_compute; discriminate).
  unfold fexp in *. unfold emin in *. lia.
Qed.

Lemma of_int_0 : of_int 0 = zero.
Proof. reflexivity. Qed.

(** [+0 / y] is [+0] for positive [y]. *)
Lemma div_zero_pos (y : float64) : positive_float y -> div zero y = zero.
Proof. destruct y as [s|[|]| |[|] m e]; cbn; intros H; try destruct H; reflexivity. Qed.

End Float64Facts.

(* ===================================================================== *)
(** ** The pipeline: traces *)
(* ===================================================================== *)

Module PulseFacts.

Import Time Pulse Spec Scenarios Int64Facts Float64Facts.

Lemma appends_ret P {A} (a : A) : appends P (ret a : Tr A).
Proof. intros tr. exists []. cbn. rewrite app_nil_r. split; [reflexivity | constructor]. Qed.

Lemma appends_emit (P : Event -> Prop) e : P e -> appends P (emit e).
Proof. intros H tr. exists [e]. split; [reflexivity | repeat constructor; exact H]. Qed.

Lemma appends_bind P {A B} (m : Tr A) (k : A -> Tr B) :
  appends P m -> (forall a, appends P (k a)) -> appends P (bind m k).
Proof.
  intros Hm Hk tr. unfold bind.
  destruct (Hm tr) as (e1 & E1 & F1). destruct (m tr) as [a tr1]. cbn [snd] in E1.
  destruct (Hk a tr1) as (e2 & E2 & F2). subst tr1.
  exists (e1 ++ e2)%list. split; [rewrite E2, app_assoc; reflexivity|].
  apply Forall_app. split; assumption.
Qed.

Lemma appends_weaken (P Q : Event -> Prop) {A} (m : Tr A) :
  (forall e, P e -> Q e) -> appends P m -> appends Q m.
Proof.
  intros HPQ Hm tr. destruct (Hm tr) as (evs & E & F). exists evs.
  split; [exact E|]. eapply Forall_impl; eassumption.
Qed.

Lemma timedRuns_appends hw dev todo i durs :
  appends (gemmStage dev (dev + 1)) (timedRuns hw dev todo i durs).
Proof.
  revert i durs. induction todo as [|todo IH]; intros i durs; cbn [timedRuns].
  - apply appends_ret.
  - apply appends_bind; [apply appends_emit; cbn; lia|]. intros _.
    destruct (hw_gemm hw dev i) as [rc elapsed].
    destruct (rc =? GPU_PULSE_OK); [apply IH|].
    destruct (rc =? GPU_PULSE_ERR_CUDA); [apply appends_ret|].
    destruct (rc =? GPU_PULSE_ERR_OOM); apply appends_ret.
Qed.

Lemma runDevicePulse_appends th hw dev :
  appends (gemmStage dev (dev + 1)) (runDevicePulse th hw dev).
Proof.
  unfold runDevicePulse. apply appends_bind; [apply timedRuns_appends|].
  intros r. apply appends_ret.
Qed.

(** The first event of a device's pulse is a GEMM on that device. *)
Lemma timedRuns_first hw dev todo i durs tr :
  exists evs,
    snd (timedRuns hw dev (S todo) i durs tr) = (tr ++ EvGemm dev :: evs)%list
    /\ Forall (gemmStage dev (dev + 1)) evs.
Proof.
  cbn [timedRuns]. unfold bind at 1. unfold emit at 1.
  set (rest := let '(rc, elapsed) := hw_gemm hw dev i in _).
  assert (Hrest : appends (gemmStage dev (dev + 1)) rest).
  { subst rest. destruct (hw_gemm hw dev i) as [rc elapsed].
    destruct (rc =? GPU_PULSE_OK); [apply timedRuns_appends|].
    destruct (rc =? GPU_PULSE_ERR_CUDA); [apply appends_ret|].
    destruct (rc =? GPU_PULSE_ERR_OOM); apply appends_ret. }
  destruct (Hrest (tr ++ [EvGemm dev])%list) as (evs & E & F).
  exists evs. split; [|exact F]. rewrite E, <- app_assoc. reflexivity.
Qed.

Lemma runDevicePulse_first th hw dev tr :
  exists evs, snd (runDevicePulse th hw dev tr) = (tr ++ EvGemm dev :: evs)%list
    /\ Forall (gemmStage dev (dev + 1)) evs.
Proof.
  unfold runDevicePulse, pulseRuns. unfold bind at 1.
  destruct (timedRuns_first hw dev 4 0 [] tr) as (evs & E & F).
  destruct (timedRuns hw dev 5 0 [] tr) as [r tr1]. cbn [snd] in E. subst tr1.
  exists evs. split; [reflexivity | exact F].
Qed.

Lemma deviceLoop_appends th hw todo dev worst :
  appends (gemmStage dev (dev + Z.of_nat todo)) (deviceLoop th hw todo dev worst).
Proof.
  revert dev worst. induction todo as [|todo IH]; intros dev worst; cbn [deviceLoop].
  - apply appends_ret.
  - apply appends_bind.
    { eapply appends_weaken; [|apply runDevicePulse_appends].
      intros [] ; cbn; try tauto; lia. }
    intros [[mean cv] err].
    apply appends_bind; [apply appends_emit; exact I|]. intros _.
    apply appends_bind; [apply appends_emit; exact I|]. intros _.
    destruct err; [apply appends_ret|].
    eapply appends_weaken; [|apply IH]. intros []; cbn; try tauto; lia.
Qed.

Lemma queryAllSMI_appends hw k : appends isSMI (queryAllSMI hw k).
Proof.
  unfold queryAllSMI. apply appends_bind; [apply appends_emit; reflexivity|].
  intros _. apply appends_ret.
Qed.

Lemma validateClocks_appends hw : appends isSMI (validateClocks hw).
Proof.
  unfold validateClocks. apply appends_bind; [apply queryAllSMI_appends|].
  intros q. apply appends_ret.
Qed.

Lemma preflight_trace th hw tr :
  snd (preflight th hw tr) = (tr ++ [EvSMI])%list.
Proof. reflexivity. Qed.

Lemma deviceCount_spec hw tr :
  deviceCount hw tr
  = (if hw_device_count hw <? 1 then 1 else hw_device_count hw,
     (tr ++ [EvDeviceCount])%list).
Proof. reflexivity. Qed.

(** *** The device count *)

Lemma timedRuns_count hw n dev todo i durs tr :
  timedRuns (withDeviceCount hw n) dev todo i durs tr
  = timedRuns hw dev todo i durs tr.
Proof.
  revert i durs tr. induction todo as [|todo IH]; intros i durs tr; cbn [timedRuns];
    [reflexivity|].
  unfold bind, emit. cbn [hw_gemm withDeviceCount].
  destruct (hw_gemm hw dev i) as [rc elapsed].
  destruct (rc =? GPU_PULSE_OK); [apply IH | reflexivity].
Qed.

Lemma deviceLoop_count th hw n todo dev worst tr :
  deviceLoop th (withDeviceCount hw n) todo dev worst tr
  = deviceLoop th hw todo dev worst tr.
Proof.
  revert dev worst tr. induction todo as [|todo IH]; intros dev worst tr;
    cbn [deviceLoop]; [reflexivity|].
  unfold runDevicePulse. unfold bind at 1 2 5 6. rewrite timedRuns_count.
  destruct (timedRuns hw dev pulseRuns 0 [] tr) as [r tr1]. unfold ret at 1 3.
  destruct (match r with inl _ => _ | inr _ => _ end) as [[mean cv] err].
  unfold bind, emit. destruct err; [reflexivity | apply IH].
Qed.

(** C10. When [gpu_device_count()] reports fewer than one device (the
    error value -1 included), the pipeline counts one device and runs
    exactly as on the same host reporting one device: after a passing
    pre-flight the enumeration is followed at once by a GEMM run on device
    0, no other device is pulsed, and no P2P probe is made. *)
Theorem enumeration_error_means_one_device th hw :
  hw_device_count hw < 1 ->
  (forall tr, deviceCount hw tr = (1, (tr ++ [EvDeviceCount])%list))
  /\ (forall tr, RunPulse th hw tr = RunPulse th (withDeviceCount hw 1) tr)
  /\ match fst (preflight th hw []) with
     | Some err => RunPulse th hw [] = ((0, Some err), [EvSMI])
     | None =>
         exists rest,
           snd (RunPulse th hw []) = ([EvSMI; EvDeviceCount; EvGemm 0] ++ rest)%list
           /\ Forall (fun e => match e with
                               | EvGemm dev => dev = 0
                               | EvP2P _ _ | EvDeviceCount => False
                               | _ => True
                               end) rest
     end.
Proof.
  intros Hn.
  assert (Hc : forall tr, deviceCount hw tr = (1, (tr ++ [EvDeviceCount])%list)).
  { intros tr. rewrite deviceCount_spec. rewrite (proj2 (Z.ltb_lt _ _) Hn). reflexivity. }
  split; [exact Hc|]. split.
  - intros tr. unfold RunPulse, bind.
    change (preflight th (withDeviceCount hw 1) tr) with (preflight th hw tr).
    destruct (preflight th hw tr) as [[err|] tr1]; [reflexivity|].
    rewrite Hc. rewrite (deviceCount_spec (withDeviceCount hw 1)).
    cbn [hw_device_count withDeviceCount]. change (1 <? 1) with false. cbv iota.
    rewrite deviceLoop_count.
    destruct (deviceLoop th hw (Z.to_nat 1) 0 0 (tr1 ++ [EvDeviceCount])%list)
      as [[worst|[mean err]] tr2]; reflexivity.
  - pose proof (preflight_trace th hw []) as Htr.
    destruct (preflight th hw []) as [[err|] tr1] eqn:EP; cbn [fst snd] in *;
      subst tr1; unfold RunPulse; unfold bind at 1; rewrite EP; [reflexivity|].
    unfold bind at 1. rewrite Hc. unfold bind at 1.
    change (Z.to_nat 1) with 1%nat. cbn [deviceLoop].
    unfold bind at 1.
    destruct (runDevicePulse_first th hw 0 ([] ++ [EvSMI] ++ [EvDeviceCount])%list)
      as (evs & E & F).
    change (([] ++ [EvSMI]) ++ [EvDeviceCount])%list
      with ([] ++ [EvSMI] ++ [EvDeviceCount])%list.
    destruct (runDevicePulse th hw 0 ([] ++ [EvSMI] ++ [EvDeviceCount])%list)
      as [[[mean cv] err] tr2]. cbn [snd] in E. subst tr2.
    assert (F' : Forall (fun e => match e with
                               | EvGemm dev => dev = 0
                               | EvP2P _ _ | EvDeviceCount => False
                               | _ => True
                               end) evs).
    { eapply Forall_impl; [exact F|]. intros [] ; cbn; try tauto; lia. }
    unfold bind, emit, ret, ringStage, validateClocks, queryAllSMI.
    change (1 <? 1) with false. cbv iota.
    destruct err as [err|]; cbn [snd].
    + eexists. split; [cbn [app]; reflexivity|].
      repeat (apply Forall_app; split); try exact F'; repeat constructor.
    + unfold bind, emit, ret.
      destruct (match hw_smi hw 1 with Some _ => _ | None => _ end) as [stats|].
      * destruct (validateClocks_loop 0 stats); cbn [snd];
          (eexists; split; [cbn [app]; rewrite <- !app_assoc; cbn [app]; reflexivity|]);
          repeat (apply Forall_app; split); try exact F'; repeat constructor.
      * cbn [snd].
        eexists; split; [cbn [app]; rewrite <- !app_assoc; cbn [app]; reflexivity|].
        repeat (apply Forall_app; split); try exact F'; repeat constructor.
Qed.

Lemma enumeration_error_means_one_device_witness :
  (forall tr, deviceCount hwNoCount tr = (1, (tr ++ [EvDeviceCount])%list))
  /\ (forall tr, RunPulse defaultThresholds hwNoCount tr
                 = RunPulse defaultThresholds (withDeviceCount hwNoCount 1) tr)
  /\ match fst (preflight defaultThresholds hwNoCount []) with
     | Some err => RunPulse defaultThresholds hwNoCount [] = ((0, Some err), [EvSMI])
     | None =>
         exists rest,
           snd (RunPulse defaultThresholds hwNoCount [])
           = ([EvSMI; EvDeviceCount; EvGemm 0] ++ rest)%list
           /\ Forall (fun e => match e with
                               | EvGemm dev => dev = 0
                               | EvP2P _ _ | EvDeviceCount => False
                               | _ => True
                               end) rest
     end.
Proof.
  apply (enumeration_error_means_one_device defaultThresholds hwNoCount).
  reflexivity.
Defined.

(** The run on the host whose enumeration fails. *)
Example enumeration_error_run :
  RunPulse defaultThresholds hwNoCount []
  = ((ms 100, None),
     [EvSMI; EvDeviceCount; EvGemm 0; EvGemm 0; EvGemm 0; EvGemm 0; EvGemm 0;
      EvPulseDuration "0" (Seconds (ms 100)); EvPulseCV "0" Float64.zero; EvSMI]).
Proof. vm_compute. reflexivity. Qed.

(** *** The P2P ring *)

Lemma checkP2P_spec th hw src dst tr :
  checkP2P th hw src dst tr
  = (segmentError th hw (src, dst), (tr ++ [EvP2P src dst])%list).
Proof.
  unfold segmentError, checkP2P, bind, emit, ret. cbn [fst snd].
  destruct (hw_p2p hw src dst) as [rc written]. reflexivity.
Qed.

Lemma segmentError_None th hw sd :
  segmentError th hw sd = None <-> segmentFails th hw sd = false.
Proof.
  unfold segmentError, segmentFails, checkP2P, bind, emit, ret. cbn [fst snd].
  destruct (hw_p2p hw (fst sd) (snd sd)) as [rc written].
  unfold GPU_PULSE_OK, GPU_PULSE_ERR_P2P.
  destruct (rc =? 0); cbn [negb orb].
  - destruct (Float64.ltb (default Float64.zero written) (thr_p2p th));
      cbn [fst]; split; congruence.
  - destruct (rc =? 3); cbn [fst]; split; congruence.
Qed.

(** Whatever makes a segment fail, the error is an InterconnectDegraded
    carrier with the minimum as threshold and unit "gbs". *)
Lemma segmentError_kind th hw sd e :
  segmentError th hw sd = Some e ->
  errors_Is e InterconnectDegraded = true
  /\ exists t m, e = PulseFailure (ErrorfW t InterconnectDegraded) m (thr_p2p th) "gbs".
Proof.
  unfold segmentError, checkP2P, bind, emit, ret. cbn [fst snd].
  destruct (hw_p2p hw (fst sd) (snd sd)) as [rc written].
  destruct (rc =? GPU_PULSE_OK).
  - destruct (Float64.ltb (default Float64.zero written) (thr_p2p th));
      cbn [fst]; intros [= <-]; split; [reflexivity | eauto].
  - destruct (rc =? GPU_PULSE_ERR_P2P); cbn [fst]; intros [= <-];
      (split; [reflexivity | eauto]).
Qed.

Lemma seqZ_S (m : Z) (n : nat) :
  seqZ m (Z.of_nat (S n)) = m :: seqZ (m + 1) (Z.of_nat n).
Proof.
  rewrite seqZ_cons by lia. f_equal. f_equal; lia.
Qed.

Lemma ringLoop_spec th hw count todo i tr :
  0 <= i -> 0 < count ->
  ringLoop th hw count todo i tr
  = (firstError th hw (List.map (segment count) (seqZ i (Z.of_nat todo))),
     (tr ++ List.map probeEvent
              (probed (segmentFails th hw)
                      (List.map (segment count) (seqZ i (Z.of_nat todo)))))%list).
Proof.
  intros Hi Hc. revert i tr Hi.
  induction todo as [|todo IH]; intros i tr Hi.
  - cbn. rewrite app_nil_r. reflexivity.
  - rewrite seqZ_S. cbn [ringLoop List.map probed]. unfold bind.
    rewrite checkP2P_spec. rewrite Z.rem_mod_nonneg by lia.
    fold (segment count i). unfold firstError. cbn [List.find].
    destruct (segmentFails th hw (segment count i)) eqn:Ef.
    + destruct (segmentError th hw (segment count i)) as [e|] eqn:Ee.
      * reflexivity.
      * apply segmentError_None in Ee. congruence.
    + rewrite (proj2 (segmentError_None th hw _) Ef).
      rewrite IH by lia. unfold firstError. cbn [List.map].
      rewrite <- app_assoc. reflexivity.
Qed.

Lemma find_none_Forall {A} (f : A -> bool) (l : list A) :
  List.find f l = None <-> Forall (fun a => f a = false) l.
Proof.
  induction l as [|a l IH]; cbn [List.find].
  - split; [constructor | reflexivity].
  - destruct (f a) eqn:E.
    + split; [discriminate|]. intros H. inversion H; congruence.
    + rewrite IH. split; [constructor; assumption | intros H; inversion H; assumption].
Qed.

Lemma probed_all (f : Z * Z -> bool) (l : list (Z * Z)) :
  Forall (fun a => f a = false) l -> probed f l = l.
Proof.
  induction 1 as [|a l Ha _ IH]; cbn [probed]; [reflexivity|].
  rewrite Ha, IH. reflexivity.
Qed.

(** The probed segments are a prefix of the ring, in its order. *)
Lemma probed_prefix (f : Z * Z -> bool) (l : list (Z * Z)) :
  exists rest, l = (probed f l ++ rest)%list.
Proof.
  induction l as [|a l [rest IH]]; cbn [probed]; [exists []; reflexivity|].
  destruct (f a); [exists l; reflexivity|].
  exists rest. cbn [app]. f_equal. exact IH.
Qed.

(** All of the segments are probed exactly when none but perhaps the
    last fails. *)
Lemma probed_complete (f : Z * Z -> bool) (l : list (Z * Z)) :
  probed f l = l <-> Forall (fun a => f a = false) (removelast l).
Proof.
  induction l as [|a l IH]; [split; [constructor | reflexivity]|].
  cbn [probed]. destruct l as [|b l].
  - cbn [removelast probed]. destruct (f a); split; (constructor || reflexivity).
  - change (removelast (a :: b :: l)) with (a :: removelast (b :: l)).
    destruct (f a) eqn:E.
    + split; [discriminate|]. intros H. inversion H; congruence.
    + split.
      * intros [= H]. constructor; [exact E | apply IH, H].
      * intros H. inversion H; subst. f_equal. apply IH. assumption.
Qed.

(** C6, as the code has it. With fewer than two devices the P2P stage makes
    no probe. With [count >= 2] devices it walks the ring
    [i -> (i+1) mod count], [i = 0 .. count-1], in ascending order and stops
    at the first segment that fails: the stage passes exactly when none of
    the [count] segments fails, and all [count] segments are probed exactly
    when none of the first [count - 1] fails (a failure of the last one
    ends a ring that was walked in full). A segment fails, always as
    InterconnectDegraded with unit "gbs", when the native call returns any
    non-zero code (peer access unavailable or not) or a bandwidth below the
    minimum. *)
Theorem ring_stage_probes th hw count tr :
  (count < 2 -> ringStage th hw count tr = (None, tr))
  /\ (2 <= count ->
      ringStage th hw count tr
      = (firstError th hw (ring count),
         (tr ++ List.map probeEvent
                  (probed (segmentFails th hw) (ring count)))%list)
      /\ length (ring count) = Z.to_nat count
      /\ (exists rest,
            ring count = (probed (segmentFails th hw) (ring count) ++ rest)%list)
      /\ (firstError th hw (ring count) = None
          <-> Forall (fun sd => segmentFails th hw sd = false) (ring count))
      /\ (firstError th hw (ring count) = None
          -> probed (segmentFails th hw) (ring count) = ring count)
      /\ (probed (segmentFails th hw) (ring count) = ring count
          <-> Forall (fun sd => segmentFails th hw sd = false)
                     (removelast (ring count)))
      /\ (forall e, firstError th hw (ring count) = Some e ->
            errors_Is e InterconnectDegraded = true
            /\ exists t m,
                 e = PulseFailure (ErrorfW t InterconnectDegraded) m (thr_p2p th) "gbs"))
  /\ (forall src dst,
        segmentFails th hw (src, dst) = true
        <-> fst (hw_p2p hw src dst) <> GPU_PULSE_OK
            \/ Float64.ltb (default Float64.zero (snd (hw_p2p hw src dst)))
                           (thr_p2p th) = true).
Proof.
  split; [|split].
  - intros H. unfold ringStage. rewrite (proj2 (Z.ltb_ge 1 count)) by lia. reflexivity.
  - intros H. unfold ringStage. rewrite (proj2 (Z.ltb_lt 1 count)) by lia.
    rewrite ringLoop_spec by lia. rewrite Z2Nat.id by lia. fold (ring count).
    assert (Hnone : firstError th hw (ring count) = None
                    <-> Forall (fun sd => segmentFails th hw sd = false) (ring count)).
    { unfold firstError.
      destruct (List.find (segmentFails th hw) (ring count)) as [sd|] eqn:Ef.
      - apply find_some in Ef as [Hin Ef]. split; intros Hn; exfalso.
        + apply segmentError_None in Hn. congruence.
        + rewrite Forall_forall in Hn. apply list_elem_of_In in Hin.
          specialize (Hn sd Hin). congruence.
      - split; [intros _; apply find_none_Forall; exact Ef | reflexivity]. }
    split; [reflexivity|]. split.
    { unfold ring. rewrite length_map, length_seqZ. reflexivity. }
    split; [apply probed_prefix|]. split; [exact Hnone|]. split; [|split].
    + intros Hn. apply probed_all, Hnone, Hn.
    + apply probed_complete.
    + intros e He. unfold firstError in He.
      destruct (List.find (segmentFails th hw) (ring count)) as [sd|]; [|discriminate].
      eapply segmentError_kind. exact He.
  - intros src dst. unfold segmentFails. cbn [fst snd].
    destruct (hw_p2p hw src dst) as [rc written]. cbn [fst snd]. unfold GPU_PULSE_OK.
    rewrite orb_true_iff, negb_true_iff, Z.eqb_neq. reflexivity.
Qed.

Lemma ring_stage_probes_witness :
  ringStage defaultThresholds hwHealthy3 3 []
  = (firstError defaultThresholds hwHealthy3 (ring 3),
     ([] ++ List.map probeEvent
              (probed (segmentFails defaultThresholds hwHealthy3) (ring 3)))%list)
  /\ length (ring 3) = Z.to_nat 3
  /\ (exists rest,
        ring 3 = (probed (segmentFails defaultThresholds hwHealthy3) (ring 3)
                  ++ rest)%list)
  /\ (firstError defaultThresholds hwHealthy3 (ring 3) = None
      <-> Forall (fun sd => segmentFails defaultThresholds hwHealthy3 sd = false)
                 (ring 3))
  /\ (firstError defaultThresholds hwHealthy3 (ring 3) = None
      -> probed (segmentFails defaultThresholds hwHealthy3) (ring 3) = ring 3)
  /\ (probed (segmentFails defaultThresholds hwHealthy3) (ring 3) = ring 3
      <-> Forall (fun sd => segmentFails defaultThresholds hwHealthy3 sd = false)
                 (removelast (ring 3)))
  /\ (forall e, firstError defaultThresholds hwHealthy3 (ring 3) = Some e ->
        errors_Is e InterconnectDegraded = true
        /\ exists t m,
             e = PulseFailure (ErrorfW t InterconnectDegraded) m
                   (thr_p2p defaultThresholds) "gbs").
Proof.
  apply (proj1 (proj2 (ring_stage_probes defaultThresholds hwHealthy3 3 []))).
  lia.
Defined.

(** On the healthy host the three segments are probed in order. *)
Example ring_of_three :
  ring 3 = [(0, 1); (1, 2); (2, 0)]
  /\ ringStage defaultThresholds hwHealthy3 3 []
     = (None, [EvP2P 0 1; EvP2P 1 2; EvP2P 2 0]).
Proof. vm_compute. split; reflexivity. Qed.

(** A dead last link: on two devices with the link 1 -> 0 down both
    segments are probed, and the stage fails all the same. *)
Example dead_last_link_is_probed :
  ring 2 = [(0, 1); (1, 0)]
  /\ probed (segmentFails defaultThresholds hwDeadLink) (ring 2) = ring 2
  /\ firstError defaultThresholds hwDeadLink (ring 2)
     = Some (PulseFailure (ErrorfW (TxtPeerUnavailable 1 0) InterconnectDegraded)
               Float64.zero Float64.lit_5_0 "gbs").
Proof. vm_compute. repeat split. Qed.

(** C6 fails as stated: on three devices the probe 1 -> 2 returns the
    allocation-failure code 2 (not code 3, peer access unavailable) and
    stores no bandwidth, every other link makes 100 GB/s; the pulse fails
    as InterconnectDegraded all the same, and the segment 2 -> 0 is never
    probed. *)
Lemma ring_fails_on_allocation_error :
  hw_p2p hwRingOOM 1 2 = (GPU_PULSE_ERR_OOM, None)
  /\ GPU_PULSE_ERR_OOM <> GPU_PULSE_ERR_P2P
  /\ fst (RunPulse defaultThresholds hwRingOOM [])
     = (ms 100,
        Some (PulseFailure (ErrorfW (TxtP2PReturnCode 1 2 2) InterconnectDegraded)
                Float64.zero Float64.lit_5_0 "gbs"))
  /\ List.filter isP2P (snd (RunPulse defaultThresholds hwRingOOM []))
     = [EvP2P 0 1; EvP2P 1 2]
  /\ ring 3 = [(0, 1); (1, 2); (2, 0)].
Proof. vm_compute. repeat split. discriminate. Qed.

(** *** The duration that [RunPulse] returns *)

Lemma timedRuns_result hw dev todo i durs tr :
  fst (timedRuns hw dev todo i durs tr) = fst (timedRuns hw dev todo i durs []).
Proof.
  revert i durs tr. induction todo as [|todo IH]; intros i durs tr; cbn [timedRuns];
    [reflexivity|].
  unfold bind, emit. destruct (hw_gemm hw dev i) as [rc elapsed].
  destruct (rc =? GPU_PULSE_OK); [rewrite IH; symmetry; apply IH|].
  destruct (rc =? GPU_PULSE_ERR_CUDA); [reflexivity|].
  destruct (rc =? GPU_PULSE_ERR_OOM); reflexivity.
Qed.

Lemma runDevicePulse_result th hw dev tr :
  fst (runDevicePulse th hw dev tr) = deviceResult th hw dev.
Proof.
  unfold deviceResult, runDevicePulse, bind.
  pose proof (timedRuns_result hw dev pulseRuns 0 [] tr) as H.
  destruct (timedRuns hw dev pulseRuns 0 [] tr) as [r tr1].
  destruct (timedRuns hw dev pulseRuns 0 [] []) as [r0 tr0].
  cbn [fst] in H. subst r0. reflexivity.
Qed.

(** The device loop: when every device passes, the result is the largest
    mean; when one fails, it is the mean of the first that fails. *)
Lemma deviceLoop_result th hw todo dev worst tr :
  fst (deviceLoop th hw todo dev worst tr)
  = match List.find (fun d => negb (devicePasses th hw d)) (seqZ dev (Z.of_nat todo)) with
    | None => inl (worstOf th hw (seqZ dev (Z.of_nat todo)) worst)
    | Some k =>
        match snd (deviceResult th hw k) with
        | Some e => inr (deviceMean th hw k, e)
        | None => inl 0
        end
    end.
Proof.
  revert dev worst tr. induction todo as [|todo IH]; intros dev worst tr.
  - reflexivity.
  - rewrite seqZ_S. cbn [deviceLoop List.find]. unfold bind at 1.
    pose proof (runDevicePulse_result th hw dev tr) as H.
    destruct (runDevicePulse th hw dev tr) as [[[mean cv] err] tr1]. cbn [fst] in H.
    unfold bind, emit.
    destruct err as [e|].
    + unfold devicePasses, deviceMean. repeat (rewrite <- H; cbn [fst snd negb]).
      reflexivity.
    + rewrite IH. clear IH.
      unfold worstOf, devicePasses, deviceMean. cbn [fold_left]. rewrite <- H.
      cbn [fst snd negb].
      replace (if worst <? mean then mean else worst) with (Z.max worst mean)
        by (destruct (Z.ltb_spec worst mean); lia).
      reflexivity.
Qed.

(** The duration that [RunPulse] returns: 0 when the pre-flight fails, the
    mean of the first failing device when a device fails, and the worst mean
    over all devices on every other path (pass, P2P failure, clock
    failure). *)
Lemma RunPulse_duration th hw :
  fst (fst (RunPulse th hw []))
  = match fst (preflight th hw []) with
    | Some _ => 0
    | None =>
        let devs := seqZ 0 (effectiveCount hw) in
        match List.find (fun d => negb (devicePasses th hw d)) devs with
        | Some k => deviceMean th hw k
        | None => worstOf th hw devs 0
        end
    end.
Proof.
  unfold RunPulse. unfold bind at 1.
  destruct (preflight th hw []) as [[err|] tr1]; [reflexivity|]. cbn [fst].
  unfold bind at 1. rewrite deviceCount_spec. fold (effectiveCount hw).
  assert (Hc : 1 <= effectiveCount hw)
    by (unfold effectiveCount; destruct (Z.ltb_spec (hw_device_count hw) 1); lia).
  unfold bind at 1.
  pose proof (deviceLoop_result th hw (Z.to_nat (effectiveCount hw)) 0 0
                (tr1 ++ [EvDeviceCount])%list) as H.
  rewrite Z2Nat.id in H by lia. cbv zeta.
  destruct (deviceLoop th hw (Z.to_nat (effectiveCount hw)) 0 0
              (tr1 ++ [EvDeviceCount])%list) as [[w|[m e]] tr2]; cbn [fst] in H.
  - destruct (List.find _ _) as [k|] eqn:Ef.
    + apply find_some in Ef as [_ Ef]. unfold devicePasses in Ef.
      destruct (snd (deviceResult th hw k)); [discriminate H | discriminate Ef].
    + injection H as ->. unfold bind.
      destruct (ringStage th hw (effectiveCount hw) tr2) as [[e|] tr3]; [reflexivity|].
      destruct (validateClocks hw tr3) as [[e|] tr4]; reflexivity.
  - destruct (List.find _ _) as [k|] eqn:Ef; [|discriminate H].
    destruct (snd (deviceResult th hw k)); [|discriminate H].
    injection H as -> _. reflexivity.
Qed.

(** C3 fails on the code: device 0 has mean 100 ms and passes, device 1 has
    mean 50 ms and fails on variance; [RunPulse] returns 50 ms, the mean of
    the failing device, not 100 ms, the worst mean seen so far. With a P2P
    failure instead, the worst mean (100 ms) is what comes back. *)
Lemma device_failure_returns_own_mean :
  deviceResult defaultThresholds hwUneven 0 = (ms 100, Float64.zero, None)
  /\ deviceMean defaultThresholds hwUneven 1 = ms 50
  /\ worstOf defaultThresholds hwUneven [0; 1] 0 = ms 100
  /\ fst (RunPulse defaultThresholds hwUneven [])
     = (ms 50,
        Some (PulseFailure
                (ErrorfW (TxtCV 1 (S754_finite false 7205759403792794 (-52)))
                         HighVariance)
                (S754_finite false 7205759403792794 (-52))
                Float64.lit_0_20 "cv"))
  /\ ms 50 < ms 100
  /\ fst (RunPulse defaultThresholds hwDeadLink [])
     = (ms 100,
        Some (PulseFailure (ErrorfW (TxtPeerUnavailable 1 0) InterconnectDegraded)
                Float64.zero Float64.lit_5_0 "gbs")).
Proof. vm_compute. repeat split. Qed.

(** *** Statistics *)

Lemma sumZ_nonneg ds : Forall (fun d => 0 <= d) ds -> 0 <= sumZ ds.
Proof. induction 1 as [|d ds Hd _ IH]; cbn [sumZ fold_right]; [lia|]. fold (sumZ ds). lia. Qed.

Lemma elem_le_sumZ ds d :
  Forall (fun d => 0 <= d) ds -> In d ds -> d <= sumZ ds.
Proof.
  induction 1 as [|x ds Hx Hds IH]; intros Hin; [destruct Hin|].
  cbn [sumZ fold_right]. fold (sumZ ds). pose proof (sumZ_nonneg ds Hds).
  destruct Hin as [->|Hin]; [lia|]. specialize (IH Hin). lia.
Qed.

(** Without overflow the running sum is the exact sum. *)
Lemma fold_add_exact ds acc :
  Forall (fun d => 0 <= d) ds -> 0 <= acc -> acc + sumZ ds <= Int64.max_int ->
  fold_left (fun a d => Int64.add a d) ds acc = acc + sumZ ds.
Proof.
  intros H. revert acc. induction H as [|d ds Hd Hds IH]; intros acc Ha Hs;
    cbn [fold_left sumZ fold_right] in *; [lia|]. fold (sumZ ds) in *.
  pose proof (sumZ_nonneg ds Hds).
  unfold Int64.add at 2. rewrite wrap_small
    by (unfold Int64.in_range, Int64.min_int, Int64.max_int in *; lia).
  rewrite IH; lia.
Qed.

Lemma fold_left_ext_in {A B} (f g : A -> B -> A) (l : list B) (a : A) :
  (forall x b, In b l -> f x b = g x b) -> fold_left f l a = fold_left g l a.
Proof.
  revert a. induction l as [|b l IH]; intros a H; cbn [fold_left]; [reflexivity|].
  rewrite H by (left; reflexivity). apply IH. intros x b' Hin. apply H. right. exact Hin.
Qed.

(** [computeStats] on non-negative samples whose sum fits [int64]. *)
Lemma computeStats_exact ds :
  ds <> [] -> Forall (fun d => 0 <= d) ds -> sumZ ds <= Int64.max_int ->
  let mean := sumZ ds / Z.of_nat (length ds) in
  computeStats ds
  = Some (mean,
          if 0 <? mean
          then Float64.div (Float64.sqrt (meanSquareAbout mean ds)) (Float64.of_int mean)
          else Float64.zero).
Proof.
  intros Hne Hpos Hsum mean. unfold computeStats.
  rewrite fold_add_exact by (try assumption; lia). rewrite Z.add_0_l.
  pose proof (sumZ_nonneg ds Hpos) as H0.
  assert (Hlen : 0 < Z.of_nat (length ds)) by (destruct ds; [congruence | cbn; lia]).
  unfold Int64.div.
  rewrite (proj2 (Z.eqb_neq (Z.of_nat (length ds)) 0)) by lia.
  rewrite Z.quot_div_nonneg by lia. fold mean.
  assert (Hm : 0 <= mean <= sumZ ds).
  { unfold mean. split; [apply Z.div_pos; lia|]. apply Z.div_le_upper_bound; nia. }
  rewrite wrap_small by (unfold Int64.in_range, Int64.min_int, Int64.max_int in *; lia).
  f_equal. f_equal. unfold meanSquareAbout.
  assert (Hfold :
    fold_left (fun acc d => Float64.add acc
                   (Float64.mul (Float64.of_int (Int64.sub d mean))
                                (Float64.of_int (Int64.sub d mean)))) ds Float64.zero
    = fold_left (fun acc d => Float64.add acc
                   (Float64.mul (Float64.of_int (d - mean)) (Float64.of_int (d - mean))))
                ds Float64.zero).
  { apply fold_left_ext_in. intros x d Hin. unfold Int64.sub.
    pose proof (elem_le_sumZ ds d Hpos Hin).
    assert (0 <= d) by (rewrite Forall_forall in Hpos; apply Hpos, list_elem_of_In, Hin).
    rewrite wrap_small
      by (unfold Int64.in_range, Int64.min_int, Int64.max_int in *; lia).
    reflexivity. }
  rewrite Hfold. reflexivity.
Qed.

Lemma squares_of_equal m n :
  fold_left (fun acc d => Float64.add acc
               (Float64.mul (Float64.of_int (d - m)) (Float64.of_int (d - m))))
            (repeat m n) Float64.zero
  = Float64.zero.
Proof.
  induction n as [|n IH]; cbn [repeat fold_left]; [reflexivity|].
  rewrite Z.sub_diag.
  change (Float64.add Float64.zero (Float64.mul (Float64.of_int 0) (Float64.of_int 0)))
    with Float64.zero.
  exact IH.
Qed.

Lemma sumZ_repeat m n : sumZ (repeat m n) = Z.of_nat n * m.
Proof.
  induction n as [|n IH]; cbn [repeat sumZ fold_right]; [lia|].
  fold (sumZ (repeat m n)). rewrite IH. lia.
Qed.

(** C8, as the code has it. For five non-negative samples whose sum fits
    [int64], [computeStats] returns the arithmetic mean truncated to a
    whole number of nanoseconds, and the [float64] quotient of the root of
    the mean squared deviation from that truncated mean by that mean, or 0
    when the truncated mean is 0; if all five samples equal [mu] the mean
    is [mu] and the coefficient of variation is exactly +0. *)
Theorem computeStats_five ds :
  length ds = 5%nat ->
  Forall (fun d => 0 <= d) ds ->
  sumZ ds <= Int64.max_int ->
  exists mean cv,
    computeStats ds = Some (mean, cv)
    /\ mean = sumZ ds / 5
    /\ 5 * mean <= sumZ ds < 5 * mean + 5
    /\ (mean = 0 -> cv = Float64.zero)
    /\ (0 < mean ->
        cv = Float64.div (Float64.sqrt (meanSquareAbout mean ds)) (Float64.of_int mean))
    /\ (forall mu, ds = repeat mu 5 -> mean = mu /\ cv = Float64.zero).
Proof.
  intros Hlen Hpos Hsum.
  assert (Hne : ds <> []) by (destruct ds; [discriminate | congruence]).
  pose proof (computeStats_exact ds Hne Hpos Hsum) as H. cbv zeta in H.
  rewrite Hlen in H. change (Z.of_nat 5) with 5 in H.
  set (mean := sumZ ds / 5) in *.
  eexists mean, _. split; [exact H|]. split; [reflexivity|].
  split.
  { unfold mean. pose proof (Z.mod_pos_bound (sumZ ds) 5 ltac:(lia)).
    pose proof (Z.div_mod (sumZ ds) 5 ltac:(lia)). lia. }
  split.
  { intros ->. reflexivity. }
  split.
  { intros Hm. rewrite (proj2 (Z.ltb_lt 0 mean) Hm). reflexivity. }
  intros mu ->.
  assert (Hmu : mean = mu).
  { unfold mean. rewrite sumZ_repeat. change (Z.of_nat 5) with 5.
    rewrite Z.mul_comm. apply Z.div_mul. lia. }
  split; [exact Hmu|]. rewrite Hmu.
  destruct (Z.ltb_spec 0 mu) as [Hp|Hp]; [|reflexivity].
  unfold meanSquareAbout. rewrite squares_of_equal.
  change (Float64.sqrt (Float64.div Float64.zero (Float64.of_int (Z.of_nat (length (repeat mu 5))))))
    with Float64.zero.
  apply div_zero_pos, of_int_pos, Hp.
Qed.

Lemma computeStats_five_witness :
  exists mean cv,
    computeStats (repeat (ms 100) 5) = Some (mean, cv)
    /\ mean = sumZ (repeat (ms 100) 5) / 5
    /\ 5 * mean <= sumZ (repeat (ms 100) 5) < 5 * mean + 5
    /\ (mean = 0 -> cv = Float64.zero)
    /\ (0 < mean ->
        cv = Float64.div (Float64.sqrt (meanSquareAbout mean (repeat (ms 100) 5)))
                         (Float64.of_int mean))
    /\ (forall mu, repeat (ms 100) 5 = repeat mu 5 -> mean = mu /\ cv = Float64.zero).
Proof.
  apply (computeStats_five (repeat (ms 100) 5)).
  - reflexivity.
  - repeat constructor; vm_compute; discriminate.
  - vm_compute. discriminate.
Defined.

(** C8 fails as stated: for 1, 1, 1, 1 and 2 ns the arithmetic mean is 6/5
    and sigma/mu is 1/3, but the mean returned is 1 ns and the coefficient
    returned, [m * 2^-54], is above 2/5; for 0, 0, 0, 0 and 4 ns the
    arithmetic mean is 4/5 and sigma/mu is 2, but mean and coefficient
    returned are both 0. (And five samples of [2^62] ns, whose sum does not
    fit [int64], come back with a mean of a fifth of that and a coefficient
    of 4.) *)
Lemma computeStats_truncates_mean :
  computeStats [1; 1; 1; 1; 2]
    = Some (1, S754_finite false 8056283928194521 (-54))
  /\ 5 * 1 <> sumZ [1; 1; 1; 1; 2]
  /\ 2 * 2 ^ 54 < 5 * 8056283928194521
  /\ computeStats [0; 0; 0; 0; 4] = Some (0, Float64.zero)
  /\ 5 * 0 <> sumZ [0; 0; 0; 0; 4]
  /\ computeStats (repeat (2 ^ 62) 5)
     = Some (922337203685477580, S754_finite false 4503599627370496 (-50)).
Proof. vm_compute. repeat split; discriminate. Qed.

(** *** The verdict on a device *)

Lemma timedRuns_ok hw dev todo i durs tr :
  (forall k, (i <= k < i + todo)%nat -> fst (hw_gemm hw dev k) = GPU_PULSE_OK) ->
  timedRuns hw dev todo i durs tr
  = (inl (durs ++ List.map (fun k => snd (hw_gemm hw dev k)) (seq i todo))%list,
     (tr ++ repeat (EvGemm dev) todo)%list).
Proof.
  revert i durs tr. induction todo as [|todo IH]; intros i durs tr Hok;
    cbn [timedRuns seq List.map repeat].
  - rewrite !app_nil_r. reflexivity.
  - unfold bind, emit.
    pose proof (Hok i ltac:(lia)) as Hi.
    destruct (hw_gemm hw dev i) as [rc elapsed] eqn:E. cbn [fst snd] in *. subst rc.
    change (GPU_PULSE_OK =? GPU_PULSE_OK) with true. cbv iota.
    rewrite IH by (intros k Hk; apply Hok; lia).
    rewrite <- !app_assoc. reflexivity.
Qed.

Lemma computeStats_some ds :
  ds <> [] -> exists mean cv, computeStats ds = Some (mean, cv).
Proof.
  intros Hne. unfold computeStats, Int64.div.
  rewrite (proj2 (Z.eqb_neq (Z.of_nat (length ds)) 0))
    by (destruct ds; [congruence | cbn; lia]).
  eauto.
Qed.

(** A failing device ends the device loop with its own measurement. *)
Lemma deviceLoop_failure th hw todo dev worst tr mean cv e tr' :
  runDevicePulse th hw dev tr = ((mean, cv, Some e), tr') ->
  fst (deviceLoop th hw (S todo) dev worst tr) = inr (mean, e).
Proof.
  intros H. cbn [deviceLoop]. unfold bind at 1. rewrite H. reflexivity.
Qed.

(** C4, as the code has it. On a device whose five runs succeed, the
    statistics of the five elapsed times decide, and the mean is the one
    [computeStats] returns: for non-negative times whose sum fits [int64],
    the sum divided by 5 and truncated to whole nanoseconds, up to 4/5 ns
    below the exact mean. That mean above the latency threshold gives the
    LatencyExceeded carrier (measured and threshold in whole milliseconds,
    unit "ms"), whatever the variance; otherwise a coefficient of variation
    above the ceiling gives the HighVariance carrier (measured coefficient,
    ceiling, unit "cv"); otherwise the device passes. A failure is what
    the device loop returns. *)
Theorem device_verdict th hw dev tr :
  (forall i, (i < 5)%nat -> fst (hw_gemm hw dev i) = GPU_PULSE_OK) ->
  exists mean cv err,
    computeStats (fiveRuns hw dev) = Some (mean, cv)
    /\ (Forall (fun d => 0 <= d) (fiveRuns hw dev) ->
        sumZ (fiveRuns hw dev) <= Int64.max_int ->
        mean = sumZ (fiveRuns hw dev) / 5
        /\ 5 * mean <= sumZ (fiveRuns hw dev) < 5 * mean + 5
        /\ cv = (if 0 <? mean
                 then Float64.div
                        (Float64.sqrt (meanSquareAbout mean (fiveRuns hw dev)))
                        (Float64.of_int mean)
                 else Float64.zero))
    /\ runDevicePulse th hw dev tr
       = ((mean, cv, err), (tr ++ repeat (EvGemm dev) 5)%list)
    /\ (thr_straggler th < mean ->
        err = Some (PulseFailure (ErrorfW (TxtMean dev mean) StragglerDetected)
                      (Float64.of_int (Milliseconds mean))
                      (Float64.of_int (Milliseconds (thr_straggler th)))
                      "ms")
        /\ errors_Is (PulseFailure (ErrorfW (TxtMean dev mean) StragglerDetected)
                      (Float64.of_int (Milliseconds mean))
                      (Float64.of_int (Milliseconds (thr_straggler th)))
                      "ms") StragglerDetected = true)
    /\ (mean <= thr_straggler th -> Float64.gtb cv (thr_cv th) = true ->
        err = Some (PulseFailure (ErrorfW (TxtCV dev cv) HighVariance)
                      cv (thr_cv th) "cv")
        /\ errors_Is (PulseFailure (ErrorfW (TxtCV dev cv) HighVariance)
                      cv (thr_cv th) "cv") HighVariance = true)
    /\ (mean <= thr_straggler th -> Float64.gtb cv (thr_cv th) = false ->
        err = None)
    /\ (forall e todo worst, err = Some e ->
        fst (deviceLoop th hw (S todo) dev worst tr) = inr (mean, e)).
Proof.
  intros Hok.
  destruct (computeStats_some (fiveRuns hw dev)) as (mean & cv & Hs);
    [unfold fiveRuns; discriminate|].
  assert (Hrun : runDevicePulse th hw dev tr
                 = ((mean, cv, judge th dev mean cv),
                    (tr ++ repeat (EvGemm dev) 5)%list)).
  { unfold runDevicePulse, pulseRuns. unfold bind.
    rewrite timedRuns_ok by (intros k Hk; apply Hok; lia).
    unfold ret. change ([] ++ List.map (fun k => snd (hw_gemm hw dev k)) (seq 0 5))%list
      with (fiveRuns hw dev). rewrite Hs. reflexivity. }
  exists mean, cv, (judge th dev mean cv).
  split; [exact Hs|]. split.
  { intros Hpos Hsum.
    pose proof (computeStats_exact (fiveRuns hw dev) ltac:(discriminate) Hpos Hsum) as Hx.
    cbv zeta in Hx. change (Z.of_nat (length (fiveRuns hw dev))) with 5 in Hx.
    rewrite Hs in Hx.
    assert (Hm : mean = sumZ (fiveRuns hw dev) / 5) by congruence.
    split; [exact Hm|]. split.
    - rewrite Hm.
      pose proof (Z.mul_div_le (sumZ (fiveRuns hw dev)) 5 ltac:(lia)).
      pose proof (Z.mul_succ_div_gt (sumZ (fiveRuns hw dev)) 5 ltac:(lia)).
      lia.
    - rewrite <- Hm in Hx. congruence. }
  split; [exact Hrun|].
  unfold judge. split; [|split; [|split; [|]]].
  - intros H. rewrite (proj2 (Z.ltb_lt _ _) H). split; reflexivity.
  - intros H Hcv. rewrite (proj2 (Z.ltb_ge _ _) H), Hcv. split; reflexivity.
  - intros H Hcv. rewrite (proj2 (Z.ltb_ge _ _) H), Hcv. reflexivity.
  - intros e todo worst He. eapply deviceLoop_failure. rewrite Hrun.
    unfold judge. rewrite He. reflexivity.
Qed.

Lemma device_verdict_witness :
  exists mean cv err,
    computeStats (fiveRuns hwSlowErratic 0) = Some (mean, cv)
    /\ (Forall (fun d => 0 <= d) (fiveRuns hwSlowErratic 0) ->
        sumZ (fiveRuns hwSlowErratic 0) <= Int64.max_int ->
        mean = sumZ (fiveRuns hwSlowErratic 0) / 5
        /\ 5 * mean <= sumZ (fiveRuns hwSlowErratic 0) < 5 * mean + 5
        /\ cv = (if 0 <? mean
                 then Float64.div
                        (Float64.sqrt (meanSquareAbout mean (fiveRuns hwSlowErratic 0)))
                        (Float64.of_int mean)
                 else Float64.zero))
    /\ runDevicePulse defaultThresholds hwSlowErratic 0 []
       = ((mean, cv, err), ([] ++ repeat (EvGemm 0) 5)%list)
    /\ (thr_straggler defaultThresholds < mean ->
        err = Some (PulseFailure (ErrorfW (TxtMean 0 mean) StragglerDetected)
                      (Float64.of_int (Milliseconds mean))
                      (Float64.of_int (Milliseconds (thr_straggler defaultThresholds)))
                      "ms")
        /\ errors_Is (PulseFailure (ErrorfW (TxtMean 0 mean) StragglerDetected)
                      (Float64.of_int (Milliseconds mean))
                      (Float64.of_int (Milliseconds (thr_straggler defaultThresholds)))
                      "ms") StragglerDetected = true)
    /\ (mean <= thr_straggler defaultThresholds ->
        Float64.gtb cv (thr_cv defaultThresholds) = true ->
        err = Some (PulseFailure (ErrorfW (TxtCV 0 cv) HighVariance)
                      cv (thr_cv defaultThresholds) "cv")
        /\ errors_Is (PulseFailure (ErrorfW (TxtCV 0 cv) HighVariance)
                      cv (thr_cv defaultThresholds) "cv") HighVariance = true)
    /\ (mean <= thr_straggler defaultThresholds ->
        Float64.gtb cv (thr_cv defaultThresholds) = false ->
        err = None)
    /\ (forall e todo worst, err = Some e ->
        fst (deviceLoop defaultThresholds hwSlowErratic (S todo) 0 worst [])
        = inr (mean, e)).
Proof.
  apply (device_verdict defaultThresholds hwSlowErratic 0 []).
  intros i Hi. reflexivity.
Defined.

(** C4 fails as stated: the five runs of this device take 500 ms four
    times and 500 ms and 4 ns once, so their mean is above the threshold
    of 500 ms; the mean that is compared is the truncated one, 500 ms
    sharp, and the device passes. *)
Lemma mean_above_threshold_passes :
  fiveRuns hwBarelySlow 0 = [ms 500; ms 500; ms 500; ms 500; ms 500 + 4]
  /\ Forall (fun i => fst (hw_gemm hwBarelySlow 0 i) = GPU_PULSE_OK) [0; 1; 2; 3; 4]%nat
  /\ thr_straggler defaultThresholds = ms 500
  /\ 5 * thr_straggler defaultThresholds < sumZ (fiveRuns hwBarelySlow 0)
  /\ fst (fst (fst (runDevicePulse defaultThresholds hwBarelySlow 0 []))) = ms 500
  /\ snd (fst (runDevicePulse defaultThresholds hwBarelySlow 0 [])) = None
  /\ fst (RunPulse defaultThresholds hwBarelySlow []) = (ms 500, None).
Proof. vm_compute. repeat split; repeat constructor. Qed.

(** A device that is both slow and erratic fails on latency. *)
Example slow_and_erratic_is_latency :
  computeStats (fiveRuns hwSlowErratic 0)
    = Some (ms 600, S754_finite false 7505999378950827 (-52))
  /\ Float64.gtb (S754_finite false 7505999378950827 (-52)) Float64.lit_0_20 = true
  /\ fst (RunPulse defaultThresholds hwSlowErratic [])
     = (ms 600,
        Some (PulseFailure (ErrorfW (TxtMean 0 (ms 600)) StragglerDetected)
                (Float64.of_int 600) (Float64.of_int 500) "ms")).
Proof. vm_compute. repeat split. Qed.

(** *** Threshold resolution *)

Lemma nonempty_parse (s : string) :
  nonempty s = false -> Strconv.ParseInt s = Strconv.PErrSyntax.
Proof. destruct s; [reflexivity | discriminate]. Qed.

(** Without a usable override the latency threshold is the calibrated one. *)
Lemma stragglerThreshold_default env gpuName :
  intOverride env "PULSE_THRESHOLD_MS" = None ->
  stragglerThreshold env gpuName = detectGPUThreshold gpuName.
Proof.
  unfold intOverride, stragglerThreshold.
  destruct (nonempty (Getenv env "PULSE_THRESHOLD_MS")) eqn:En; [|reflexivity].
  destruct (Strconv.ParseInt (Getenv env "PULSE_THRESHOLD_MS")) as [v| |v];
    try reflexivity.
  destruct (0 <? v); [discriminate | reflexivity].
Qed.

(** An override up to [maxThresholdMS] is the threshold, in milliseconds. *)
Lemma stragglerThreshold_override env gpuName v :
  intOverride env "PULSE_THRESHOLD_MS" = Some v ->
  v <= maxThresholdMS ->
  stragglerThreshold env gpuName = v * Millisecond
  /\ ThresholdMS (stragglerThreshold env gpuName) = v.
Proof.
  unfold intOverride, stragglerThreshold. intros H Hmax.
  destruct (nonempty (Getenv env "PULSE_THRESHOLD_MS")) eqn:En;
    [|rewrite (nonempty_parse _ En) in H; discriminate].
  destruct (Strconv.ParseInt (Getenv env "PULSE_THRESHOLD_MS")) as [x| |x];
    try discriminate.
  destruct (Z.ltb_spec 0 x); [|discriminate]. injection H as ->.
  unfold Int64.mul, maxThresholdMS, Millisecond in *.
  rewrite wrap_small
    by (unfold Int64.in_range, Int64.min_int, Int64.max_int; lia).
  split; [reflexivity|]. unfold ThresholdMS, Milliseconds.
  apply Z.quot_mul. lia.
Qed.

(** The calibrated latency threshold, in milliseconds. *)
Lemma detectGPUThreshold_table gpuName :
  let name := Strings.ToUpper gpuName in
  ThresholdMS (detectGPUThreshold gpuName)
  = if Strings.Contains name "B200" || Strings.Contains name "GB200" then 15
    else if Strings.Contains name "H100" || Strings.Contains name "H200" then 35
    else if Strings.Contains name "A100" then 100
    else 500.
Proof.
  cbv zeta. unfold detectGPUThreshold.
  destruct (_ || _); [reflexivity|].
  destruct (_ || _); [reflexivity|].
  destruct (Strings.Contains _ _); reflexivity.
Qed.

Lemma envInt_resolution env key def :
  envInt env key def = default def (intOverride env key).
Proof.
  unfold envInt, intOverride, Strconv.Atoi.
  destruct (nonempty (Getenv env key)) eqn:En;
    [|rewrite (nonempty_parse _ En); reflexivity].
  destruct (Strconv.ParseInt (Getenv env key)) as [v| |v]; try reflexivity.
  destruct (0 <? v); reflexivity.
Qed.

Section FloatOverrides.

(** [strconv.ParseFloat(s, 64)]; it rejects the empty string. *)
Variable ParseFloat : string -> option float64.
Hypothesis ParseFloat_empty : ParseFloat "" = None.

Lemma envFloat64_resolution env key def :
  envFloat64 ParseFloat env key def
  = match ParseFloat (Getenv env key) with
    | Some v => if Float64.gtb v Float64.zero then v else def
    | None => def
    end.
Proof.
  unfold envFloat64.
  destruct (Getenv env key) as [|c s] eqn:E; cbn [nonempty]; [|reflexivity].
  rewrite ParseFloat_empty. reflexivity.
Qed.

End FloatOverrides.

(** With nothing set and an unrecognised GPU the thresholds are the
    fall-backs: 500 ms, 0.20, 5.0 GB/s, 70 degrees. *)
Example fallback_thresholds :
  initThresholds (fun _ => None) emptyEnv "unknown" = defaultThresholds.
Proof. reflexivity. Qed.

Example calibrated_thresholds :
  ThresholdMS (detectGPUThreshold "NVIDIA B200") = 15
  /\ ThresholdMS (detectGPUThreshold "NVIDIA GB200 NVL72") = 15
  /\ ThresholdMS (detectGPUThreshold "NVIDIA H100 80GB HBM3") = 35
  /\ ThresholdMS (detectGPUThreshold "NVIDIA H200") = 35
  /\ ThresholdMS (detectGPUThreshold "nvidia a100-sxm4-80gb") = 100
  /\ ThresholdMS (detectGPUThreshold "A100 next to H100") = 35
  /\ ThresholdMS (detectGPUThreshold "Tesla V100") = 500.
Proof. vm_compute. repeat split. Qed.

(** C7 fails on the code: PULSE_THRESHOLD_MS=9223372036855 parses to a
    positive integer, but its nanoseconds do not fit [int64]: the product
    wraps, and the resolved threshold is -9223372036854 ms, neither the
    parsed value nor the calibrated default (100 ms on an A100). *)
Lemma threshold_override_wraps :
  let env := env1 "PULSE_THRESHOLD_MS" "9223372036855" in
  intOverride env "PULSE_THRESHOLD_MS" = Some 9223372036855
  /\ stragglerThreshold env "NVIDIA A100" = -9223372036854551616
  /\ ThresholdMS (stragglerThreshold env "NVIDIA A100") = -9223372036854
  /\ ThresholdMS (detectGPUThreshold "NVIDIA A100") = 100
  /\ maxThresholdMS + 1 = 9223372036855.
Proof. vm_compute. repeat split. Qed.

End PulseFacts.
(* ===================================================================== *)
(** ** The controller: what a reconciliation does to the node *)
(* ===================================================================== *)

Module K8sFacts.

Import Time K8s Spec Int64Facts.

(** *** Lists of taints and conditions *)

Lemma filter_length_eq {A} (f : A -> bool) (l : list A) :
  (length (List.filter f l) =? length l)%nat = forallb f l.
Proof.
  induction l as [|a l IH]; cbn [List.filter forallb length]; [reflexivity|].
  destruct (f a); cbn [length andb].
  - exact IH.
  - pose proof (List.filter_length_le f l). apply Nat.eqb_neq. lia.
Qed.

Lemma forallb_negb_existsb {A} (f : A -> bool) (l : list A) :
  forallb (fun a => negb (f a)) l = negb (existsb f l).
Proof.
  induction l as [|a l IH]; cbn [forallb existsb]; [reflexivity|].
  rewrite IH. destruct (f a); reflexivity.
Qed.

Lemma hasTaintKey_filter taints key :
  (length (withoutKey key taints) =? length taints)%nat
  = negb (hasTaintKey taints key).
Proof.
  unfold withoutKey, hasTaintKey. rewrite filter_length_eq.
  apply forallb_negb_existsb.
Qed.

(** The guard of [applyTaint] and [removeTaint] looks at keys only. *)
Lemma hasTaintKey_true taints key :
  hasTaintKey taints key = true <-> exists t, In t taints /\ Key t = key.
Proof.
  unfold hasTaintKey. rewrite existsb_exists. split.
  - intros (t & Hin & He). exists t. split; [exact Hin|]. apply String.eqb_eq, He.
  - intros (t & Hin & He). exists t. split; [exact Hin|]. apply String.eqb_eq, He.
Qed.

Lemma hasTaintKey_count taints key :
  hasTaintKey taints key = negb (taintCount key taints =? 0)%nat.
Proof.
  unfold hasTaintKey, taintCount.
  induction taints as [|t ts IH]; cbn [existsb List.filter]; [reflexivity|].
  destruct (String.eqb (Key t) key); cbn [orb length]; [reflexivity | exact IH].
Qed.

Lemma taintCount_withoutKey key taints : taintCount key (withoutKey key taints) = 0%nat.
Proof.
  unfold taintCount, withoutKey.
  induction taints as [|t ts IH]; cbn [List.filter]; [reflexivity|].
  destruct (String.eqb (Key t) key) eqn:E; cbn [negb]; [exact IH|].
  cbn [List.filter]. rewrite E. exact IH.
Qed.

Lemma taintCount_app key ts1 ts2 :
  taintCount key (ts1 ++ ts2) = (taintCount key ts1 + taintCount key ts2)%nat.
Proof. unfold taintCount. rewrite List.filter_app, length_app. reflexivity. Qed.

Lemma taintCount_quarantine elapsed :
  taintCount zombieTaintKey [quarantineTaint elapsed] = 1%nat.
Proof. reflexivity. Qed.

(** [upsertCondition] never duplicates: the count of the type goes from 0
    to 1 and is kept otherwise. *)
Lemma conditionCount_upsert conds c :
  conditionCount (Type_ c) (upsertCondition conds c)
  = Nat.max 1 (conditionCount (Type_ c) conds).
Proof.
  unfold conditionCount.
  induction conds as [|e rest IH]; cbn [upsertCondition List.filter].
  - rewrite String.eqb_refl. reflexivity.
  - destruct (String.eqb (Type_ e) (Type_ c)) eqn:E; cbn [List.filter].
    + rewrite String.eqb_refl. cbn [length]. lia.
    + rewrite E. exact IH.
Qed.

Lemma upsertCondition_In conds c : In c (upsertCondition conds c).
Proof.
  induction conds as [|e rest IH]; cbn [upsertCondition]; [left; reflexivity|].
  destruct (String.eqb (Type_ e) (Type_ c)); [left; reflexivity | right; exact IH].
Qed.

(** Conditions of other types are not touched by an upsert. *)
Lemma upsertCondition_other conds c ty :
  Type_ c <> ty ->
  List.filter (fun x => String.eqb (Type_ x) ty) (upsertCondition conds c)
  = List.filter (fun x => String.eqb (Type_ x) ty) conds.
Proof.
  intros Hne. induction conds as [|e rest IH]; cbn [upsertCondition List.filter].
  - destruct (String.eqb_spec (Type_ c) ty); [contradiction | reflexivity].
  - destruct (String.eqb_spec (Type_ e) (Type_ c)) as [He|He]; cbn [List.filter].
    + destruct (String.eqb_spec (Type_ c) ty); [contradiction|].
      destruct (String.eqb_spec (Type_ e) ty); [congruence | reflexivity].
    + rewrite IH. reflexivity.
Qed.

(** *** The primitives *)

Lemma quiet_refl w : quiet w w.
Proof. repeat split. Qed.

Lemma PatchTaints_spec nodeName taints w ok w' :
  PatchTaints nodeName taints w = (ok, w') ->
  quiet w w'
  /\ requests w' = (requests w ++ [ReqPatchSpec nodeName taints])%list
  /\ if ok
     then exists n, nodes w !! nodeName = Some n /\
            nodes w' = <[nodeName := {| Name := Name n; Taints := taints;
                                        Conditions := Conditions n |}]> (nodes w)
     else nodes w' = nodes w.
Proof.
  unfold PatchTaints, bind, request, set_nodes, ret. cbn [nodes].
  destruct (hd false (faults w)).
  - intros [= <- <-]. repeat split.
  - destruct (nodes w !! nodeName) as [n|] eqn:E; intros [= <- <-]; cbn [nodes].
    + repeat split. eauto.
    + repeat split.
Qed.

Lemma PatchConditions_spec nodeName conds w ok w' :
  PatchConditions nodeName conds w = (ok, w') ->
  quiet w w'
  /\ requests w' = (requests w ++ [ReqPatchStatus nodeName conds])%list
  /\ if ok
     then exists n, nodes w !! nodeName = Some n /\
            nodes w' = <[nodeName := {| Name := Name n; Taints := Taints n;
                                        Conditions := conds |}]> (nodes w)
     else nodes w' = nodes w.
Proof.
  unfold PatchConditions, bind, request, set_nodes, ret. cbn [nodes].
  destruct (hd false (faults w)).
  - intros [= <- <-]. repeat split.
  - destruct (nodes w !! nodeName) as [n|] eqn:E; intros [= <- <-]; cbn [nodes].
    + repeat split. eauto.
    + repeat split.
Qed.

Lemma Get_spec nodeName w r w' :
  Get nodeName w = (r, w') ->
  quiet w w' /\ nodes w' = nodes w
  /\ requests w' = (requests w ++ [ReqGet nodeName])%list
  /\ ticks w' = ticks w
  /\ r = (if hd false (faults w) then None else nodes w !! nodeName).
Proof.
  unfold Get, bind, request. cbn [nodes]. intros [= <- <-]. repeat split.
Qed.

Lemma justBecameReady_loop_frame conds within w b w' :
  justBecameReady_loop conds within w = (b, w') ->
  quiet w w' /\ nodes w' = nodes w /\ requests w' = requests w.
Proof.
  revert w. induction conds as [|c rest IH]; intros w; cbn [justBecameReady_loop].
  - unfold ret. intros [= <- <-]. repeat split.
  - destruct (_ && _).
    + unfold bind, Now, ret. intros [= <- <-]. repeat split.
    + apply IH.
Qed.

(** The gate is closed when there is no Ready/True condition, or when the
    first one is at least [within] old. *)
Lemma gate_closed n within w :
  (forall c, readyTrue n = Some c ->
             within <= Since (clock w (ticks w)) (LastTransitionTime c)) ->
  exists w', justBecameReady n within w = (false, w').
Proof.
  unfold justBecameReady, readyTrue.
  induction (Conditions n) as [|c rest IH]; intros H; cbn [justBecameReady_loop].
  - exists w. reflexivity.
  - cbn [List.find] in H.
    destruct (String.eqb (Type_ c) NodeReady && String.eqb (Status c) ConditionTrue).
    + specialize (H c eq_refl). unfold bind, Now, ret.
      rewrite (proj2 (Z.ltb_ge _ _) H). eexists. reflexivity.
    + apply IH. exact H.
Qed.

(** What the gate answers. *)
Lemma justBecameReady_decision n within w b w' :
  justBecameReady n within w = (b, w') -> b = recentlyReady n within w.
Proof.
  unfold justBecameReady, recentlyReady, readyTrue.
  induction (Conditions n) as [|c rest IH]; cbn [justBecameReady_loop List.find].
  - unfold ret. intros [= <- _]. reflexivity.
  - destruct (String.eqb (Type_ c) NodeReady && String.eqb (Status c) ConditionTrue).
    + unfold bind, Now, ret. intros [= <- _]. reflexivity.
    + exact IH.
Qed.

(** *** [removeTaint], [applyTaint] and [ReconcileNode] when they return nil *)

Lemma removeTaint_success nodeName node w w' :
  nodes w !! nodeName = Some node ->
  removeTaint nodeName node w = (None, w') ->
  quiet w w' /\
  if hasTaintKey (Taints node) zombieTaintKey
  then exists now,
       nodes w' = <[nodeName :=
            {| Name := Name node; Taints := withoutKey zombieTaintKey (Taints node);
               Conditions := upsertCondition (Conditions node) (passCondition now) |}]>
            (nodes w)
       /\ requests w' =
            (requests w ++
             [ReqPatchSpec nodeName (withoutKey zombieTaintKey (Taints node));
              ReqPatchStatus nodeName
                (upsertCondition (Conditions node) (passCondition now))])%list
  else w' = w.
Proof.
  intros Hn. unfold removeTaint. fold (withoutKey zombieTaintKey (Taints node)).
  rewrite hasTaintKey_filter.
  destruct (hasTaintKey (Taints node) zombieTaintKey) eqn:Hk; cbn [negb].
  - unfold bind at 1.
    destruct (PatchTaints _ _ w) as [ok1 w1] eqn:E1.
    apply PatchTaints_spec in E1 as (Q1 & R1 & N1).
    destruct ok1; cbn [negb]; [|unfold ret; discriminate].
    destruct N1 as (n1 & Hn1 & N1). rewrite Hn in Hn1. injection Hn1 as <-.
    unfold bind at 1. unfold Now at 1. unfold bind at 1.
    match goal with |- context [PatchConditions ?a ?b ?c] =>
      destruct (PatchConditions a b c) as [ok2 w2] eqn:E2 end.
    apply PatchConditions_spec in E2 as (Q2 & R2 & N2). cbn [nodes requests] in N2, R2.
    destruct ok2; cbn [negb]; [|unfold ret; discriminate].
    unfold bind, Log, ret. intros [= <-].
    destruct N2 as (n2 & Hn2 & N2).
    rewrite N1, lookup_insert_eq in Hn2. injection Hn2 as <-.
    cbn [Name Taints Conditions] in N2.
    split.
    + unfold quiet in *. cbn [pulseCalls stragglerTotal clock] in *.
      destruct Q1 as (?&?&?), Q2 as (?&?&?). repeat split; congruence.
    + eexists. cbn [nodes requests]. split.
      * rewrite N2, N1, insert_insert_eq. reflexivity.
      * rewrite R2, R1, <- app_assoc. reflexivity.
  - unfold ret. intros [= <-]. split; [apply quiet_refl | reflexivity].
Qed.

Lemma applyTaint_success nodeName node elapsed w w' :
  nodes w !! nodeName = Some node ->
  applyTaint nodeName node elapsed w = (None, w') ->
  quiet w w' /\
  if hasTaintKey (Taints node) zombieTaintKey
  then w' = w
  else exists now,
       nodes w' = <[nodeName :=
            {| Name := Name node;
               Taints := (Taints node ++ [quarantineTaint elapsed])%list;
               Conditions := upsertCondition (Conditions node)
                                             (failCondition elapsed now) |}]>
            (nodes w)
       /\ requests w' =
            (requests w ++
             [ReqPatchSpec nodeName (Taints node ++ [quarantineTaint elapsed]);
              ReqPatchStatus nodeName
                (upsertCondition (Conditions node) (failCondition elapsed now))])%list.
Proof.
  intros Hn. unfold applyTaint.
  destruct (hasTaintKey (Taints node) zombieTaintKey) eqn:Hk.
  - unfold ret. intros [= <-]. split; [apply quiet_refl | reflexivity].
  - unfold bind at 1.
    destruct (PatchTaints _ _ w) as [ok1 w1] eqn:E1.
    apply PatchTaints_spec in E1 as (Q1 & R1 & N1).
    destruct ok1; cbn [negb]; [|unfold ret; discriminate].
    destruct N1 as (n1 & Hn1 & N1). rewrite Hn in Hn1. injection Hn1 as <-.
    unfold bind at 1. unfold Now at 1. unfold bind at 1.
    match goal with |- context [PatchConditions ?a ?b ?c] =>
      destruct (PatchConditions a b c) as [ok2 w2] eqn:E2 end.
    apply PatchConditions_spec in E2 as (Q2 & R2 & N2). cbn [nodes requests] in N2, R2.
    destruct ok2; cbn [negb]; [|unfold ret; discriminate].
    unfold ret. intros [= <-].
    destruct N2 as (n2 & Hn2 & N2).
    rewrite N1, lookup_insert_eq in Hn2. injection Hn2 as <-.
    cbn [Name Taints Conditions] in N2.
    split.
    + unfold quiet in *. cbn [pulseCalls stragglerTotal clock] in *.
      destruct Q1 as (?&?&?), Q2 as (?&?&?). repeat split; congruence.
    + eexists. split.
      * rewrite N2, N1, insert_insert_eq. reflexivity.
      * rewrite R2, R1, <- app_assoc. reflexivity.
Qed.

Lemma insert_same (m : gmap string Node) k n : m !! k = Some n -> m = <[k := n]> m.
Proof. intros H. symmetry. apply insert_id. exact H. Qed.

(** The inversion of a successful [ReconcileNode]: the node was stored,
    and the call took one of the five ways of [Outcome]. *)
(** A successful reconciliation: the way it went, and the pulse invoked
    exactly when the gate let the node through. *)
Lemma ReconcileNode_outcome c window nodeName w w' :
  ReconcileNode c window nodeName w = (None, w') ->
  exists n n', nodes w !! nodeName = Some n
    /\ nodes w' = <[nodeName := n']> (nodes w)
    /\ Outcome c nodeName w n w' n'
    /\ pulseCalls w' = (if recentlyReady n window w
                        then S (pulseCalls w) else pulseCalls w).
Proof.
  unfold ReconcileNode. unfold bind at 1.
  destruct (Get nodeName w) as [got w1] eqn:EG.
  apply Get_spec in EG as (Q1 & N1 & R1 & T1 & HG).
  destruct got as [node|]; [|unfold ret; discriminate].
  assert (Hnode : nodes w !! nodeName = Some node)
    by (destruct (hd false (faults w)); [discriminate | congruence]).
  clear HG.
  unfold bind at 1. unfold justBecameReady.
  destruct (justBecameReady_loop (Conditions node) window w1) as [fresh w2] eqn:EJ.
  assert (HD : fresh = recentlyReady node window w).
  { rewrite (justBecameReady_decision node window w1 fresh w2 EJ).
    unfold recentlyReady. destruct Q1 as (_ & _ & C1). rewrite C1, T1. reflexivity. }
  apply justBecameReady_loop_frame in EJ as (Q2 & N2 & R2).
  assert (HP : pulseCalls w2 = pulseCalls w)
    by (destruct Q1 as (?&?&?), Q2 as (?&?&?); congruence).
  destruct fresh; cbn [negb].
  2:{ unfold ret. intros [= <-]. exists node, node. split; [exact Hnode|]. split.
      - rewrite N2, N1. apply insert_same, Hnode.
      - split; [apply OutGate; congruence | rewrite <- HD; exact HP]. }
  unfold bind at 1. unfold Log at 1. unfold bind at 1. unfold callPulse at 1.
  cbn [pulseCalls]. rewrite HP.
  destruct (runPulse c (pulseCalls w)) as [elapsed err] eqn:ER.
  destruct err as [err|].
  - (* the pulse failed: both branches end in applyTaint *)
    assert (forall lvl msg attrs reason wa,
              nodes wa = nodes w -> pulseCalls wa = S (pulseCalls w) ->
              requests wa = (requests w ++ [ReqGet nodeName])%list ->
              (Log lvl msg attrs ;;; IncStragglerTotal reason ;;;
               applyTaint nodeName node elapsed)%st wa = (None, w') ->
              exists n n', nodes w !! nodeName = Some n
                /\ nodes w' = <[nodeName := n']> (nodes w)
                /\ Outcome c nodeName w n w' n'
                /\ pulseCalls w' = (if recentlyReady n window w
                                    then S (pulseCalls w) else pulseCalls w))
      as Hfail.
    { intros lvl msg attrs reason wa Hna Hpa Hra.
      unfold bind, Log, IncStragglerTotal.
      intros HA. apply applyTaint_success in HA as [QA NA];
        [|cbn [nodes]; rewrite Hna; exact Hnode].
      unfold quiet in QA. cbn [pulseCalls stragglerTotal clock nodes requests] in *.
      destruct QA as (PA & _ & _).
      exists node. destruct (hasTaintKey (Taints node) zombieTaintKey) eqn:Hk.
      - exists node. split; [exact Hnode|]. subst w'. cbn [nodes pulseCalls] in *.
        split.
        + rewrite Hna. apply insert_same, Hnode.
        + split; [eapply OutFailPresent; eauto | rewrite <- HD; exact Hpa].
      - destruct NA as (now & NA & RA). eexists. split; [exact Hnode|]. split.
        + rewrite NA, Hna. reflexivity.
        + split; [|rewrite <- HD; congruence].
          eapply OutFailApplied; eauto; [congruence|].
          rewrite RA, Hra, <- app_assoc. reflexivity. }
    destruct (Pulse.IsStragglerErr err).
    + destruct (if Pulse.errors_Is err Pulse.HighVariance then _ else _)
        as [logReason promReason].
      apply Hfail; cbn [nodes pulseCalls requests]; congruence.
    + apply Hfail; cbn [nodes pulseCalls requests]; congruence.
  - unfold bind at 1. unfold Log at 1.
    intros HR. apply removeTaint_success in HR as [QR NR];
      [|cbn [nodes]; rewrite N2, N1; exact Hnode].
    unfold quiet in QR. cbn [pulseCalls stragglerTotal clock nodes requests] in *.
    destruct QR as (PR & _ & _).
    exists node. destruct (hasTaintKey (Taints node) zombieTaintKey) eqn:Hk.
    + destruct NR as (now & NR & RR). eexists. split; [exact Hnode|]. split.
      * rewrite NR, N2, N1. reflexivity.
      * split; [|rewrite <- HD; exact PR].
        eapply OutPassCleared; eauto.
        rewrite RR, R2, R1, <- app_assoc. reflexivity.
    + exists node. split; [exact Hnode|]. subst w'. cbn [nodes pulseCalls requests].
      split.
      * rewrite N2, N1. apply insert_same, Hnode.
      * split; [|rewrite <- HD; reflexivity].
        eapply OutPassAbsent; eauto. cbn [requests]. congruence.
Qed.

Lemma ReconcileNode_success c window nodeName w w' :
  ReconcileNode c window nodeName w = (None, w') ->
  exists n n', nodes w !! nodeName = Some n
    /\ nodes w' = <[nodeName := n']> (nodes w)
    /\ Outcome c nodeName w n w' n'.
Proof.
  intros H. apply ReconcileNode_outcome in H as (n & n' & Hn & Hn' & Hout & _).
  exists n, n'. repeat split; assumption.
Qed.


(** *** The scenarios of the test suite *)

Import Scenarios.

Example test_healthy_clears_quarantine :
  observe (mockPulse (ms 150) None) (minutes 5)
          (quarantinedNode "gpu-node-0" (minutes 2))
  = (None,
     Some {| Name := "gpu-node-0"; Taints := [];
             Conditions := Conditions (freshNode "gpu-node-0" (minutes 2))
                           ++ [passCondition t0] |},
     1%nat).
Proof. vm_compute. reflexivity. Qed.

Example test_straggler_quarantined :
  observe (mockPulse (ms 600) (Some Pulse.ErrStragglerDetected)) (minutes 5)
          (freshNode "gpu-node-1" (minutes 1))
  = (None,
     Some {| Name := "gpu-node-1";
             Taints := [ {| Key := zombieTaintKey; Value := "600ms";
                            Effect := "NoSchedule" |} ];
             Conditions := Conditions (freshNode "gpu-node-1" (minutes 1))
                           ++ [failCondition (ms 600) t0] |},
     1%nat).
Proof. vm_compute. reflexivity. Qed.

Example test_steady_state_untouched :
  observe (mockPulse 0 None) (minutes 5) (freshNode "gpu-node-2" (minutes 120))
  = (None, Some (freshNode "gpu-node-2" (minutes 120)), 0%nat).
Proof. vm_compute. reflexivity. Qed.

Example test_high_variance_quarantined :
  observe (mockPulse (ms 300) (Some Pulse.ErrHighVariance)) (minutes 5)
          (freshNode "gpu-node-3" (minutes 3))
  = (None,
     Some {| Name := "gpu-node-3";
             Taints := [quarantineTaint (ms 300)];
             Conditions := Conditions (freshNode "gpu-node-3" (minutes 3))
                           ++ [failCondition (ms 300) t0] |},
     1%nat).
Proof. vm_compute. reflexivity. Qed.

(** *** The recency gate *)

Lemma window_is_wrapped env :
  readyTransitionWindow env = Int64.wrap (configuredWindowSeconds env * Second)
  /\ 0 < configuredWindowSeconds env.
Proof.
  unfold readyTransitionWindow, configuredWindowSeconds, Int64.mul.
  destruct (Pulse.Getenv env "READY_WINDOW_SECONDS") as [|ch s] eqn:E.
  - split; reflexivity.
  - cbv [Pulse.nonempty].
    destruct (Strconv.Atoi (String ch s)) as [v| |v]; [|split; reflexivity..].
    destruct (Z.ltb_spec 0 v); split; try reflexivity. assumption.
Qed.

Lemma configuredWindow_default env :
  env !! "READY_WINDOW_SECONDS" = None -> configuredWindowSeconds env = 300.
Proof.
  intros H. unfold configuredWindowSeconds, Pulse.Getenv. rewrite H. reflexivity.
Qed.

(** With the gate closed, [ReconcileNode] only reads the node. *)
Lemma gate_closed_no_pulse c within nodeName node w :
  hd false (faults w) = false ->
  nodes w !! nodeName = Some node ->
  (forall rc, readyTrue node = Some rc ->
              within <= Since (clock w (ticks w)) (LastTransitionTime rc)) ->
  exists w', ReconcileNode c within nodeName w = (None, w')
    /\ pulseCalls w' = pulseCalls w
    /\ nodes w' = nodes w
    /\ requests w' = (requests w ++ [ReqGet nodeName])%list.
Proof.
  intros Hf Hn Hold. unfold ReconcileNode. unfold bind at 1.
  destruct (Get nodeName w) as [got w1] eqn:EG.
  apply Get_spec in EG as (Q1 & N1 & R1 & T1 & HG).
  rewrite Hf, Hn in HG. subst got.
  unfold bind at 1.
  destruct (gate_closed node within w1) as [w2 E2].
  { destruct Q1 as (_ & _ & C1). rewrite C1, T1. exact Hold. }
  rewrite E2. cbn [negb]. unfold ret. exists w2. split; [reflexivity|].
  apply justBecameReady_loop_frame in E2 as (Q2 & N2 & R2).
  destruct Q1 as (?&?&?), Q2 as (?&?&?). repeat split; congruence.
Qed.

(** C5. A node without a Ready condition of status True, or whose Ready
    condition turned True longer ago than the configured ready window (the
    number of seconds in READY_WINDOW_SECONDS when that is a positive
    integer, 300 seconds otherwise), is only fetched: [ReconcileNode]
    returns nil, the pulse function is not invoked, nothing is patched. *)
Theorem stale_node_never_pulsed c env nodeName node w :
  hd false (faults w) = false ->
  nodes w !! nodeName = Some node ->
  (readyTrue node = None
   \/ exists rc, readyTrue node = Some rc
        /\ configuredWindowSeconds env * 1000000000
           < clock w (ticks w) - LastTransitionTime rc) ->
  (exists w', ReconcileNode c (readyTransitionWindow env) nodeName w = (None, w')
     /\ pulseCalls w' = pulseCalls w
     /\ nodes w' = nodes w
     /\ requests w' = (requests w ++ [ReqGet nodeName])%list)
  /\ (env !! "READY_WINDOW_SECONDS" = None -> configuredWindowSeconds env = 300).
Proof.
  intros Hf Hn Hstale. split; [|apply configuredWindow_default].
  apply gate_closed_no_pulse with (node := node); [exact Hf | exact Hn |].
  intros rc Hrc. destruct Hstale as [Hnone | (rc' & Hrc' & Hold)]; [congruence|].
  assert (rc' = rc) as -> by congruence.
  destruct (window_is_wrapped env) as [-> Hpos].
  unfold Since. apply saturate_ge; unfold Second; lia.
Qed.

Lemma stale_node_never_pulsed_witness :
  (exists w', ReconcileNode (mockPulse 0 None) (readyTransitionWindow emptyEnv) "gpu-node-2"
                (world (freshNode "gpu-node-2" (minutes 120))) = (None, w')
     /\ pulseCalls w' = 0%nat
     /\ nodes w' = nodes (world (freshNode "gpu-node-2" (minutes 120)))
     /\ requests w' = [ReqGet "gpu-node-2"])
  /\ (emptyEnv !! "READY_WINDOW_SECONDS" = None
      -> configuredWindowSeconds emptyEnv = 300).
Proof.
  apply (stale_node_never_pulsed (mockPulse 0 None) emptyEnv "gpu-node-2"
           (freshNode "gpu-node-2" (minutes 120))
           (world (freshNode "gpu-node-2" (minutes 120)))).
  - reflexivity.
  - vm_compute. reflexivity.
  - right. eexists. split; [reflexivity|]. vm_compute. reflexivity.
Defined.

(** *** The counts after a reconciliation *)

Lemma taints_changed_without key taints :
  hasTaintKey taints key = true -> withoutKey key taints <> taints.
Proof.
  intros Hk E. pose proof (hasTaintKey_filter taints key) as H.
  rewrite E, Nat.eqb_refl, Hk in H. discriminate.
Qed.

Lemma taintCount_zero key taints :
  hasTaintKey taints key = false -> taintCount key taints = 0%nat.
Proof.
  rewrite hasTaintKey_count. intros H. apply negb_false_iff, Nat.eqb_eq in H. exact H.
Qed.

(** C1, as the code has it. After [ReconcileNode] returns nil the node
    is exactly as it was in three cases: the recency gate was closed (the
    pulse is then not invoked), the pulse passed and the node carried no
    quarantine taint, the pulse failed and the node carried one already.
    In the two other cases it was patched: after a pass on a node with
    the taint, the taints of that key are gone and the PulsePassed
    condition is upserted; after a failure on a node without the taint,
    the quarantine taint is appended, so there is exactly one, and the
    StragglerDetected condition is upserted. A patched node has as many
    GPUStraggler conditions as before, raised to 1 if it had none. In
    every case a node that had at most one quarantine taint has 0 or 1,
    and one that had at most one GPUStraggler condition has at most one. *)
Theorem reconcile_success_counts c window nodeName w w' :
  ReconcileNode c window nodeName w = (None, w') ->
  exists n n',
    nodes w !! nodeName = Some n /\ nodes w' !! nodeName = Some n'
    /\ (taintCount zombieTaintKey (Taints n) <= 1
        -> taintCount zombieTaintKey (Taints n') <= 1)%nat
    /\ (conditionCount zombieCondition (Conditions n) <= 1
        -> conditionCount zombieCondition (Conditions n') <= 1)%nat
    /\ (n' = n
        \/ conditionCount zombieCondition (Conditions n')
           = Nat.max 1 (conditionCount zombieCondition (Conditions n)))
    /\ (if recentlyReady n window w then
          pulseCalls w' = S (pulseCalls w)
          /\ match snd (runPulse c (pulseCalls w)),
                   hasTaintKey (Taints n) zombieTaintKey with
             | None, false => n' = n
             | Some _, true => n' = n
             | None, true =>
                 (exists now,
                    n' = {| Name := Name n;
                            Taints := withoutKey zombieTaintKey (Taints n);
                            Conditions := upsertCondition (Conditions n)
                                                          (passCondition now) |})
                 /\ taintCount zombieTaintKey (Taints n') = 0%nat
                 /\ conditionCount zombieCondition (Conditions n')
                    = Nat.max 1 (conditionCount zombieCondition (Conditions n))
             | Some _, false =>
                 (exists now,
                    n' = {| Name := Name n;
                            Taints := (Taints n
                                       ++ [quarantineTaint
                                             (fst (runPulse c (pulseCalls w)))])%list;
                            Conditions :=
                              upsertCondition (Conditions n)
                                (failCondition (fst (runPulse c (pulseCalls w)))
                                               now) |})
                 /\ taintCount zombieTaintKey (Taints n') = 1%nat
                 /\ conditionCount zombieCondition (Conditions n')
                    = Nat.max 1 (conditionCount zombieCondition (Conditions n))
             end
        else pulseCalls w' = pulseCalls w /\ n' = n).
Proof.
  intros H. apply ReconcileNode_outcome in H as (n & n' & Hn & Hn' & Hout & Hp).
  exists n, n'. split; [exact Hn|]. split; [rewrite Hn'; apply lookup_insert_eq|].
  destruct Hout as [ P _ | elapsed P R Hk _ | elapsed now P R Hk _
                   | elapsed err P R Hk _ | elapsed err now P R Hk _ ];
    cbn [Taints Conditions].
  - (* the gate was closed *)
    split; [auto|]. split; [auto|]. split; [left; reflexivity|].
    destruct (recentlyReady n window w); [lia|]. split; [exact P | reflexivity].
  - (* pass, no taint to remove *)
    split; [auto|]. split; [auto|]. split; [left; reflexivity|].
    destruct (recentlyReady n window w); [|lia].
    split; [exact P|]. rewrite R, Hk. reflexivity.
  - (* pass, the taint removed *)
    rewrite taintCount_withoutKey.
    pose proof (conditionCount_upsert (Conditions n) (passCondition now)) as Hc.
    cbn [Type_ passCondition] in Hc. fold zombieCondition in Hc.
    split; [lia|]. split; [lia|]. split; [right; exact Hc|].
    destruct (recentlyReady n window w); [|lia].
    split; [exact P|]. rewrite R, Hk. cbn [snd Taints Conditions].
    split; [exists now; reflexivity|]. split; [reflexivity | exact Hc].
  - (* failure, the taint already there *)
    split; [auto|]. split; [auto|]. split; [left; reflexivity|].
    destruct (recentlyReady n window w); [|lia].
    split; [exact P|]. rewrite R, Hk. reflexivity.
  - (* failure, the taint applied *)
    rewrite taintCount_app, (taintCount_zero _ _ Hk), taintCount_quarantine.
    pose proof (conditionCount_upsert (Conditions n) (failCondition elapsed now)) as Hc.
    cbn [Type_ failCondition] in Hc.
    split; [lia|]. split; [lia|]. split; [right; exact Hc|].
    destruct (recentlyReady n window w); [|lia].
    split; [exact P|]. rewrite R, Hk. cbn [fst snd Taints Conditions].
    split; [exists now; reflexivity|]. split; [reflexivity | exact Hc].
Qed.

Lemma reconcile_success_counts_witness :
  let c := mockPulse (ms 600) (Some Pulse.ErrStragglerDetected) in
  let window := minutes 5 in
  let nodeName := "gpu-node-1" in
  let w := world (freshNode "gpu-node-1" (minutes 1)) in
  let w' := snd (ReconcileNode c window nodeName w) in
  exists n n',
    nodes w !! nodeName = Some n /\ nodes w' !! nodeName = Some n'
    /\ (taintCount zombieTaintKey (Taints n) <= 1
        -> taintCount zombieTaintKey (Taints n') <= 1)%nat
    /\ (conditionCount zombieCondition (Conditions n) <= 1
        -> conditionCount zombieCondition (Conditions n') <= 1)%nat
    /\ (n' = n
        \/ conditionCount zombieCondition (Conditions n')
           = Nat.max 1 (conditionCount zombieCondition (Conditions n)))
    /\ (if recentlyReady n window w then
          pulseCalls w' = S (pulseCalls w)
          /\ match snd (runPulse c (pulseCalls w)),
                   hasTaintKey (Taints n) zombieTaintKey with
             | None, false => n' = n
             | Some _, true => n' = n
             | None, true =>
                 (exists now,
                    n' = {| Name := Name n;
                            Taints := withoutKey zombieTaintKey (Taints n);
                            Conditions := upsertCondition (Conditions n)
                                                          (passCondition now) |})
                 /\ taintCount zombieTaintKey (Taints n') = 0%nat
                 /\ conditionCount zombieCondition (Conditions n')
                    = Nat.max 1 (conditionCount zombieCondition (Conditions n))
             | Some _, false =>
                 (exists now,
                    n' = {| Name := Name n;
                            Taints := (Taints n
                                       ++ [quarantineTaint
                                             (fst (runPulse c (pulseCalls w)))])%list;
                            Conditions :=
                              upsertCondition (Conditions n)
                                (failCondition (fst (runPulse c (pulseCalls w)))
                                               now) |})
                 /\ taintCount zombieTaintKey (Taints n') = 1%nat
                 /\ conditionCount zombieCondition (Conditions n')
                    = Nat.max 1 (conditionCount zombieCondition (Conditions n))
             end
        else pulseCalls w' = pulseCalls w /\ n' = n).
Proof.
  intros c window nodeName w w'.
  apply (reconcile_success_counts c window nodeName w w').
  vm_compute. reflexivity.
Defined.

(** C1 fails as stated: a node that became Ready a minute ago and carries
    neither the taint nor the condition passes the pulse; [ReconcileNode]
    returns nil and the node still has no GPUStraggler condition. The same
    happens on the steady-state node of the test suite, and a node that
    carries the quarantine key twice (two effects) keeps both taints when
    the pulse fails. *)
Lemma success_leaves_no_condition :
  (let '(r, stored, calls) :=
     observe (mockPulse (ms 150) None) (minutes 5)
             (freshNode "gpu-node-1" (minutes 1)) in
   r = None /\ calls = 1%nat
   /\ (conditionCount zombieCondition ∘ Conditions) <$> stored = Some 0%nat)
  /\ (let '(r, stored, calls) :=
        observe (mockPulse 0 None) (minutes 5)
                (freshNode "gpu-node-2" (minutes 120)) in
      r = None /\ calls = 0%nat
      /\ (conditionCount zombieCondition ∘ Conditions) <$> stored = Some 0%nat)
  /\ (let twice :=
        {| Name := "gpu-node-4";
           Taints := Taints (quarantinedNode "gpu-node-4" (minutes 1))
                     ++ Taints (evictedNode "gpu-node-4" (minutes 1));
           Conditions := Conditions (freshNode "gpu-node-4" (minutes 1)) |} in
      let '(r, stored, calls) :=
        observe (mockPulse (ms 600) (Some Pulse.ErrStragglerDetected))
                (minutes 5) twice in
      r = None /\ calls = 1%nat
      /\ (taintCount zombieTaintKey ∘ Taints) <$> stored = Some 2%nat).
Proof. vm_compute. repeat split. Qed.

(** *** Pass *)

Lemma hasTaintKey_false taints key :
  hasTaintKey taints key = false <-> (forall t, In t taints -> Key t <> key).
Proof.
  split.
  - intros H t Hin He.
    assert (hasTaintKey taints key = true) by (apply hasTaintKey_true; eauto).
    congruence.
  - intros H. destruct (hasTaintKey taints key) eqn:E; [|reflexivity].
    apply hasTaintKey_true in E as (t & Hin & He). destruct (H t Hin He).
Qed.

(** The taints that stay are those with another key, in their order. *)
Lemma withoutKey_In key taints t :
  In t (withoutKey key taints) <-> In t taints /\ Key t <> key.
Proof.
  unfold withoutKey. rewrite filter_In, negb_true_iff.
  split; intros [H1 H2]; (split; [exact H1|]).
  - intros E. apply String.eqb_eq in E. congruence.
  - apply String.eqb_neq. exact H2.
Qed.

(** C2, as the code has it. When the pulse passes and the node carries a
    taint with the quarantine key, [ReconcileNode] patches the taints to
    those with another key and then upserts the GPUStraggler condition
    with status False and reason PulsePassed. When the node carries no such
    taint, nothing is sent to the API server after the read (no taint
    patch, and no condition upsert either): the node stays as it is. *)
Theorem pass_clears_quarantine c window nodeName w w' :
  ReconcileNode c window nodeName w = (None, w') ->
  pulseCalls w' = S (pulseCalls w) ->
  snd (runPulse c (pulseCalls w)) = None ->
  exists n, nodes w !! nodeName = Some n /\
    ((exists t, In t (Taints n) /\ Key t = zombieTaintKey) ->
       exists now,
         let conds := upsertCondition (Conditions n) (passCondition now) in
         nodes w' = <[nodeName := {| Name := Name n;
                                     Taints := withoutKey zombieTaintKey (Taints n);
                                     Conditions := conds |}]> (nodes w)
         /\ taintCount zombieTaintKey (withoutKey zombieTaintKey (Taints n)) = 0%nat
         /\ In (passCondition now) conds
         /\ conditionCount zombieCondition conds
            = Nat.max 1 (conditionCount zombieCondition (Conditions n))
         /\ requests w' =
              (requests w ++
               [ReqGet nodeName;
                ReqPatchSpec nodeName (withoutKey zombieTaintKey (Taints n));
                ReqPatchStatus nodeName conds])%list)
    /\ ((forall t, In t (Taints n) -> Key t <> zombieTaintKey) ->
          nodes w' = nodes w
          /\ requests w' = (requests w ++ [ReqGet nodeName])%list).
Proof.
  intros H Hcalls Hpass.
  apply ReconcileNode_success in H as (n & n' & Hn & Hn' & Hout).
  exists n. split; [exact Hn|].
  destruct Hout as [ Hc R | el Hc Hr Hk R | el now Hc Hr Hk R
                   | el err Hc Hr Hk R | el err now Hc Hr Hk R ].
  - lia.
  - split.
    + intros Hex. apply hasTaintKey_true in Hex. congruence.
    + intros _. split; [|exact R]. rewrite Hn'. symmetry. apply insert_same, Hn.
  - split.
    + intros _. exists now. cbv zeta. split; [exact Hn'|].
      split; [apply taintCount_withoutKey|]. split; [apply upsertCondition_In|].
      split; [|exact R].
      exact (conditionCount_upsert (Conditions n) (passCondition now)).
    + intros Hall. apply hasTaintKey_false in Hall. congruence.
  - rewrite Hr in Hpass. discriminate.
  - rewrite Hr in Hpass. discriminate.
Qed.

Lemma pass_clears_quarantine_witness :
  exists n,
    nodes (world (quarantinedNode "gpu-node-0" (minutes 2))) !! "gpu-node-0" = Some n /\
    ((exists t, In t (Taints n) /\ Key t = zombieTaintKey) ->
       exists now,
         let conds := upsertCondition (Conditions n) (passCondition now) in
         nodes (snd (ReconcileNode (mockPulse (ms 150) None) (minutes 5) "gpu-node-0"
                       (world (quarantinedNode "gpu-node-0" (minutes 2)))))
         = <[ "gpu-node-0" := {| Name := Name n;
                                Taints := withoutKey zombieTaintKey (Taints n);
                                Conditions := conds |}]>
             (nodes (world (quarantinedNode "gpu-node-0" (minutes 2))))
         /\ taintCount zombieTaintKey (withoutKey zombieTaintKey (Taints n)) = 0%nat
         /\ In (passCondition now) conds
         /\ conditionCount zombieCondition conds
            = Nat.max 1 (conditionCount zombieCondition (Conditions n))
         /\ requests (snd (ReconcileNode (mockPulse (ms 150) None) (minutes 5)
                             "gpu-node-0"
                             (world (quarantinedNode "gpu-node-0" (minutes 2))))) =
              (requests (world (quarantinedNode "gpu-node-0" (minutes 2))) ++
               [ReqGet "gpu-node-0";
                ReqPatchSpec "gpu-node-0" (withoutKey zombieTaintKey (Taints n));
                ReqPatchStatus "gpu-node-0" conds])%list)
    /\ ((forall t, In t (Taints n) -> Key t <> zombieTaintKey) ->
          nodes (snd (ReconcileNode (mockPulse (ms 150) None) (minutes 5) "gpu-node-0"
                        (world (quarantinedNode "gpu-node-0" (minutes 2)))))
          = nodes (world (quarantinedNode "gpu-node-0" (minutes 2)))
          /\ requests (snd (ReconcileNode (mockPulse (ms 150) None) (minutes 5)
                              "gpu-node-0"
                              (world (quarantinedNode "gpu-node-0" (minutes 2)))))
             = (requests (world (quarantinedNode "gpu-node-0" (minutes 2)))
                ++ [ReqGet "gpu-node-0"])%list).
Proof.
  apply (pass_clears_quarantine (mockPulse (ms 150) None) (minutes 5) "gpu-node-0"
           (world (quarantinedNode "gpu-node-0" (minutes 2)))).
  - vm_compute. reflexivity.
  - vm_compute. reflexivity.
  - reflexivity.
Defined.

(** C2 fails as stated: on a node without the taint the condition is not
    upserted. A node whose taint was removed by hand still has the
    condition of its quarantine (status True); the pulse passes,
    [ReconcileNode] returns nil, and the condition is still True with
    reason StragglerDetected; on a fresh node no condition appears. *)
Lemma pass_without_taint_skips_condition :
  (let n := untaintedNode "gpu-node-5" (minutes 1) in
   let '(r, w') := ReconcileNode (mockPulse (ms 150) None) (minutes 5)
                     "gpu-node-5" (world n) in
   r = None /\ pulseCalls w' = 1%nat
   /\ nodes w' !! "gpu-node-5" = Some n
   /\ requests w' = [ReqGet "gpu-node-5"]
   /\ List.filter (fun c => String.eqb (Type_ c) zombieCondition) (Conditions n)
      = [ {| Type_ := zombieCondition; Status := ConditionTrue;
             Reason := "StragglerDetected";
             Message := "GPU pulse took 820ms (threshold 500ms)";
             LastTransitionTime := t0 - minutes 60 |} ])
  /\ (let n := freshNode "gpu-node-1" (minutes 1) in
      let '(r, w') := ReconcileNode (mockPulse (ms 150) None) (minutes 5)
                        "gpu-node-1" (world n) in
      r = None /\ pulseCalls w' = 1%nat
      /\ nodes w' !! "gpu-node-1" = Some n
      /\ List.filter (fun c => String.eqb (Type_ c) zombieCondition) (Conditions n)
         = []).
Proof. vm_compute. repeat split. Qed.

(** *** Quarantine *)

(** C9, as the code has it. When the pulse fails and [ReconcileNode]
    returns nil: on a node without a taint of the quarantine key the new
    taint is appended, it is then the only one with that key and its
    effect is NoSchedule; on a node that has a taint with the key, whatever
    its value or effect, nothing is patched and the node stays as it is. *)
Theorem quarantine_applies_single_taint c window nodeName w w' :
  ReconcileNode c window nodeName w = (None, w') ->
  pulseCalls w' = S (pulseCalls w) ->
  snd (runPulse c (pulseCalls w)) <> None ->
  exists n n',
    nodes w !! nodeName = Some n /\ nodes w' = <[nodeName := n']> (nodes w)
    /\ ((forall t, In t (Taints n) -> Key t <> zombieTaintKey) ->
          Taints n' = (Taints n ++ [quarantineTaint (fst (runPulse c (pulseCalls w)))])%list
          /\ taintCount zombieTaintKey (Taints n') = 1%nat
          /\ (forall t, In t (Taints n') -> Key t = zombieTaintKey ->
                        Effect t = TaintEffectNoSchedule))
    /\ ((exists t, In t (Taints n) /\ Key t = zombieTaintKey) ->
          n' = n /\ requests w' = (requests w ++ [ReqGet nodeName])%list).
Proof.
  intros H Hcalls Hfail.
  apply ReconcileNode_success in H as (n & n' & Hn & Hn' & Hout).
  exists n, n'. split; [exact Hn|]. split; [exact Hn'|].
  destruct Hout as [ Hc R | el Hc Hr Hk R | el now Hc Hr Hk R
                   | el err Hc Hr Hk R | el err now Hc Hr Hk R ].
  - lia.
  - rewrite Hr in Hfail. destruct Hfail. reflexivity.
  - rewrite Hr in Hfail. destruct Hfail. reflexivity.
  - split.
    + intros Hall. apply hasTaintKey_false in Hall. congruence.
    + intros _. split; [reflexivity | exact R].
  - split.
    + intros Hall. cbn [Taints]. rewrite Hr. cbn [fst].
      split; [reflexivity|]. split.
      * rewrite taintCount_app, (taintCount_zero _ _ Hk). reflexivity.
      * intros t Hin Hkey. apply in_app_or in Hin as [Hin|[<-|[]]].
        -- destruct (Hall t Hin Hkey).
        -- reflexivity.
    + intros Hex. apply hasTaintKey_true in Hex. congruence.
Qed.

Lemma quarantine_applies_single_taint_witness :
  exists n n',
    nodes (world (freshNode "gpu-node-3" (minutes 3))) !! "gpu-node-3" = Some n
    /\ nodes (snd (ReconcileNode (mockPulse (ms 300) (Some Pulse.ErrHighVariance))
                     (minutes 5) "gpu-node-3"
                     (world (freshNode "gpu-node-3" (minutes 3)))))
       = <[ "gpu-node-3" := n']> (nodes (world (freshNode "gpu-node-3" (minutes 3))))
    /\ ((forall t, In t (Taints n) -> Key t <> zombieTaintKey) ->
          Taints n' = (Taints n ++ [quarantineTaint (ms 300)])%list
          /\ taintCount zombieTaintKey (Taints n') = 1%nat
          /\ (forall t, In t (Taints n') -> Key t = zombieTaintKey ->
                        Effect t = TaintEffectNoSchedule))
    /\ ((exists t, In t (Taints n) /\ Key t = zombieTaintKey) ->
          n' = n
          /\ requests (snd (ReconcileNode
                              (mockPulse (ms 300) (Some Pulse.ErrHighVariance))
                              (minutes 5) "gpu-node-3"
                              (world (freshNode "gpu-node-3" (minutes 3)))))
             = (requests (world (freshNode "gpu-node-3" (minutes 3)))
                ++ [ReqGet "gpu-node-3"])%list).
Proof.
  apply (quarantine_applies_single_taint
           (mockPulse (ms 300) (Some Pulse.ErrHighVariance))
           (minutes 5) "gpu-node-3" (world (freshNode "gpu-node-3" (minutes 3)))).
  - vm_compute. reflexivity.
  - vm_compute. reflexivity.
  - discriminate.
Defined.

(** C9 fails as stated: a node that already carries the quarantine key
    with effect NoExecute fails the pulse; [ReconcileNode] returns nil and
    the only taint with the key still has effect NoExecute. *)
Lemma quarantine_keeps_foreign_effect :
  let n := evictedNode "gpu-node-6" (minutes 1) in
  let '(r, w') :=
    ReconcileNode (mockPulse (ms 600) (Some Pulse.ErrStragglerDetected))
                  (minutes 5) "gpu-node-6" (world n) in
  r = None /\ pulseCalls w' = 1%nat
  /\ stragglerTotal w' = ["latency_threshold_exceeded"]
  /\ (List.map Effect ∘ List.filter (fun t => String.eqb (Key t) zombieTaintKey)
      ∘ Taints) <$> nodes w' !! "gpu-node-6"
     = Some ["NoExecute"].
Proof. vm_compute. repeat split. Qed.

End K8sFacts.

(* ===================================================================== *)
(** ** The controller: errors, counters, logs and repeated reconciliations *)
(* ===================================================================== *)

Module ControllerFacts.

Import Time Pulse K8s Spec Evidence Scenarios Int64Facts K8sFacts.

(** *** Sentinels *)

Lemma errors_Is_sentinelOf (e : error) (s : sentinel) :
  errors_Is e s = match sentinelOf e with
                  | Some s' => sentinel_eqb s' s
                  | None => false
                  end.
Proof. induction e as [s'|t|t s'|c IH m th u]; cbn; auto. Qed.

Lemma sentinel_eqb_eq (a b : sentinel) : sentinel_eqb a b = true <-> a = b.
Proof. destruct a, b; cbn; split; intros H; try reflexivity; discriminate. Qed.

(** The label the code computes is the label of the sentinel. *)
Lemma label_of_error (err : error) :
  (if IsStragglerErr err
   then snd (if errors_Is err HighVariance
             then ("fail-slow variance pattern (high CV across runs)", "high_variance")
             else if errors_Is err InterconnectDegraded
             then ("NVLink/P2P interconnect degraded", "interconnect_degraded")
             else ("latency threshold exceeded", "latency_threshold_exceeded"))
   else "pre_flight_failure")
  = reasonLabel (sentinelOf err).
Proof.
  unfold IsStragglerErr. rewrite !errors_Is_sentinelOf.
  destruct (sentinelOf err) as [[| |]|]; reflexivity.
Qed.

(** *** Frames *)

Lemma quiet_trans w1 w2 w3 : quiet w1 w2 -> quiet w2 w3 -> quiet w1 w3.
Proof. unfold quiet. intros (?&?&?) (?&?&?). repeat split; congruence. Qed.

Lemma applyTaint_frame nodeName node elapsed w :
  quiet w (snd (applyTaint nodeName node elapsed w)).
Proof.
  unfold applyTaint.
  destruct (hasTaintKey (Taints node) zombieTaintKey); [apply quiet_refl|].
  unfold bind at 1.
  destruct (PatchTaints _ _ w) as [ok1 w1] eqn:E1.
  apply PatchTaints_spec in E1 as (Q1 & _ & _).
  destruct ok1; cbn [negb]; [|exact Q1].
  unfold bind at 1. unfold Now at 1. unfold bind at 1.
  match goal with |- context [PatchConditions ?a ?b ?c] =>
    destruct (PatchConditions a b c) as [ok2 w2] eqn:E2 end.
  apply PatchConditions_spec in E2 as (Q2 & _ & _).
  eapply quiet_trans; [exact Q1|].
  unfold quiet in *. cbn [pulseCalls stragglerTotal clock] in *.
  destruct ok2; cbn [negb]; unfold ret; cbn [snd]; exact Q2.
Qed.

Lemma removeTaint_frame nodeName node w :
  quiet w (snd (removeTaint nodeName node w)).
Proof.
  unfold removeTaint.
  destruct (_ =? _)%nat; [apply quiet_refl|].
  unfold bind at 1.
  destruct (PatchTaints _ _ w) as [ok1 w1] eqn:E1.
  apply PatchTaints_spec in E1 as (Q1 & _ & _).
  destruct ok1; cbn [negb]; [|exact Q1].
  unfold bind at 1. unfold Now at 1. unfold bind at 1.
  match goal with |- context [PatchConditions ?a ?b ?c] =>
    destruct (PatchConditions a b c) as [ok2 w2] eqn:E2 end.
  apply PatchConditions_spec in E2 as (Q2 & _ & _).
  eapply quiet_trans; [exact Q1|].
  unfold quiet in *. cbn [pulseCalls stragglerTotal clock] in *.
  destruct ok2; cbn [negb]; unfold bind, Log, ret; cbn [snd pulseCalls stragglerTotal clock];
    exact Q2.
Qed.

Lemma ReconcileNode_counter c window nodeName w r w' :
  ReconcileNode c window nodeName w = (r, w') ->
  (pulseCalls w' = pulseCalls w /\ stragglerTotal w' = stragglerTotal w)
  \/ (pulseCalls w' = S (pulseCalls w)
      /\ stragglerTotal w'
         = (stragglerTotal w ++
            match snd (runPulse c (pulseCalls w)) with
            | Some err => [reasonLabel (sentinelOf err)]
            | None => []
            end)%list).
Proof.
  unfold ReconcileNode. unfold bind at 1.
  destruct (Get nodeName w) as [got w1] eqn:EG.
  apply Get_spec in EG as (Q1 & _ & _ & _ & _).
  destruct got as [node|];
    [|unfold ret; intros [= <- <-]; left; destruct Q1 as (?&?&?); split; assumption].
  unfold bind at 1. unfold justBecameReady.
  destruct (justBecameReady_loop (Conditions node) window w1) as [fresh w2] eqn:EJ.
  apply justBecameReady_loop_frame in EJ as (Q2 & _ & _).
  pose proof (quiet_trans _ _ _ Q1 Q2) as (P2 & S2 & _).
  destruct fresh; cbn [negb];
    [|unfold ret; intros [= <- <-]; left; split; assumption].
  intros HR. right. revert HR.
  unfold bind at 1. unfold Log at 1. unfold bind at 1. unfold callPulse at 1.
  cbn [pulseCalls]. rewrite P2.
  destruct (runPulse c (pulseCalls w)) as [elapsed err]. cbn [snd].
  destruct err as [err|].
  - rewrite <- label_of_error.
    destruct (IsStragglerErr err).
    + destruct (if errors_Is err HighVariance then _ else _) as [logReason promReason].
      cbn [snd]. unfold bind at 1. unfold Log at 1.
      unfold bind at 1. unfold IncStragglerTotal at 1.
      match goal with |- context [applyTaint ?a ?b ?c ?d] =>
        pose proof (applyTaint_frame a b c d) as (PA & SA & _) end.
      intros HR. rewrite HR in PA, SA.
      cbn [snd pulseCalls stragglerTotal] in PA, SA. rewrite PA, SA, S2. split; reflexivity.
    + unfold bind at 1. unfold Log at 1.
      unfold bind at 1. unfold IncStragglerTotal at 1.
      match goal with |- context [applyTaint ?a ?b ?c ?d] =>
        pose proof (applyTaint_frame a b c d) as (PA & SA & _) end.
      intros HR. rewrite HR in PA, SA.
      cbn [snd pulseCalls stragglerTotal] in PA, SA. rewrite PA, SA, S2. split; reflexivity.
  - unfold bind at 1. unfold Log at 1.
    match goal with |- context [removeTaint ?a ?b ?d] =>
      pose proof (removeTaint_frame a b d) as (PA & SA & _) end.
    intros HR. rewrite HR in PA, SA.
    cbn [snd pulseCalls stragglerTotal] in PA, SA. rewrite PA, SA, S2, app_nil_r.
    split; reflexivity.
Qed.

(** *** Forward: what a reconciliation of a fresh node runs *)

Lemma gate_open n within w :
  gateOpen n within w -> justBecameReady n within w = (true, snd (Now w)).
Proof.
  intros (rc & Hrc & Hlt). unfold justBecameReady, readyTrue in *.
  induction (Conditions n) as [|c rest IH]; [discriminate|].
  cbn [List.find justBecameReady_loop] in *.
  destruct (String.eqb (Type_ c) NodeReady && String.eqb (Status c) ConditionTrue).
  - injection Hrc as ->. unfold bind, Now, ret. cbn [snd fst].
    rewrite (proj2 (Z.ltb_lt _ _) Hlt). reflexivity.
  - apply IH, Hrc.
Qed.

Lemma Get_ok nodeName node w :
  hd false (faults w) = false -> nodes w !! nodeName = Some node ->
  Get nodeName w = (Some node, snd (request (ReqGet nodeName) w)).
Proof.
  intros Hf Hn. unfold Get, bind, request. cbn [nodes snd]. rewrite Hf, Hn. reflexivity.
Qed.

(** The evidence record of a straggler failure. *)
Lemma ReconcileNode_open_fail c window nodeName node w elapsed err :
  hd false (faults w) = false -> nodes w !! nodeName = Some node ->
  gateOpen node window w ->
  runPulse c (pulseCalls w) = (elapsed, Some err) ->
  exists lg,
    ReconcileNode c window nodeName w
    = applyTaint nodeName node elapsed
        (afterPulse w nodeName [announceLog nodeName; lg]
                    [reasonLabel (sentinelOf err)])
    /\ match sentinelOf err with
       | Some s =>
           lg = {| log_level := LevelWarn; log_msg := "zombie node quarantined";
                   log_attrs :=
                     (baseEvidence nodeName (reasonText s) elapsed ++
                      match errors_As err with
                      | Some (m, t, u) => carrierEvidence m t u
                      | None => []
                      end)%list |}
       | None =>
           lg = {| log_level := LevelError;
                   log_msg := "GPU pulse hard failure — quarantining node";
                   log_attrs := [("node_name", AStr nodeName);
                                 ("failure_reason", AStr "pre_flight_failure");
                                 ("err", AErr err)] |}
       end.
Proof.
  intros Hf Hn Hopen HR. unfold ReconcileNode. unfold bind at 1.
  rewrite (Get_ok _ _ _ Hf Hn). unfold bind at 1.
  rewrite gate_open
    by (destruct Hopen as (rc & ? & ?); exists rc; split; [assumption|];
        unfold request; cbn [snd clock ticks]; assumption).
  cbn [negb]. unfold bind at 1. unfold Log at 1. unfold bind at 1.
  unfold callPulse at 1. unfold Now, request. cbn [snd pulseCalls]. rewrite HR.
  unfold IsStragglerErr. rewrite !errors_Is_sentinelOf.
  destruct (sentinelOf err) as [[| |]|]; cbn [sentinel_eqb orb reasonLabel reasonText];
    unfold bind, Log, IncStragglerTotal, afterPulse, announceLog, baseEvidence,
           carrierEvidence;
    cbn [nodes requests faults clock ticks pulseCalls logs stragglerTotal];
    rewrite <- !app_assoc; cbn [app].
  1-3: destruct (errors_As err) as [[[m t] u]|]; eexists; split; reflexivity.
  eexists; split; reflexivity.
Qed.

Lemma ReconcileNode_open_pass c window nodeName node w elapsed :
  hd false (faults w) = false -> nodes w !! nodeName = Some node ->
  gateOpen node window w ->
  runPulse c (pulseCalls w) = (elapsed, None) ->
  ReconcileNode c window nodeName w
  = removeTaint nodeName node
      (afterPulse w nodeName
         [announceLog nodeName;
          {| log_level := LevelInfo; log_msg := "GPU pulse passed";
             log_attrs := [("node", AStr nodeName); ("elapsed", ADuration elapsed)] |}]
         []).
Proof.
  intros Hf Hn Hopen HR. unfold ReconcileNode. unfold bind at 1.
  rewrite (Get_ok _ _ _ Hf Hn). unfold bind at 1.
  rewrite gate_open
    by (destruct Hopen as (rc & ? & ?); exists rc; split; [assumption|];
        unfold request; cbn [snd clock ticks]; assumption).
  cbn [negb]. unfold bind at 1. unfold Log at 1. unfold bind at 1.
  unfold callPulse at 1. unfold Now, request. cbn [snd pulseCalls]. rewrite HR.
  unfold bind, Log, afterPulse, announceLog.
  cbn [nodes requests faults clock ticks pulseCalls logs stragglerTotal].
  rewrite <- !app_assoc, app_nil_r. reflexivity.
Qed.

(** *** Forward: the two patches, whatever the API server answers *)

Lemma applyTaint_run nodeName node elapsed w :
  nodes w !! nodeName = Some node ->
  hasTaintKey (Taints node) zombieTaintKey = false ->
  let taints := (Taints node ++ [quarantineTaint elapsed])%list in
  let conds :=
    upsertCondition (Conditions node) (failCondition elapsed (clock w (ticks w))) in
  exists r w', applyTaint nodeName node elapsed w = (r, w')
  /\ logs w' = logs w
  /\ if hd false (faults w)
     then r = Some ErrPatchSpec /\ nodes w' = nodes w /\ ticks w' = ticks w
          /\ requests w' = (requests w ++ [ReqPatchSpec nodeName taints])%list
     else
       ticks w' = S (ticks w)
       /\ requests w' = (requests w ++ [ReqPatchSpec nodeName taints;
                                       ReqPatchStatus nodeName conds])%list
       /\ if hd false (tl (faults w))
          then r = Some ErrPatchStatus
               /\ nodes w' = <[nodeName := withTaints node taints]> (nodes w)
          else r = None
               /\ nodes w' = <[nodeName := {| Name := Name node; Taints := taints;
                                              Conditions := conds |}]> (nodes w).
Proof.
  intros Hn Hk. cbv zeta. unfold applyTaint. rewrite Hk.
  unfold bind at 1. unfold PatchTaints at 1. unfold bind at 1. unfold request at 1.
  cbn [nodes faults]. fold (quarantineTaint elapsed).
  destruct (hd false (faults w)) eqn:Hf.
  - cbn [negb]. unfold ret. eexists _, _. split; [reflexivity|].
    cbn [logs nodes ticks requests]. repeat split.
  - rewrite Hn. unfold bind at 1. unfold set_nodes at 1. unfold ret at 1.
    cbn [negb nodes requests faults clock ticks pulseCalls logs stragglerTotal].
    unfold bind at 1. unfold Now at 1.
    cbn [nodes requests faults clock ticks pulseCalls logs stragglerTotal].
    unfold bind at 1. unfold PatchConditions at 1. unfold bind at 1. unfold request at 1.
    cbn [nodes requests faults clock ticks pulseCalls logs stragglerTotal].
    fold (failCondition elapsed (clock w (ticks w))).
    destruct (hd false (tl (faults w))) eqn:Hf2.
    + cbn [negb]. unfold ret. eexists _, _. split; [reflexivity|].
      cbn [logs nodes ticks requests]. rewrite <- app_assoc. repeat split.
    + rewrite lookup_insert_eq. unfold bind, set_nodes, ret.
      cbn [negb nodes requests faults clock ticks pulseCalls logs stragglerTotal
           Name Taints Conditions].
      eexists _, _. split; [reflexivity|].
      cbn [logs nodes ticks requests]. rewrite <- app_assoc, insert_insert_eq.
      repeat split.
Qed.

Lemma removeTaint_run nodeName node w :
  nodes w !! nodeName = Some node ->
  hasTaintKey (Taints node) zombieTaintKey = true ->
  let taints := withoutKey zombieTaintKey (Taints node) in
  let conds := upsertCondition (Conditions node) (passCondition (clock w (ticks w))) in
  exists r w', removeTaint nodeName node w = (r, w')
  /\ if hd false (faults w)
     then r = Some ErrPatchSpecRemove /\ nodes w' = nodes w /\ ticks w' = ticks w
          /\ requests w' = (requests w ++ [ReqPatchSpec nodeName taints])%list
     else
       ticks w' = S (ticks w)
       /\ requests w' = (requests w ++ [ReqPatchSpec nodeName taints;
                                       ReqPatchStatus nodeName conds])%list
       /\ if hd false (tl (faults w))
          then r = Some ErrPatchStatusClear
               /\ nodes w' = <[nodeName := withTaints node taints]> (nodes w)
          else r = None
               /\ nodes w' = <[nodeName := {| Name := Name node; Taints := taints;
                                              Conditions := conds |}]> (nodes w).
Proof.
  intros Hn Hk. cbv zeta. unfold removeTaint.
  fold (withoutKey zombieTaintKey (Taints node)).
  rewrite hasTaintKey_filter, Hk. cbn [negb].
  unfold bind at 1. unfold PatchTaints at 1. unfold bind at 1. unfold request at 1.
  cbn [nodes faults].
  destruct (hd false (faults w)) eqn:Hf.
  - cbn [negb]. unfold ret. eexists _, _. split; [reflexivity|].
    cbn [logs nodes ticks requests]. repeat split.
  - rewrite Hn. unfold bind at 1. unfold set_nodes at 1. unfold ret at 1.
    cbn [negb nodes requests faults clock ticks pulseCalls logs stragglerTotal].
    unfold bind at 1. unfold Now at 1.
    cbn [nodes requests faults clock ticks pulseCalls logs stragglerTotal].
    unfold bind at 1. unfold PatchConditions at 1. unfold bind at 1. unfold request at 1.
    cbn [nodes requests faults clock ticks pulseCalls logs stragglerTotal].
    fold (passCondition (clock w (ticks w))).
    destruct (hd false (tl (faults w))) eqn:Hf2.
    + cbn [negb]. unfold ret. eexists _, _. split; [reflexivity|].
      cbn [logs nodes ticks requests]. rewrite <- app_assoc. repeat split.
    + rewrite lookup_insert_eq. unfold bind, set_nodes, ret, Log.
      cbn [negb nodes requests faults clock ticks pulseCalls logs stragglerTotal
           Name Taints Conditions].
      eexists _, _. split; [reflexivity|].
      cbn [logs nodes ticks requests]. rewrite <- app_assoc, insert_insert_eq.
      repeat split.
Qed.

Lemma PatchTaints_logs nodeName taints w :
  logs (snd (PatchTaints nodeName taints w)) = logs w.
Proof.
  unfold PatchTaints, bind, request, set_nodes, ret. cbn [nodes].
  destruct (hd false (faults w)); [reflexivity|].
  destruct (nodes w !! nodeName); reflexivity.
Qed.

Lemma PatchConditions_logs nodeName conds w :
  logs (snd (PatchConditions nodeName conds w)) = logs w.
Proof.
  unfold PatchConditions, bind, request, set_nodes, ret. cbn [nodes].
  destruct (hd false (faults w)); [reflexivity|].
  destruct (nodes w !! nodeName); reflexivity.
Qed.

Lemma applyTaint_logs nodeName node elapsed w :
  logs (snd (applyTaint nodeName node elapsed w)) = logs w.
Proof.
  unfold applyTaint.
  destruct (hasTaintKey (Taints node) zombieTaintKey); [reflexivity|].
  unfold bind at 1.
  match goal with |- context [PatchTaints ?a ?b ?c] =>
    pose proof (PatchTaints_logs a b c) as L1;
    destruct (PatchTaints a b c) as [ok1 w1] end.
  cbn [snd] in L1.
  destruct ok1; cbn [negb]; [|exact L1].
  unfold bind at 1. unfold Now at 1. unfold bind at 1.
  match goal with |- context [PatchConditions ?a ?b ?c] =>
    pose proof (PatchConditions_logs a b c) as L2;
    destruct (PatchConditions a b c) as [ok2 w2] end.
  cbn [snd logs] in L2.
  destruct ok2; cbn [negb]; unfold ret; cbn [snd]; congruence.
Qed.

(** *** The counter and the evidence record *)

(** X1. Every reconciliation invokes the pulse at most once. The quarantine
    counter is incremented exactly when the pulse was invoked and failed,
    once, whatever the taint state of the node and whatever the API server
    answers to the patches; the label is that of the sentinel the error
    wraps, and "pre_flight_failure" for an error that wraps none. *)
Theorem counter_follows_pulse c window nodeName w :
  let w' := snd (ReconcileNode c window nodeName w) in
  ((pulseCalls w' = pulseCalls w /\ stragglerTotal w' = stragglerTotal w)
   \/ (pulseCalls w' = S (pulseCalls w)
       /\ stragglerTotal w'
          = (stragglerTotal w ++
             match snd (runPulse c (pulseCalls w)) with
             | Some err => [reasonLabel (sentinelOf err)]
             | None => []
             end)%list))
  /\ (forall err s, errors_Is err s = true <-> sentinelOf err = Some s)
  /\ (forall err, IsStragglerErr err = false <-> sentinelOf err = None).
Proof.
  cbv zeta. split; [|split].
  - destruct (ReconcileNode c window nodeName w) as [r w'] eqn:E.
    cbn [snd]. eapply ReconcileNode_counter, E.
  - intros err s. rewrite errors_Is_sentinelOf.
    destruct (sentinelOf err) as [s'|]; [|split; discriminate].
    rewrite sentinel_eqb_eq. split; congruence.
  - intros err. unfold IsStragglerErr. rewrite !errors_Is_sentinelOf.
    destruct (sentinelOf err) as [[| |]|]; cbn; split; congruence.
Qed.

(** X2. When the node cannot be fetched (the request fails, or there is no
    such node) [ReconcileNode] returns the get error and does nothing else:
    no pulse, no reading of the clock, no log record, no counter increment,
    no patch. *)
Theorem get_error_touches_nothing c window nodeName w :
  hd false (faults w) = true \/ nodes w !! nodeName = None ->
  exists w',
    ReconcileNode c window nodeName w = (Some (ErrGetNode nodeName), w')
    /\ nodes w' = nodes w /\ pulseCalls w' = pulseCalls w /\ ticks w' = ticks w
    /\ logs w' = logs w /\ stragglerTotal w' = stragglerTotal w
    /\ requests w' = (requests w ++ [ReqGet nodeName])%list.
Proof.
  intros H. unfold ReconcileNode, bind at 1. unfold Get, bind, request. cbn [nodes].
  assert (E : (if hd false (faults w) then None else nodes w !! nodeName) = None)
    by (destruct H as [-> | ->]; [reflexivity | destruct (hd false (faults w)); reflexivity]).
  rewrite E. unfold ret. eexists. split; [reflexivity|].
  cbn [nodes pulseCalls ticks logs stragglerTotal requests]. repeat split.
Qed.

Lemma get_error_touches_nothing_witness :
  exists w',
    ReconcileNode (mockPulse (ms 600) (Some ErrStragglerDetected)) (minutes 5)
      "gpu-node-1" (Faults.faultyWorld (freshNode "gpu-node-1" (minutes 1)) [true])
    = (Some (ErrGetNode "gpu-node-1"), w')
    /\ nodes w' = nodes (Faults.faultyWorld (freshNode "gpu-node-1" (minutes 1)) [true])
    /\ pulseCalls w' = 0%nat /\ ticks w' = 0%nat
    /\ logs w' = [] /\ stragglerTotal w' = []
    /\ requests w' = ([] ++ [ReqGet "gpu-node-1"])%list.
Proof.
  apply (get_error_touches_nothing
           (mockPulse (ms 600) (Some ErrStragglerDetected)) (minutes 5) "gpu-node-1"
           (Faults.faultyWorld (freshNode "gpu-node-1" (minutes 1)) [true])).
  left. reflexivity.
Defined.

(** *** Patches that fail *)

(** X3. On a freshly Ready node that the pulse gives something to patch
    (a failure and no quarantine taint, or a pass and a quarantine taint),
    when the API server refuses the patch of the taints, [ReconcileNode]
    returns that error and the stored node is as before, no condition is
    written; the counter has nevertheless been incremented for the
    failure. *)
Theorem failed_spec_patch_changes_nothing c window nodeName node w elapsed err :
  hd false (faults w) = false -> hd false (tl (faults w)) = true ->
  nodes w !! nodeName = Some node -> gateOpen node window w ->
  runPulse c (pulseCalls w) = (elapsed, err) ->
  hasTaintKey (Taints node) zombieTaintKey
    = match err with None => true | Some _ => false end ->
  exists w',
    ReconcileNode c window nodeName w
    = (Some match err with None => ErrPatchSpecRemove | Some _ => ErrPatchSpec end, w')
    /\ nodes w' = nodes w
    /\ pulseCalls w' = S (pulseCalls w)
    /\ stragglerTotal w'
       = (stragglerTotal w ++ match err with
                              | Some e => [reasonLabel (sentinelOf e)]
                              | None => []
                              end)%list
    /\ requests w'
       = (requests w ++
          [ReqGet nodeName;
           ReqPatchSpec nodeName
             match err with
             | None => withoutKey zombieTaintKey (Taints node)
             | Some _ => (Taints node ++ [quarantineTaint elapsed])%list
             end])%list.
Proof.
  intros Hf1 Hf2 Hn Hopen HR Hk. destruct err as [e|].
  - destruct (ReconcileNode_open_fail _ _ _ _ _ _ _ Hf1 Hn Hopen HR) as (lg & -> & _).
    match goal with |- context [applyTaint ?a ?b ?c ?d] =>
      pose proof (applyTaint_frame a b c d) as (PA & SA & _);
      destruct (applyTaint_run a b c d) as (r & w' & E & _ & H);
        [exact Hn | exact Hk |] end.
    rewrite E in PA, SA |- *. unfold afterPulse in *.
    cbn [snd faults pulseCalls stragglerTotal nodes requests] in *.
    rewrite Hf2 in H. destruct H as (-> & N & _ & R).
    exists w'. cbn [nodes requests] in N, R.
    rewrite R, <- app_assoc. repeat split; assumption.
  - rewrite (ReconcileNode_open_pass _ _ _ _ _ _ Hf1 Hn Hopen HR).
    match goal with |- context [removeTaint ?a ?b ?d] =>
      pose proof (removeTaint_frame a b d) as (PA & SA & _);
      destruct (removeTaint_run a b d) as (r & w' & E & H);
        [exact Hn | exact Hk |] end.
    rewrite E in PA, SA |- *. unfold afterPulse in *.
    cbn [snd faults pulseCalls stragglerTotal nodes requests] in *.
    rewrite Hf2 in H. destruct H as (-> & N & _ & R).
    exists w'. cbn [nodes requests] in N, R.
    rewrite R, <- app_assoc. repeat split; assumption.
Qed.

Lemma failed_spec_patch_changes_nothing_witness :
  let n := freshNode "gpu-node-1" (minutes 1) in
  let w := Faults.faultyWorld n [false; true] in
  exists w',
    ReconcileNode (mockPulse (ms 600) (Some ErrStragglerDetected)) (minutes 5)
                  "gpu-node-1" w
    = (Some ErrPatchSpec, w')
    /\ nodes w' = nodes w
    /\ pulseCalls w' = 1%nat
    /\ stragglerTotal w' = ([] ++ ["latency_threshold_exceeded"])%list
    /\ requests w'
       = ([] ++ [ReqGet "gpu-node-1";
                 ReqPatchSpec "gpu-node-1" ([] ++ [quarantineTaint (ms 600)])])%list.
Proof.
  apply (failed_spec_patch_changes_nothing
           (mockPulse (ms 600) (Some ErrStragglerDetected)) (minutes 5) "gpu-node-1"
           (freshNode "gpu-node-1" (minutes 1))
           (Faults.faultyWorld (freshNode "gpu-node-1" (minutes 1)) [false; true])
           (ms 600) (Some ErrStragglerDetected));
    try reflexivity.
  eexists. split; [reflexivity | vm_compute; reflexivity].
Defined.

(** X4. The two patches are separate requests. When the patch of the taints
    succeeds and the patch of the status fails, [ReconcileNode] returns the
    error of the status patch and the stored node is half-way: its taints
    are the new ones (the quarantine taint added after a failure, removed
    after a pass) and its conditions are the old ones. *)
Theorem failed_status_patch_leaves_half c window nodeName node w elapsed err :
  hd false (faults w) = false -> hd false (tl (faults w)) = false ->
  hd false (tl (tl (faults w))) = true ->
  nodes w !! nodeName = Some node -> gateOpen node window w ->
  runPulse c (pulseCalls w) = (elapsed, err) ->
  hasTaintKey (Taints node) zombieTaintKey
    = match err with None => true | Some _ => false end ->
  exists w',
    ReconcileNode c window nodeName w
    = (Some match err with None => ErrPatchStatusClear | Some _ => ErrPatchStatus end, w')
    /\ nodes w'
       = <[nodeName :=
             {| Name := Name node;
                Taints := match err with
                          | None => withoutKey zombieTaintKey (Taints node)
                          | Some _ => (Taints node ++ [quarantineTaint elapsed])%list
                          end;
                Conditions := Conditions node |}]> (nodes w)
    /\ length (requests w') = (length (requests w) + 3)%nat.
Proof.
  intros Hf1 Hf2 Hf3 Hn Hopen HR Hk. destruct err as [e|].
  - destruct (ReconcileNode_open_fail _ _ _ _ _ _ _ Hf1 Hn Hopen HR) as (lg & -> & _).
    match goal with |- context [applyTaint ?a ?b ?c ?d] =>
      destruct (applyTaint_run a b c d) as (r & w' & E & _ & H);
        [exact Hn | exact Hk |] end.
    rewrite E. unfold afterPulse in H. cbn [faults nodes requests] in H.
    rewrite Hf2, Hf3 in H. destruct H as (_ & R & -> & N).
    exists w'. cbn [nodes requests] in N, R.
    rewrite R, !length_app. cbn [length]. repeat split; [exact N | lia].
  - rewrite (ReconcileNode_open_pass _ _ _ _ _ _ Hf1 Hn Hopen HR).
    match goal with |- context [removeTaint ?a ?b ?d] =>
      destruct (removeTaint_run a b d) as (r & w' & E & H);
        [exact Hn | exact Hk |] end.
    rewrite E. unfold afterPulse in H. cbn [faults nodes requests] in H.
    rewrite Hf2, Hf3 in H. destruct H as (_ & R & -> & N).
    exists w'. cbn [nodes requests] in N, R.
    rewrite R, !length_app. cbn [length]. repeat split; [exact N | lia].
Qed.

Lemma failed_status_patch_leaves_half_witness :
  let n := quarantinedNode "gpu-node-0" (minutes 2) in
  let w := Faults.faultyWorld n [false; false; true] in
  exists w',
    ReconcileNode (mockPulse (ms 150) None) (minutes 5) "gpu-node-0" w
    = (Some ErrPatchStatusClear, w')
    /\ nodes w'
       = <[ "gpu-node-0" :=
             {| Name := Name n;
                Taints := withoutKey zombieTaintKey (Taints n);
                Conditions := Conditions n |}]> (nodes w)
    /\ length (requests w') = (length (requests w) + 3)%nat.
Proof.
  apply (failed_status_patch_leaves_half
           (mockPulse (ms 150) None) (minutes 5) "gpu-node-0"
           (quarantinedNode "gpu-node-0" (minutes 2))
           (Faults.faultyWorld (quarantinedNode "gpu-node-0" (minutes 2))
                               [false; false; true])
           (ms 150) None);
    try reflexivity.
  eexists. split; [reflexivity | vm_compute; reflexivity].
Defined.

(** *** Conditions and taints over several reconciliations *)

Lemma upsert_upsert conds c1 c2 :
  Type_ c1 = Type_ c2 ->
  upsertCondition (upsertCondition conds c1) c2 = upsertCondition conds c2.
Proof.
  intros Ht. induction conds as [|x rest IH]; cbn [upsertCondition].
  - rewrite Ht, String.eqb_refl. reflexivity.
  - rewrite <- Ht. destruct (String.eqb (Type_ x) (Type_ c1)) eqn:E; cbn [upsertCondition].
    + rewrite Ht, String.eqb_refl. reflexivity.
    + rewrite <- Ht, E, IH. reflexivity.
Qed.

Lemma upsert_length conds c :
  length (upsertCondition conds c)
  = if existsb (fun x => String.eqb (Type_ x) (Type_ c)) conds
    then length conds else S (length conds).
Proof.
  induction conds as [|x rest IH]; cbn [upsertCondition existsb]; [reflexivity|].
  destruct (String.eqb (Type_ x) (Type_ c)); cbn [orb length]; [reflexivity|].
  rewrite IH. destruct (existsb _ rest); reflexivity.
Qed.

(** X5. [upsertCondition]: the last write wins. Upserting a condition over
    one of the same type gives what upserting it alone gives, so upserting
    twice is upserting once; the list grows by one exactly when no condition
    of the type was there, and the condition written sits where the first of
    its type sat, or at the end. *)
Theorem upsertCondition_last_write_wins conds c1 c2 :
  Type_ c1 = Type_ c2 ->
  upsertCondition (upsertCondition conds c1) c2 = upsertCondition conds c2
  /\ length (upsertCondition conds c2)
     = (if existsb (fun x => String.eqb (Type_ x) (Type_ c2)) conds
        then length conds else S (length conds))
  /\ exists before after,
       upsertCondition conds c2 = (before ++ c2 :: after)%list
       /\ Forall (fun x => Type_ x <> Type_ c2) before
       /\ (conds = before /\ after = []
           \/ exists old, Type_ old = Type_ c2
                /\ conds = (before ++ old :: after)%list).
Proof.
  intros Ht. split; [apply upsert_upsert, Ht|]. split; [apply upsert_length|].
  clear c1 Ht. induction conds as [|x rest IH]; cbn [upsertCondition].
  - exists [], []. split; [reflexivity|]. split; [constructor|]. left. split; reflexivity.
  - destruct (String.eqb_spec (Type_ x) (Type_ c2)) as [E|NE].
    + exists [], rest. split; [reflexivity|]. split; [constructor|].
      right. exists x. split; [exact E | reflexivity].
    + destruct IH as (before & after & E1 & F & Hcase).
      exists (x :: before), after. rewrite E1. split; [reflexivity|].
      split; [constructor; assumption|].
      destruct Hcase as [[-> ->] | (old & Ho & ->)].
      * left. split; reflexivity.
      * right. exists old. split; [exact Ho | reflexivity].
Qed.

Lemma upsertCondition_last_write_wins_witness :
  let conds := Conditions (untaintedNode "gpu-node-5" (minutes 1)) in
  let c1 := failCondition (ms 600) t0 in
  let c2 := passCondition t0 in
  upsertCondition (upsertCondition conds c1) c2 = upsertCondition conds c2
  /\ length (upsertCondition conds c2)
     = (if existsb (fun x => String.eqb (Type_ x) (Type_ c2)) conds
        then length conds else S (length conds))
  /\ exists before after,
       upsertCondition conds c2 = (before ++ c2 :: after)%list
       /\ Forall (fun x => Type_ x <> Type_ c2) before
       /\ (conds = before /\ after = []
           \/ exists old, Type_ old = Type_ c2
                /\ conds = (before ++ old :: after)%list).
Proof.
  apply (upsertCondition_last_write_wins
           (Conditions (untaintedNode "gpu-node-5" (minutes 1)))
           (failCondition (ms 600) t0) (passCondition t0)).
  reflexivity.
Defined.

Lemma hasTaintKey_quarantined taints elapsed :
  hasTaintKey (taints ++ [quarantineTaint elapsed]) zombieTaintKey = true.
Proof.
  unfold hasTaintKey. rewrite existsb_app. cbn [existsb quarantineTaint Key].
  rewrite String.eqb_refl. apply orb_true_r.
Qed.

Lemma withoutKey_quarantined taints elapsed :
  hasTaintKey taints zombieTaintKey = false ->
  withoutKey zombieTaintKey (taints ++ [quarantineTaint elapsed]) = taints.
Proof.
  intros H. unfold withoutKey. rewrite List.filter_app.
  cbn [List.filter quarantineTaint Key]. rewrite String.eqb_refl. cbn [negb].
  rewrite app_nil_r. unfold hasTaintKey in H.
  induction taints as [|t ts IH]; [reflexivity|].
  cbn [existsb List.filter] in *. apply orb_false_iff in H as [H1 H2].
  rewrite H1. cbn [negb]. rewrite IH by exact H2. reflexivity.
Qed.

(** X6. Quarantine is not refreshed. When a reconciliation has quarantined
    the node, or found it quarantined, a later reconciliation whose pulse
    fails again leaves the stored node as it is (the taint keeps the value
    of the first failure) and sends no patch. *)
Theorem requarantine_is_noop c1 c2 win1 win2 nodeName w w1 w2 :
  ReconcileNode c1 win1 nodeName w = (None, w1) ->
  pulseCalls w1 = S (pulseCalls w) ->
  snd (runPulse c1 (pulseCalls w)) <> None ->
  ReconcileNode c2 win2 nodeName w1 = (None, w2) ->
  snd (runPulse c2 (pulseCalls w1)) <> None ->
  nodes w2 = nodes w1
  /\ requests w2 = (requests w1 ++ [ReqGet nodeName])%list
  /\ exists n1, nodes w1 !! nodeName = Some n1
       /\ hasTaintKey (Taints n1) zombieTaintKey = true.
Proof.
  intros H1 P1 F1 H2 F2.
  apply ReconcileNode_success in H1 as (n & n1 & Hn & N1 & O1).
  assert (Hk : hasTaintKey (Taints n1) zombieTaintKey = true).
  { destruct O1 as [P _|e _ R|e now _ R|e err _ _ K _|e err now _ _ _ _].
    - lia.
    - rewrite R in F1. contradiction.
    - rewrite R in F1. contradiction.
    - exact K.
    - apply hasTaintKey_quarantined. }
  assert (Hn1 : nodes w1 !! nodeName = Some n1)
    by (rewrite N1; apply lookup_insert_eq).
  apply ReconcileNode_success in H2 as (n' & n2 & Hn' & N2 & O2).
  rewrite Hn1 in Hn'. injection Hn' as <-.
  assert (n2 = n1 /\ requests w2 = (requests w1 ++ [ReqGet nodeName])%list) as [-> R2].
  { destruct O2 as [_ R|e _ R|e now _ R|e err _ _ _ R|e err now _ _ K _].
    - split; [reflexivity | exact R].
    - rewrite R in F2. contradiction.
    - rewrite R in F2. contradiction.
    - split; [reflexivity | exact R].
    - congruence. }
  split; [|split; [exact R2 | eauto]].
  rewrite N2. apply insert_id, Hn1.
Qed.

Lemma requarantine_is_noop_witness :
  let c := mockPulse (ms 600) (Some ErrStragglerDetected) in
  let w := world (freshNode "gpu-node-1" (minutes 1)) in
  let w1 := snd (ReconcileNode c (minutes 5) "gpu-node-1" w) in
  let w2 := snd (ReconcileNode c (minutes 5) "gpu-node-1" w1) in
  nodes w2 = nodes w1
  /\ requests w2 = (requests w1 ++ [ReqGet "gpu-node-1"])%list
  /\ exists n1, nodes w1 !! "gpu-node-1" = Some n1
       /\ hasTaintKey (Taints n1) zombieTaintKey = true.
Proof.
  apply (requarantine_is_noop
           (mockPulse (ms 600) (Some ErrStragglerDetected))
           (mockPulse (ms 600) (Some ErrStragglerDetected))
           (minutes 5) (minutes 5) "gpu-node-1"
           (world (freshNode "gpu-node-1" (minutes 1))));
    try (vm_compute; reflexivity); discriminate.
Defined.

(** X7. Quarantine, then clearance. When a node without the quarantine
    taint is quarantined by one reconciliation and cleared by a later one,
    its taints are exactly what they were before the quarantine, and its
    conditions are the original ones with the clearance upserted: the
    condition of the quarantine is overwritten, not kept beside it. *)
Theorem quarantine_then_clear_restores_taints c1 c2 win1 win2 nodeName w w1 w2 n :
  nodes w !! nodeName = Some n ->
  hasTaintKey (Taints n) zombieTaintKey = false ->
  ReconcileNode c1 win1 nodeName w = (None, w1) ->
  pulseCalls w1 = S (pulseCalls w) ->
  snd (runPulse c1 (pulseCalls w)) <> None ->
  ReconcileNode c2 win2 nodeName w1 = (None, w2) ->
  pulseCalls w2 = S (pulseCalls w1) ->
  snd (runPulse c2 (pulseCalls w1)) = None ->
  exists now,
    nodes w2
    = <[nodeName := {| Name := Name n; Taints := Taints n;
                       Conditions := upsertCondition (Conditions n)
                                                     (passCondition now) |}]> (nodes w)
    /\ conditionCount zombieCondition
         (upsertCondition (Conditions n) (passCondition now))
       = Nat.max 1 (conditionCount zombieCondition (Conditions n)).
Proof.
  intros Hn Hk H1 P1 F1 H2 P2 F2.
  apply ReconcileNode_success in H1 as (n0 & n1 & Hn0 & N1 & O1).
  rewrite Hn in Hn0. injection Hn0 as <-.
  assert (exists elapsed now1,
            n1 = {| Name := Name n;
                    Taints := (Taints n ++ [quarantineTaint elapsed])%list;
                    Conditions := upsertCondition (Conditions n)
                                    (failCondition elapsed now1) |})
    as (elapsed & now1 & ->).
  { destruct O1 as [P _|e _ R|e now _ R|e err _ _ K _|e err now _ _ _ _].
    - lia.
    - rewrite R in F1. contradiction.
    - rewrite R in F1. contradiction.
    - congruence.
    - eauto. }
  apply ReconcileNode_success in H2 as (n' & n2 & Hn' & N2 & O2).
  rewrite N1, lookup_insert_eq in Hn'. injection Hn' as <-.
  cbn [Name Taints Conditions] in O2.
  remember {| Name := Name n; Taints := (Taints n ++ [quarantineTaint elapsed])%list;
              Conditions := upsertCondition (Conditions n)
                              (failCondition elapsed now1) |} as n1 eqn:En1.
  destruct O2 as [P _|e _ _ K|e now _ _ _ _|e err _ R|e err now _ R].
  - lia.
  - rewrite En1 in K. cbn [Taints] in K. rewrite hasTaintKey_quarantined in K.
    discriminate.
  - exists now. rewrite N2, N1, insert_insert_eq, En1. cbn [Name Taints Conditions].
    rewrite withoutKey_quarantined by exact Hk.
    rewrite upsert_upsert by reflexivity.
    split; [reflexivity|]. apply (conditionCount_upsert (Conditions n) (passCondition now)).
  - rewrite R in F2. discriminate.
  - rewrite R in F2. discriminate.
Qed.

Lemma quarantine_then_clear_restores_taints_witness :
  let n := freshNode "gpu-node-1" (minutes 1) in
  let w := world n in
  let w1 := snd (ReconcileNode (mockPulse (ms 600) (Some ErrStragglerDetected))
                   (minutes 5) "gpu-node-1" w) in
  let w2 := snd (ReconcileNode (mockPulse (ms 150) None) (minutes 5) "gpu-node-1" w1) in
  exists now,
    nodes w2
    = <[ "gpu-node-1" := {| Name := Name n; Taints := Taints n;
                           Conditions := upsertCondition (Conditions n)
                                                         (passCondition now) |}]> (nodes w)
    /\ conditionCount zombieCondition
         (upsertCondition (Conditions n) (passCondition now))
       = Nat.max 1 (conditionCount zombieCondition (Conditions n)).
Proof.
  apply (quarantine_then_clear_restores_taints
           (mockPulse (ms 600) (Some ErrStragglerDetected)) (mockPulse (ms 150) None)
           (minutes 5) (minutes 5) "gpu-node-1"
           (world (freshNode "gpu-node-1" (minutes 1)))
           (snd (ReconcileNode (mockPulse (ms 600) (Some ErrStragglerDetected))
                   (minutes 5) "gpu-node-1"
                   (world (freshNode "gpu-node-1" (minutes 1))))));
    try (vm_compute; reflexivity); discriminate.
Defined.

(** X8. The evidence record. On a freshly Ready node whose pulse fails, the
    reconciliation logs two records and no more, whether or not the node
    is then tainted: the announcement of the pulse, and one record of the
    failure. For an error that wraps a sentinel it is the warning "zombie
    node quarantined" with the node name, the reason of the sentinel and
    the elapsed time in whole milliseconds, followed by the measured value,
    the threshold and the unit exactly when the error is a failure
    carrier; for any other error it is the hard-failure error record. *)
Theorem evidence_record c window nodeName node w elapsed err :
  hd false (faults w) = false -> nodes w !! nodeName = Some node ->
  gateOpen node window w ->
  runPulse c (pulseCalls w) = (elapsed, Some err) ->
  exists lg,
    logs (snd (ReconcileNode c window nodeName w))
    = (logs w ++ [announceLog nodeName; lg])%list
    /\ match sentinelOf err with
       | Some s =>
           lg = {| log_level := LevelWarn; log_msg := "zombie node quarantined";
                   log_attrs :=
                     (baseEvidence nodeName (reasonText s) elapsed ++
                      match errors_As err with
                      | Some (m, t, u) => carrierEvidence m t u
                      | None => []
                      end)%list |}
       | None =>
           lg = {| log_level := LevelError;
                   log_msg := "GPU pulse hard failure — quarantining node";
                   log_attrs := [("node_name", AStr nodeName);
                                 ("failure_reason", AStr "pre_flight_failure");
                                 ("err", AErr err)] |}
       end.
Proof.
  intros Hf Hn Hopen HR.
  destruct (ReconcileNode_open_fail _ _ _ _ _ _ _ Hf Hn Hopen HR) as (lg & -> & Hlg).
  exists lg. split; [|exact Hlg].
  rewrite applyTaint_logs. reflexivity.
Qed.

Lemma evidence_record_witness :
  exists lg,
    logs (snd (ReconcileNode (mockPulse (ms 300) (Some ErrHighVariance)) (minutes 5)
                 "gpu-node-3" (world (freshNode "gpu-node-3" (minutes 3)))))
    = ([] ++ [announceLog "gpu-node-3"; lg])%list
    /\ lg = {| log_level := LevelWarn; log_msg := "zombie node quarantined";
               log_attrs :=
                 (baseEvidence "gpu-node-3" (reasonText HighVariance) (ms 300)
                  ++ [])%list |}.
Proof.
  apply (evidence_record (mockPulse (ms 300) (Some ErrHighVariance)) (minutes 5)
           "gpu-node-3" (freshNode "gpu-node-3" (minutes 3))
           (world (freshNode "gpu-node-3" (minutes 3))) (ms 300) ErrHighVariance);
    try reflexivity.
  eexists. split; [reflexivity | vm_compute; reflexivity].
Defined.

(** X9. The build without the cuda tag. Its [RunPulse] always returns an
    error that wraps no sentinel, so the controller of that build treats it
    as a hard failure: a freshly Ready node without the quarantine taint is
    quarantined with the taint value "0s", a GPUStraggler condition of
    status True is written, and the counter is incremented with the label
    "pre_flight_failure". *)
Theorem stub_build_quarantines window nodeName node w :
  faults w = [] -> nodes w !! nodeName = Some node ->
  gateOpen node window w ->
  hasTaintKey (Taints node) zombieTaintKey = false ->
  exists w',
    ReconcileNode Stub.NewController window nodeName w = (None, w')
    /\ nodes w'
       = <[nodeName :=
             {| Name := Name node;
                Taints := (Taints node ++
                           [ {| Key := zombieTaintKey; Value := "0s";
                                Effect := TaintEffectNoSchedule |} ])%list;
                Conditions :=
                  upsertCondition (Conditions node)
                    {| Type_ := zombieCondition; Status := ConditionTrue;
                       Reason := "StragglerDetected";
                       Message := "GPU pulse took 0s (threshold 500ms)";
                       LastTransitionTime := clock w (S (ticks w)) |} |}]> (nodes w)
    /\ stragglerTotal w' = (stragglerTotal w ++ ["pre_flight_failure"])%list
    /\ pulseCalls w' = S (pulseCalls w).
Proof.
  intros Hf Hn Hopen Hk.
  assert (Hf1 : hd false (faults w) = false) by (rewrite Hf; reflexivity).
  destruct (ReconcileNode_open_fail Stub.NewController window nodeName node w
              0 (Errorf (TxtOther "built without cuda support: recompile with -tags cuda"))
              Hf1 Hn Hopen eq_refl) as (lg & -> & _).
  match goal with |- context [applyTaint ?a ?b ?c ?d] =>
    pose proof (applyTaint_frame a b c d) as (PA & SA & _);
    destruct (applyTaint_run a b c d) as (r & w' & E & _ & H);
      [exact Hn | exact Hk |] end.
  rewrite E in PA, SA |- *. unfold afterPulse in *.
  cbn [snd faults pulseCalls stragglerTotal nodes requests clock ticks] in *.
  rewrite Hf in H. cbn [tl hd] in H. destruct H as (_ & _ & -> & N).
  exists w'. repeat split; assumption.
Qed.

Lemma stub_build_quarantines_witness :
  let node := freshNode "gpu-node-1" (minutes 1) in
  let w := world node in
  exists w',
    ReconcileNode Stub.NewController (minutes 5) "gpu-node-1" w = (None, w')
    /\ nodes w'
       = <[ "gpu-node-1" :=
             {| Name := Name node;
                Taints := (Taints node ++
                           [ {| Key := zombieTaintKey; Value := "0s";
                                Effect := TaintEffectNoSchedule |} ])%list;
                Conditions :=
                  upsertCondition (Conditions node)
                    {| Type_ := zombieCondition; Status := ConditionTrue;
                       Reason := "StragglerDetected";
                       Message := "GPU pulse took 0s (threshold 500ms)";
                       LastTransitionTime := clock w (S (ticks w)) |} |}]> (nodes w)
    /\ stragglerTotal w' = (stragglerTotal w ++ ["pre_flight_failure"])%list
    /\ pulseCalls w' = S (pulseCalls w).
Proof.
  apply (stub_build_quarantines (minutes 5) "gpu-node-1"
           (freshNode "gpu-node-1" (minutes 1))
           (world (freshNode "gpu-node-1" (minutes 1))));
    try reflexivity.
  eexists. split; [reflexivity | vm_compute; reflexivity].
Defined.

End ControllerFacts.

(* ===================================================================== *)
(** ** Halving in [float64] is exact *)
(* ===================================================================== *)

Module HalfFacts.

Import Float64 Float64Facts.

Lemma iter_pos_iter {A} (f : A -> A) (n : positive) :
  forall x, SpecFloat.iter_pos f n x = Pos.iter f x n.
Proof.
  induction n as [n IH|n IH|]; intros x; cbn [SpecFloat.iter_pos Pos.iter].
  - rewrite !IH, <- !Pos.iter_swap. reflexivity.
  - rewrite !IH. reflexivity.
  - reflexivity.
Qed.

(** Shifting out the zeros that were shifted in is exact. *)
Lemma shr_shl (n : positive) : forall p,
  SpecFloat.iter_pos shr_1 n
    {| shr_m := Zpos (Pos.iter xO p n); shr_r := false; shr_s := false |}
  = {| shr_m := Zpos p; shr_r := false; shr_s := false |}.
Proof.
  intros p. rewrite iter_pos_iter. revert p.
  induction n as [|n IH] using Pos.peano_ind; intros p.
  - reflexivity.
  - rewrite Pos.iter_succ_r, Pos.iter_succ. cbn [shr_1 orb]. apply IH.
Qed.

Lemma digits_shl (n : positive) (p : positive) :
  Zpos (digits2_pos (Pos.iter xO p n)) = Zpos (digits2_pos p) + Zpos n.
Proof.
  induction n as [|n IH] using Pos.peano_ind.
  - cbn [Pos.iter digits2_pos]. lia.
  - rewrite Pos.iter_succ. cbn [digits2_pos]. lia.
Qed.

Lemma value_shl (n : positive) (p : positive) :
  Zpos (Pos.iter xO p n) = Zpos p * 2 ^ Zpos n.
Proof.
  induction n as [|n IH] using Pos.peano_ind.
  - cbn [Pos.iter]. lia.
  - rewrite Pos.iter_succ, Pos2Z.inj_xO, IH, Pos2Z.inj_succ, Z.pow_succ_r by lia. lia.
Qed.

Lemma shr_fexp_canonical (mz : positive) (e : Z) :
  Zpos (digits2_pos mz) = 53 -> emin prec emax <= e ->
  shr_fexp prec emax (Zpos mz) e loc_Exact
  = ({| shr_m := Zpos mz; shr_r := false; shr_s := false |}, e).
Proof.
  intros Hd He. unfold shr_fexp, Zdigits2, fexp. rewrite Hd.
  replace (Z.max (53 + e - prec) (emin prec emax) - e) with 0
    by (unfold prec, emin, emax in *; lia).
  reflexivity.
Qed.

(** A mantissa of 53 digits needs no rounding. *)
Lemma round_canonical (mz : positive) (e : Z) :
  Zpos (digits2_pos mz) = 53 -> emin prec emax <= e <= emax - prec ->
  binary_round_aux prec emax false (Zpos mz) e loc_Exact = S754_finite false mz e.
Proof.
  intros Hd [He1 He2]. unfold binary_round_aux.
  rewrite shr_fexp_canonical by assumption.
  cbn [shr_m loc_of_shr_record round_nearest_even].
  rewrite shr_fexp_canonical by assumption. cbn [shr_m].
  rewrite (proj2 (Z.leb_le _ _) He2). reflexivity.
Qed.

(** [float64(n)] is exact for a positive [n] of at most 53 binary digits. *)
Lemma of_int_exact (p : positive) :
  Zpos (digits2_pos p) <= 53 ->
  exists mz ez,
    of_int (Zpos p) = S754_finite false mz ez
    /\ Zpos (digits2_pos mz) = 53 /\ -52 <= ez <= 0
    /\ Zpos mz = Zpos p * 2 ^ (- ez).
Proof.
  intros Hd. unfold of_int, binary_normalize, binary_round, shl_align, fexp.
  rewrite Z.add_0_r.
  replace (Z.max (Zpos (digits2_pos p) - prec) (emin prec emax) - 0)
    with (Zpos (digits2_pos p) - 53) by (unfold prec, emin, emax; lia).
  destruct (Zpos (digits2_pos p) - 53) as [|k|k] eqn:E; [|lia|].
  - exists p, 0. rewrite round_canonical by (unfold prec, emin, emax; lia).
    repeat split; lia.
  - assert (Hk : Z.max (Zpos (digits2_pos p) - prec) (emin prec emax) = Zneg k)
      by (unfold prec, emin, emax; lia).
    rewrite Hk.
    exists (Pos.iter xO p k), (Zneg k).
    rewrite round_canonical
      by (rewrite ?digits_shl; unfold prec, emin, emax; lia).
    rewrite digits_shl, value_shl. cbn [Z.opp]. repeat split; lia.
Qed.

Lemma mul_half (mz : positive) (ez : Z) :
  Zpos (digits2_pos mz) = 53 -> -52 <= ez <= 0 ->
  mul (S754_finite false mz ez) lit_0_5 = S754_finite false mz (ez - 1).
Proof.
  intros Hd He. unfold mul, lit_0_5, SFmul, binary_round_aux. cbn [xorb].
  replace (mz * 4503599627370496)%positive with (Pos.iter xO mz 52)
    by (rewrite Pos.mul_comm; reflexivity).
  unfold shr_fexp at 1. unfold Zdigits2, fexp. rewrite digits_shl, Hd.
  replace (Z.max (53 + 52 + (ez + -53) - prec) (emin prec emax) - (ez + -53))
    with 52 by (unfold prec, emin, emax; lia).
  cbn [shr_record_of_loc shr]. rewrite shr_shl.
  cbn [shr_m loc_of_shr_record round_nearest_even].
  replace (ez + -53 + 52) with (ez - 1) by lia.
  rewrite shr_fexp_canonical by (try assumption; unfold prec, emin, emax; lia).
  cbn [shr_m].
  rewrite (proj2 (Z.leb_le (ez - 1) (emax - prec))) by (unfold prec, emax; lia).
  reflexivity.
Qed.

(** [int(float64(n) * 0.5)] is [n / 2] for [0 <= n < 2^53]. *)
Lemma half_exact (n : Z) :
  0 <= n < 2 ^ 53 -> to_int (mul (of_int n) lit_0_5) = n / 2.
Proof.
  intros [H0 H1]. destruct n as [|p|p]; [reflexivity | | lia].
  assert (Hd : Zpos (digits2_pos p) <= 53).
  { pose proof (digits2_pos_bound p) as B.
    destruct (Z.le_gt_cases (Zpos (digits2_pos p)) 53) as [|G]; [assumption|].
    assert (2 ^ 53 <= 2 ^ (Zpos (digits2_pos p) - 1))
      by (apply Z.pow_le_mono_r; lia).
    lia. }
  destruct (of_int_exact p Hd) as (mz & ez & -> & Hmz & He & Hv).
  rewrite mul_half by assumption. unfold to_int.
  destruct (ez - 1) as [|k|k] eqn:E; [lia | lia |].
  assert (Hk : Zpos k = 1 - ez) by lia.
  assert (Hq : Zpos mz / 2 ^ Zpos k = Zpos p / 2).
  { rewrite Hv, Hk. replace (1 - ez) with (- ez + 1) by lia.
    rewrite Z.pow_add_r, Z.pow_1_r by lia.
    rewrite (Z.mul_comm (2 ^ (- ez)) 2).
    apply Z.div_mul_cancel_r; [lia|]. apply Z.pow_nonzero; lia. }
  rewrite Hq.
  assert (0 <= Zpos p / 2 < 2 ^ 53)
    by (split; [apply Z.div_pos; lia | apply Z.div_lt_upper_bound; lia]).
  replace ((Int64.min_int <=? Zpos p / 2) && (Zpos p / 2 <=? Int64.max_int)) with true;
    [reflexivity|].
  symmetry. apply andb_true_intro. unfold Int64.min_int, Int64.max_int.
  split; apply Z.leb_le; lia.
Qed.

End HalfFacts.

(* ===================================================================== *)
(** ** The pipeline: the stages and what [RunPulse] returns *)
(* ===================================================================== *)

Module StageFacts.

Import Time Pulse Spec Evidence Stages Scenarios PulseFacts HalfFacts.

(** *** Pre-flight *)

Lemma preflight_loop_spec max stats : forall i,
  match preflight_loop max i stats with
  | None => Forall (fun s => unfit max s = false) stats
  | Some e =>
      exists k s, stats !! k = Some s /\ unfit max s = true
        /\ (forall j s', (j < k)%nat -> stats !! j = Some s' -> unfit max s' = false)
        /\ e = unfitError max (i + Z.of_nat k) s
  end.
Proof.
  induction stats as [|s rest IH]; intros i; cbn [preflight_loop].
  - constructor.
  - destruct (0 <? ECCErrors s) eqn:E1.
    + exists 0%nat, s. unfold unfit, unfitError. rewrite E1. cbn [orb].
      split; [reflexivity|]. split; [reflexivity|]. split; [intros; lia|].
      rewrite Z.add_0_r. reflexivity.
    + destruct (max <? TempC s) eqn:E2.
      * exists 0%nat, s. unfold unfit, unfitError. rewrite E1, E2. cbn [orb].
        split; [reflexivity|]. split; [reflexivity|]. split; [intros; lia|].
        rewrite Z.add_0_r. reflexivity.
      * specialize (IH (i + 1)).
        destruct (preflight_loop max (i + 1) rest) as [e|].
        -- destruct IH as (k & s' & L & U & Hb & ->).
           exists (S k), s'. split; [exact L|]. split; [exact U|]. split.
           ++ intros [|j] s'' Hj Hl; cbn in Hl.
              ** injection Hl as <-. unfold unfit. rewrite E1, E2. reflexivity.
              ** apply (Hb j); [lia | exact Hl].
           ++ f_equal. lia.
        -- constructor; [|exact IH]. unfold unfit. rewrite E1, E2. reflexivity.
Qed.

Lemma preflight_unfold th hw tr :
  fst (preflight th hw tr)
  = match smiStats hw 0 with
    | None => None
    | Some stats => preflight_loop (thr_temp th) 0 stats
    end.
Proof. reflexivity. Qed.

(** *** What [RunPulse] returns, stage by stage *)

Lemma ringStage_verdict th hw tr :
  fst (ringStage th hw (effectiveCount hw) tr) = ringVerdict th hw.
Proof.
  unfold ringStage, ringVerdict.
  destruct (1 <? effectiveCount hw) eqn:E; [|reflexivity].
  apply Z.ltb_lt in E. rewrite ringLoop_spec by lia. cbn [fst].
  unfold ring. rewrite Z2Nat.id by lia. reflexivity.
Qed.

Lemma effectiveCount_pos hw : 1 <= effectiveCount hw.
Proof. unfold effectiveCount. destruct (Z.ltb_spec (hw_device_count hw) 1); lia. Qed.

Lemma RunPulse_outcome th hw :
  fst (RunPulse th hw [])
  = match preflightVerdict th hw with
    | Some e => (0, Some e)
    | None =>
        match firstFailing th hw with
        | Some k => (deviceMean th hw k, snd (deviceResult th hw k))
        | None =>
            match ringVerdict th hw with
            | Some e => (worstMean th hw, Some e)
            | None =>
                match clockVerdict hw with
                | Some e => (worstMean th hw, Some (clockFailure th (worstMean th hw) e))
                | None => (worstMean th hw, None)
                end
            end
        end
    end.
Proof.
  unfold RunPulse, preflightVerdict. unfold bind at 1.
  destruct (preflight th hw []) as [[err|] tr1]; [reflexivity|]. cbn [fst].
  unfold bind at 1. rewrite deviceCount_spec. fold (effectiveCount hw).
  pose proof (effectiveCount_pos hw) as Hc.
  unfold bind at 1.
  pose proof (deviceLoop_result th hw (Z.to_nat (effectiveCount hw)) 0 0
                (tr1 ++ [EvDeviceCount])%list) as H.
  rewrite Z2Nat.id in H by lia. fold (firstFailing th hw) in H.
  fold (worstMean th hw) in H.
  destruct (deviceLoop th hw (Z.to_nat (effectiveCount hw)) 0 0
              (tr1 ++ [EvDeviceCount])%list) as [[w|[m e]] tr2]; cbn [fst] in H.
  - destruct (firstFailing th hw) as [k|] eqn:Ef.
    + apply find_some in Ef as [_ Ef]. unfold devicePasses in Ef.
      destruct (snd (deviceResult th hw k)); [discriminate H | discriminate Ef].
    + injection H as ->. unfold bind at 1.
      pose proof (ringStage_verdict th hw tr2) as HR.
      destruct (ringStage th hw (effectiveCount hw) tr2) as [ring tr3].
      cbn [fst] in HR. subst ring.
      destruct (ringVerdict th hw) as [e|]; [reflexivity|].
      unfold bind at 1.
      assert (HV : fst (validateClocks hw tr3) = clockVerdict hw) by reflexivity.
      destruct (validateClocks hw tr3) as [vc tr4]. cbn [fst] in HV. subst vc.
      destruct (clockVerdict hw) as [e|]; reflexivity.
  - destruct (firstFailing th hw) as [k|] eqn:Ef; [|discriminate H].
    destruct (snd (deviceResult th hw k)) as [e'|]; [|discriminate H].
    injection H as -> ->. reflexivity.
Qed.

(** X10. The pre-flight check. It passes when the management utility
    cannot be run or prints a malformed row. Otherwise it passes exactly
    when no device reports uncorrectable ECC errors or an idle temperature
    above the ceiling (a temperature equal to the ceiling passes); when it
    fails, the error names the first offending device by its row index, the
    ECC check taking precedence over the temperature on that device. *)
Theorem preflight_rejects_first_unfit th hw :
  match smiStats hw 0 with
  | None => preflightVerdict th hw = None
  | Some stats =>
      match preflightVerdict th hw with
      | None => Forall (fun s => ECCErrors s <= 0 /\ TempC s <= thr_temp th) stats
      | Some e =>
          exists k s, stats !! k = Some s
            /\ (forall j s', (j < k)%nat -> stats !! j = Some s' ->
                  ECCErrors s' <= 0 /\ TempC s' <= thr_temp th)
            /\ ((0 < ECCErrors s
                 /\ e = Errorf (TxtPreflightECC (Z.of_nat k) (ECCErrors s)))
                \/ (ECCErrors s <= 0 /\ thr_temp th < TempC s
                    /\ e = Errorf (TxtPreflightTemp (Z.of_nat k) (TempC s)
                                                    (thr_temp th))))
      end
  end.
Proof.
  unfold preflightVerdict. rewrite preflight_unfold.
  destruct (smiStats hw 0) as [stats|]; [|reflexivity].
  assert (Hfit : forall s, unfit (thr_temp th) s = false ->
                           ECCErrors s <= 0 /\ TempC s <= thr_temp th).
  { intros s H. unfold unfit in H. apply orb_false_iff in H as [H1 H2].
    apply Z.ltb_ge in H1, H2. split; assumption. }
  pose proof (preflight_loop_spec (thr_temp th) stats 0) as H.
  destruct (preflight_loop (thr_temp th) 0 stats) as [e|].
  - destruct H as (k & s & L & U & Hb & ->). exists k, s.
    split; [exact L|]. split; [intros j s' Hj Hl; apply Hfit, (Hb j); assumption|].
    unfold unfitError. rewrite Z.add_0_l. unfold unfit in U.
    destruct (Z.ltb_spec 0 (ECCErrors s)) as [H1|H1].
    + left. split; [exact H1 | reflexivity].
    + right. cbn [orb] in U. apply Z.ltb_lt in U. repeat split; assumption.
  - eapply Forall_impl; [exact H|]. exact Hfit.
Qed.

(** X11. A failed pre-flight ends the pulse at once: [RunPulse] returns a
    zero duration and the pre-flight error, and the only external call made
    is the one query of the management utility: no device is enumerated, no
    GEMM runs, no link is probed, no metric is recorded. The error wraps no
    sentinel and is no failure carrier, so the controller counts it as
    "pre_flight_failure". *)
Theorem preflight_failure_skips_pulse th hw e :
  preflightVerdict th hw = Some e ->
  RunPulse th hw [] = ((0, Some e), [EvSMI])
  /\ sentinelOf e = None /\ errors_As e = None /\ IsStragglerErr e = false
  /\ reasonLabel (sentinelOf e) = "pre_flight_failure".
Proof.
  intros H.
  assert (K : exists t, e = Errorf t).
  { unfold preflightVerdict in H. rewrite preflight_unfold in H.
    destruct (smiStats hw 0) as [stats|]; [|discriminate].
    pose proof (preflight_loop_spec (thr_temp th) stats 0) as L. rewrite H in L.
    destruct L as (k & s & _ & _ & _ & ->). unfold unfitError.
    destruct (0 <? ECCErrors s); eauto. }
  destruct K as [t ->]. split; [|repeat split].
  unfold RunPulse. unfold bind at 1.
  pose proof (preflight_trace th hw []) as T. unfold preflightVerdict in H.
  destruct (preflight th hw []) as [r tr]. cbn [fst snd] in H, T. subst r tr.
  reflexivity.
Qed.

Lemma preflight_failure_skips_pulse_witness :
  RunPulse defaultThresholds Hosts.hwECC []
  = ((0, Some (Errorf (TxtPreflightECC 1 3))), [EvSMI])
  /\ sentinelOf (Errorf (TxtPreflightECC 1 3)) = None
  /\ errors_As (Errorf (TxtPreflightECC 1 3)) = None
  /\ IsStragglerErr (Errorf (TxtPreflightECC 1 3)) = false
  /\ reasonLabel (sentinelOf (Errorf (TxtPreflightECC 1 3))) = "pre_flight_failure".
Proof.
  apply (preflight_failure_skips_pulse defaultThresholds Hosts.hwECC
           (Errorf (TxtPreflightECC 1 3))).
  vm_compute. reflexivity.
Defined.

(** *** Pass and fail *)

Lemma firstFailing_None th hw :
  firstFailing th hw = None
  <-> forall d, 0 <= d < effectiveCount hw -> devicePasses th hw d = true.
Proof.
  unfold firstFailing. rewrite find_none_Forall, Forall_forall. split.
  - intros H d Hd. specialize (H d). rewrite elem_of_seqZ in H.
    apply negb_false_iff, H. lia.
  - intros H d Hd. rewrite elem_of_seqZ in Hd. apply negb_false_iff, H. lia.
Qed.

Lemma firstError_None th hw segs :
  firstError th hw segs = None
  <-> Forall (fun sd => segmentFails th hw sd = false) segs.
Proof.
  unfold firstError. rewrite <- find_none_Forall.
  destruct (List.find (segmentFails th hw) segs) as [sd|] eqn:E; [|tauto].
  apply find_some in E as [_ E]. split; [|discriminate].
  intros H. apply segmentError_None in H. congruence.
Qed.

Lemma ringVerdict_None th hw :
  ringVerdict th hw = None
  <-> (2 <= effectiveCount hw ->
       forall i, 0 <= i < effectiveCount hw ->
         segmentFails th hw (i, (i + 1) mod effectiveCount hw) = false).
Proof.
  unfold ringVerdict. destruct (Z.ltb_spec 1 (effectiveCount hw)) as [H|H].
  - rewrite firstError_None. unfold ring. rewrite Forall_forall. split.
    + intros F _ i Hi. apply (F (segment (effectiveCount hw) i)).
      apply list_elem_of_In, in_map, list_elem_of_In, elem_of_seqZ. lia.
    + intros F sd Hsd. apply list_elem_of_In, in_map_iff in Hsd as (i & <- & Hi).
      apply list_elem_of_In, elem_of_seqZ in Hi. apply F; lia.
  - split; [intros _ H2; lia | reflexivity].
Qed.

(** X12. [RunPulse] passes (returns a nil error) exactly when all four
    stages pass: the pre-flight check, every device from 0 to the device
    count less one, every segment of the ring when there are two devices or
    more, and the clock validation. The duration it then returns is at
    least the mean of every device. *)
Theorem RunPulse_passes_iff th hw :
  (snd (fst (RunPulse th hw [])) = None
   <-> preflightVerdict th hw = None
       /\ (forall d, 0 <= d < effectiveCount hw -> devicePasses th hw d = true)
       /\ (2 <= effectiveCount hw ->
           forall i, 0 <= i < effectiveCount hw ->
             segmentFails th hw (i, (i + 1) mod effectiveCount hw) = false)
       /\ clockVerdict hw = None)
  /\ (snd (fst (RunPulse th hw [])) = None ->
      forall d, 0 <= d < effectiveCount hw ->
        deviceMean th hw d <= fst (fst (RunPulse th hw []))).
Proof.
  rewrite RunPulse_outcome, <- firstFailing_None, <- ringVerdict_None.
  assert (W : forall devs w d, In d devs -> deviceMean th hw d <= worstOf th hw devs w
                               /\ w <= worstOf th hw devs w).
  { unfold worstOf. induction devs as [|x rest IH]; intros w d; [intros []|].
    cbn [fold_left]. intros [->|Hin].
    - clear IH. revert w.
      assert (M : forall l a, a <= fold_left (fun w0 dev => Z.max w0 (deviceMean th hw dev)) l a).
      { induction l as [|y l IHl]; intros a; cbn [fold_left]; [lia|].
        etransitivity; [|apply IHl]. lia. }
      intros w. pose proof (M rest (Z.max w (deviceMean th hw d))). lia.
    - destruct (IH (Z.max w (deviceMean th hw x)) d Hin). lia. }
  destruct (preflightVerdict th hw) as [e|]; cbn [fst snd].
  { split; [split; [discriminate|intros [? _]; discriminate]|discriminate]. }
  destruct (firstFailing th hw) as [k|] eqn:Ef; cbn [fst snd].
  { assert (snd (deviceResult th hw k) <> None).
    { apply find_some in Ef as [_ Ef]. unfold devicePasses in Ef.
      destruct (snd (deviceResult th hw k)); [discriminate | discriminate Ef]. }
    split; [split; [contradiction|intros (_ & ? & _); discriminate]|contradiction]. }
  destruct (ringVerdict th hw) as [e|]; cbn [fst snd].
  { split; [split; [discriminate|intros (_ & _ & ? & _); discriminate]|discriminate]. }
  destruct (clockVerdict hw) as [e|]; cbn [fst snd].
  { split; [split; [discriminate|intros (_ & _ & _ & ?); discriminate]|discriminate]. }
  split; [tauto|]. intros _ d Hd. unfold worstMean.
  apply W, list_elem_of_In, elem_of_seqZ. lia.
Qed.

(** *** The errors of a device *)

Lemma timedRuns_stops hw dev : forall k todo i durs tr,
  (k < todo)%nat ->
  (forall j, (j < k)%nat -> fst (hw_gemm hw dev (i + j)) = GPU_PULSE_OK) ->
  fst (hw_gemm hw dev (i + k)) <> GPU_PULSE_OK ->
  timedRuns hw dev todo i durs tr
  = (inr (snd (hw_gemm hw dev (i + k)),
          Errorf (runError dev (i + k) (fst (hw_gemm hw dev (i + k))))),
     (tr ++ repeat (EvGemm dev) (S k))%list).
Proof.
  induction k as [|k IH]; intros todo i durs tr Hk Hok Hbad;
    (destruct todo as [|todo]; [lia|]); cbn [timedRuns]; unfold bind, emit.
  - rewrite Nat.add_0_r in *.
    destruct (hw_gemm hw dev i) as [rc elapsed]. cbn [fst snd] in *.
    unfold runError.
    destruct (rc =? GPU_PULSE_OK) eqn:E0; [apply Z.eqb_eq in E0; contradiction|].
    destruct (rc =? GPU_PULSE_ERR_CUDA); [reflexivity|].
    destruct (rc =? GPU_PULSE_ERR_OOM); reflexivity.
  - pose proof (Hok 0%nat ltac:(lia)) as H0. rewrite Nat.add_0_r in H0.
    destruct (hw_gemm hw dev i) as [rc elapsed]. cbn [fst] in H0. subst rc.
    cbn [Z.eqb GPU_PULSE_OK].
    rewrite (IH todo (S i)).
    + replace (S i + k)%nat with (i + S k)%nat by lia.
      rewrite <- app_assoc. reflexivity.
    + lia.
    + intros j Hj. replace (S i + j)%nat with (i + S j)%nat by lia. apply Hok. lia.
    + replace (S i + k)%nat with (i + S k)%nat by lia. exact Hbad.
Qed.

(** X13. A native error ends a device's pulse at once. When run [k] of a
    device (counted from 0, below the five) is the first to return a
    non-zero code, no further run is made on the device, no statistics are
    computed, and [runDevicePulse] returns the wall-clock time of that one
    run as the duration, a zero coefficient of variation, and an error
    that wraps no sentinel and is no failure carrier: the controller counts
    it as "pre_flight_failure". The text is the CUDA one for code 1, the
    out-of-memory one for code 2, and names the code otherwise. *)
Theorem native_error_stops_device th hw dev k tr :
  (k < 5)%nat ->
  (forall j, (j < k)%nat -> fst (hw_gemm hw dev j) = GPU_PULSE_OK) ->
  fst (hw_gemm hw dev k) <> GPU_PULSE_OK ->
  let rc := fst (hw_gemm hw dev k) in
  let e := Errorf (runError dev k rc) in
  runDevicePulse th hw dev tr
  = ((snd (hw_gemm hw dev k), Float64.zero, Some e),
     (tr ++ repeat (EvGemm dev) (S k))%list)
  /\ sentinelOf e = None /\ errors_As e = None
  /\ reasonLabel (sentinelOf e) = "pre_flight_failure"
  /\ (rc = 1 -> runError dev k rc = TxtCudaError dev (Z.of_nat k + 1) 1)
  /\ (rc = 2 -> runError dev k rc = TxtOutOfMemory dev (Z.of_nat k + 1) 2)
  /\ (rc <> 1 -> rc <> 2 -> runError dev k rc = TxtReturnCode rc dev (Z.of_nat k + 1)).
Proof.
  intros Hk Hok Hbad. cbv zeta. split; [|repeat split].
  - unfold runDevicePulse, bind.
    rewrite (timedRuns_stops hw dev k pulseRuns 0 [] tr); [reflexivity | exact Hk | |];
      cbn [Nat.add]; assumption.
  - intros ->. reflexivity.
  - intros ->. reflexivity.
  - intros H1 H2. unfold runError.
    destruct (Z.eqb_spec (fst (hw_gemm hw dev k)) GPU_PULSE_ERR_CUDA); [contradiction|].
    destruct (Z.eqb_spec (fst (hw_gemm hw dev k)) GPU_PULSE_ERR_OOM); [contradiction|].
    reflexivity.
Qed.

Lemma native_error_stops_device_witness :
  let rc := fst (hw_gemm Hosts.hwCudaError 0 2) in
  let e := Errorf (runError 0 2 rc) in
  runDevicePulse defaultThresholds Hosts.hwCudaError 0 []
  = ((snd (hw_gemm Hosts.hwCudaError 0 2), Float64.zero, Some e),
     ([] ++ repeat (EvGemm 0) 3)%list)
  /\ sentinelOf e = None /\ errors_As e = None
  /\ reasonLabel (sentinelOf e) = "pre_flight_failure"
  /\ (rc = 1 -> runError 0 2 rc = TxtCudaError 0 (Z.of_nat 2 + 1) 1)
  /\ (rc = 2 -> runError 0 2 rc = TxtOutOfMemory 0 (Z.of_nat 2 + 1) 2)
  /\ (rc <> 1 -> rc <> 2 -> runError 0 2 rc = TxtReturnCode rc 0 (Z.of_nat 2 + 1)).
Proof.
  apply (native_error_stops_device defaultThresholds Hosts.hwCudaError 0 2 []).
  - lia.
  - intros [|[|j]] Hj; [reflexivity | reflexivity | lia].
  - vm_compute. discriminate.
Defined.

Lemma timedRuns_inr hw dev : forall todo i durs tr el err,
  fst (timedRuns hw dev todo i durs tr) = inr (el, err) -> exists t, err = Errorf t.
Proof.
  induction todo as [|todo IH]; intros i durs tr el err; cbn [timedRuns];
    [discriminate|].
  unfold bind, emit. destruct (hw_gemm hw dev i) as [rc elapsed].
  destruct (rc =? GPU_PULSE_OK); [apply IH|].
  destruct (rc =? GPU_PULSE_ERR_CUDA); [intros [= _ <-]; eauto|].
  destruct (rc =? GPU_PULSE_ERR_OOM); intros [= _ <-]; eauto.
Qed.

(** The error of a device is a native one, or one of the two verdicts. *)
Lemma deviceResult_kinds th hw d e :
  snd (deviceResult th hw d) = Some e ->
  (exists t, e = Errorf t)
  \/ (exists t m, e = PulseFailure (ErrorfW t StragglerDetected) m
                        (Float64.of_int (Milliseconds (thr_straggler th))) "ms")
  \/ (exists t m, e = PulseFailure (ErrorfW t HighVariance) m (thr_cv th) "cv"
                  /\ Float64.gtb m (thr_cv th) = true).
Proof.
  unfold deviceResult, runDevicePulse, bind.
  pose proof (timedRuns_inr hw d pulseRuns 0 [] []) as K.
  destruct (timedRuns hw d pulseRuns 0 [] []) as [[durs|[el err]] tr]; cbn [fst snd ret].
  - destruct (computeStats durs) as [[mean cv]|]; cbn [snd]; [|discriminate].
    unfold judge. destruct (thr_straggler th <? mean).
    + intros [= <-]. right. left. eauto.
    + destruct (Float64.gtb cv (thr_cv th)) eqn:G; [|discriminate].
      intros [= <-]. right. right. eauto.
  - intros [= <-]. left. apply (K el err eq_refl).
Qed.

Lemma devicePasses_mean th hw d :
  0 <= thr_straggler th -> devicePasses th hw d = true ->
  deviceMean th hw d <= thr_straggler th.
Proof.
  intros H0. unfold devicePasses, deviceMean, deviceResult, runDevicePulse, bind.
  destruct (timedRuns hw d pulseRuns 0 [] []) as [[durs|[el err]] tr]; cbn [fst snd ret].
  - destruct (computeStats durs) as [[mean cv]|]; cbn [fst snd]; [|intros _; exact H0].
    unfold judge. destruct (Z.ltb_spec (thr_straggler th) mean); [discriminate|].
    intros _. assumption.
  - discriminate.
Qed.

(** *** The clock validation *)

Lemma validateClocks_loop_spec stats : forall i,
  match validateClocks_loop i stats with
  | None => Forall (fun s => derated s = false) stats
  | Some e =>
      exists k s, stats !! k = Some s /\ derated s = true
        /\ (forall j s', (j < k)%nat -> stats !! j = Some s' -> derated s' = false)
        /\ e = Errorf (TxtClock (i + Z.of_nat k) (SMClockMHz s) (MaxSMClockMHz s))
  end.
Proof.
  induction stats as [|s rest IH]; intros i; cbn [validateClocks_loop].
  - constructor.
  - fold (clockFloor s).
    assert (Hnext : derated s = false ->
      match validateClocks_loop (i + 1) rest with
      | None => Forall (fun s => derated s = false) (s :: rest)
      | Some e =>
          exists k s0, (s :: rest) !! k = Some s0 /\ derated s0 = true
            /\ (forall j s', (j < k)%nat -> (s :: rest) !! j = Some s' ->
                  derated s' = false)
            /\ e = Errorf (TxtClock (i + Z.of_nat k) (SMClockMHz s0) (MaxSMClockMHz s0))
      end).
    { intros Hs. specialize (IH (i + 1)).
      destruct (validateClocks_loop (i + 1) rest) as [e|].
      - destruct IH as (k & s' & L & U & Hb & ->).
        exists (S k), s'. split; [exact L|]. split; [exact U|]. split.
        + intros [|j] s'' Hj Hl; cbn in Hl.
          * injection Hl as <-. exact Hs.
          * apply (Hb j); [lia | exact Hl].
        + do 2 f_equal. lia.
      - constructor; assumption. }
    destruct (MaxSMClockMHz s =? 0) eqn:E0.
    + apply Hnext. unfold derated. rewrite E0. reflexivity.
    + destruct (SMClockMHz s <? clockFloor s) eqn:E1.
      * exists 0%nat, s. unfold derated. rewrite E0, E1.
        split; [reflexivity|]. split; [reflexivity|]. split; [intros; lia|].
        rewrite Z.add_0_r. reflexivity.
      * apply Hnext. unfold derated. rewrite E0, E1. reflexivity.
Qed.

(** X14. The clock validation after the pulse. It passes when the
    management utility cannot be run or prints a malformed row. Otherwise
    it passes exactly when every device either reports a maximum SM clock
    of 0 (such a device is never flagged) or runs at no less than the
    clock floor; when it fails, the error names the first device below its
    floor by its row index. The floor, [int(float64(max) * 0.5)], is half
    the maximum clock, rounded down, for every maximum below 2^53. *)
Theorem clock_check_flags_first_derated hw :
  match smiStats hw 1 with
  | None => clockVerdict hw = None
  | Some stats =>
      match clockVerdict hw with
      | None =>
          Forall (fun s => MaxSMClockMHz s = 0 \/ clockFloor s <= SMClockMHz s) stats
      | Some e =>
          exists k s, stats !! k = Some s
            /\ MaxSMClockMHz s <> 0 /\ SMClockMHz s < clockFloor s
            /\ (forall j s', (j < k)%nat -> stats !! j = Some s' ->
                  MaxSMClockMHz s' = 0 \/ clockFloor s' <= SMClockMHz s')
            /\ e = Errorf (TxtClock (Z.of_nat k) (SMClockMHz s) (MaxSMClockMHz s))
      end
  end
  /\ (forall s, 0 <= MaxSMClockMHz s < 2 ^ 53 -> clockFloor s = MaxSMClockMHz s / 2).
Proof.
  split; [|intros s Hs; apply half_exact, Hs].
  assert (U : clockVerdict hw = match smiStats hw 1 with
                                | None => None
                                | Some stats => validateClocks_loop 0 stats
                                end) by reflexivity.
  rewrite U. destruct (smiStats hw 1) as [stats|]; [|reflexivity].
  assert (Hok : forall s, derated s = false ->
                          MaxSMClockMHz s = 0 \/ clockFloor s <= SMClockMHz s).
  { intros s H. unfold derated in H. apply andb_false_iff in H as [H|H].
    - left. apply negb_false_iff, Z.eqb_eq in H. exact H.
    - right. apply Z.ltb_ge in H. exact H. }
  pose proof (validateClocks_loop_spec stats 0) as H.
  destruct (validateClocks_loop 0 stats) as [e|].
  - destruct H as (k & s & L & D & Hb & ->). exists k, s.
    unfold derated in D. apply andb_true_iff in D as [D1 D2].
    apply negb_true_iff, Z.eqb_neq in D1. apply Z.ltb_lt in D2.
    split; [exact L|]. split; [exact D1|]. split; [exact D2|].
    split; [intros j s' Hj Hl; apply Hok, (Hb j); assumption|].
    rewrite Z.add_0_l. reflexivity.
  - eapply Forall_impl; [exact H|]. exact Hok.
Qed.

(** *** The errors of [RunPulse] *)

Lemma preflightVerdict_hard th hw e :
  preflightVerdict th hw = Some e -> exists t, e = Errorf t.
Proof.
  unfold preflightVerdict. rewrite preflight_unfold.
  destruct (smiStats hw 0) as [stats|]; [|discriminate].
  intros H. pose proof (preflight_loop_spec (thr_temp th) stats 0) as L.
  rewrite H in L. destruct L as (k & s & _ & _ & _ & ->). unfold unfitError.
  destruct (0 <? ECCErrors s); eauto.
Qed.

Lemma ringVerdict_kind th hw e :
  ringVerdict th hw = Some e ->
  exists t m, e = PulseFailure (ErrorfW t InterconnectDegraded) m (thr_p2p th) "gbs".
Proof.
  unfold ringVerdict, firstError. destruct (1 <? effectiveCount hw); [|discriminate].
  destruct (List.find _ _) as [sd|]; [|discriminate].
  intros H. apply segmentError_kind in H as [_ H]. exact H.
Qed.

Lemma worstOf_le th hw bound : forall devs w,
  w <= bound -> (forall d, In d devs -> deviceMean th hw d <= bound) ->
  worstOf th hw devs w <= bound.
Proof.
  unfold worstOf. induction devs as [|d rest IH]; intros w Hw Hd; cbn [fold_left].
  - exact Hw.
  - apply IH.
    + pose proof (Hd d (or_introl eq_refl)). lia.
    + intros d' Hin. apply Hd. right. exact Hin.
Qed.

(** X15. Every error [RunPulse] returns is of one of four kinds: an error
    that wraps no sentinel and carries no values (pre-flight, native return
    code), or a failure carrier around exactly one sentinel whose unit and
    threshold are those of the check that failed: "ms" and the latency
    threshold in whole milliseconds for StragglerDetected, "cv" and the
    variance ceiling (which the measured value exceeds) for HighVariance,
    "gbs" and the bandwidth minimum for InterconnectDegraded. So every
    straggler error of the pipeline carries the evidence values. *)
Theorem RunPulse_error_kinds th hw e :
  snd (fst (RunPulse th hw [])) = Some e ->
  (exists t, e = Errorf t /\ IsStragglerErr e = false /\ errors_As e = None)
  \/ (exists t m,
        e = PulseFailure (ErrorfW t StragglerDetected) m
              (Float64.of_int (Milliseconds (thr_straggler th))) "ms")
  \/ (exists t m,
        e = PulseFailure (ErrorfW t HighVariance) m (thr_cv th) "cv"
        /\ Float64.gtb m (thr_cv th) = true)
  \/ (exists t m,
        e = PulseFailure (ErrorfW t InterconnectDegraded) m (thr_p2p th) "gbs").
Proof.
  rewrite RunPulse_outcome.
  destruct (preflightVerdict th hw) as [e0|] eqn:EP; cbn [fst snd].
  { intros [= <-]. apply preflightVerdict_hard in EP as [t ->]. left. eauto. }
  destruct (firstFailing th hw) as [k|]; cbn [fst snd].
  { intros H. apply deviceResult_kinds in H as [[t ->]|[H|H]].
    - left. eauto.
    - right. left. exact H.
    - right. right. left. exact H. }
  destruct (ringVerdict th hw) as [e0|] eqn:ER; cbn [fst snd].
  { intros [= <-]. apply ringVerdict_kind in ER. right. right. right. exact ER. }
  destruct (clockVerdict hw) as [e0|]; cbn [fst snd]; [|discriminate].
  intros [= <-]. right. left. unfold clockFailure. eauto.
Qed.

Lemma RunPulse_error_kinds_witness :
  let cv := S754_finite false 7205759403792794 (-52) in
  let e := PulseFailure (ErrorfW (TxtCV 1 cv) HighVariance) cv Float64.lit_0_20 "cv" in
  (exists t, e = Errorf t /\ IsStragglerErr e = false /\ errors_As e = None)
  \/ (exists t m,
        e = PulseFailure (ErrorfW t StragglerDetected) m
              (Float64.of_int (Milliseconds (thr_straggler defaultThresholds))) "ms")
  \/ (exists t m,
        e = PulseFailure (ErrorfW t HighVariance) m (thr_cv defaultThresholds) "cv"
        /\ Float64.gtb m (thr_cv defaultThresholds) = true)
  \/ (exists t m,
        e = PulseFailure (ErrorfW t InterconnectDegraded) m
              (thr_p2p defaultThresholds) "gbs").
Proof.
  apply (RunPulse_error_kinds defaultThresholds hwUneven).
  vm_compute. reflexivity.
Defined.

(** X16. A clock failure is reported as a latency failure. When the first
    three stages pass and the clock validation fails, [RunPulse] returns
    the worst mean and a carrier that wraps StragglerDetected around the
    text of the clock error, with unit "ms"; the controller counts it as
    "latency_threshold_exceeded". The measured value of the carrier is the
    worst mean in whole milliseconds, which (the threshold not being
    negative) does not exceed the threshold value beside it. *)
Theorem clock_failure_is_reported_as_latency th hw e :
  0 <= thr_straggler th ->
  preflightVerdict th hw = None -> firstFailing th hw = None ->
  ringVerdict th hw = None -> clockVerdict hw = Some e ->
  let worst := fst (fst (RunPulse th hw [])) in
  let err := PulseFailure (ErrorfW (TxtWrapped (Error_ e)) StragglerDetected)
               (Float64.of_int (Milliseconds worst))
               (Float64.of_int (Milliseconds (thr_straggler th))) "ms" in
  snd (fst (RunPulse th hw [])) = Some err
  /\ worst = worstMean th hw
  /\ reasonLabel (sentinelOf err) = "latency_threshold_exceeded"
  /\ Milliseconds worst <= Milliseconds (thr_straggler th).
Proof.
  intros H0 HP HF HR HC. cbv zeta. rewrite RunPulse_outcome, HP, HF, HR, HC.
  cbn [fst snd]. split; [reflexivity|]. split; [reflexivity|]. split; [reflexivity|].
  unfold Milliseconds. apply Z.quot_le_mono; [lia|].
  unfold worstMean. apply worstOf_le; [exact H0|].
  intros d Hd. apply devicePasses_mean; [exact H0|].
  apply (proj1 (firstFailing_None th hw) HF).
  apply list_elem_of_In, elem_of_seqZ in Hd. lia.
Qed.

Lemma clock_failure_is_reported_as_latency_witness :
  let worst := fst (fst (RunPulse defaultThresholds Hosts.hwDerated [])) in
  let err := PulseFailure (ErrorfW (TxtWrapped (Error_ (Errorf (TxtClock 0 900 1980))))
                                   StragglerDetected)
               (Float64.of_int (Milliseconds worst))
               (Float64.of_int (Milliseconds (thr_straggler defaultThresholds))) "ms" in
  snd (fst (RunPulse defaultThresholds Hosts.hwDerated [])) = Some err
  /\ worst = worstMean defaultThresholds Hosts.hwDerated
  /\ reasonLabel (sentinelOf err) = "latency_threshold_exceeded"
  /\ Milliseconds worst <= Milliseconds (thr_straggler defaultThresholds).
Proof.
  apply (clock_failure_is_reported_as_latency defaultThresholds Hosts.hwDerated
           (Errorf (TxtClock 0 900 1980)));
    vm_compute; try reflexivity; discriminate.
Defined.

End StageFacts.

(* ===================================================================== *)
(** ** The benchmark command: runs, summary, scenarios *)
(* ===================================================================== *)

Module BenchmarkFacts.

Import Time Pulse Evidence Benchmark Int64Facts Float64Facts HalfFacts.

(** *** [execute] *)

Lemma execute_loop_map fn : forall todo i k results,
  execute_loop fn todo i k results
  = (results ++ List.map (fun j => record (i + Z.of_nat j) (fn (k + j)%nat))
                         (seq 0 todo))%list.
Proof.
  induction todo as [|todo IH]; intros i k results; cbn [execute_loop seq List.map].
  - rewrite app_nil_r. reflexivity.
  - rewrite IH, <- app_assoc. cbn [app]. rewrite Z.add_0_r, Nat.add_0_r.
    do 2 f_equal. rewrite <- seq_shift, List.map_map.
    apply List.map_ext. intros j. f_equal; [lia | f_equal; lia].
Qed.

(** *** [summarize] *)

Lemma summarize_fold runs : forall s,
  let s' :=
    fold_left
      (fun s r =>
         let s :=
           if String.eqb (Verdict r) "pass"
           then {| Total := Total s; Passed := Passed s + 1; Failed := Failed s;
                   WorstElapsedMS := WorstElapsedMS s;
                   SummaryVerdict := SummaryVerdict s |}
           else {| Total := Total s; Passed := Passed s; Failed := Failed s + 1;
                   WorstElapsedMS := WorstElapsedMS s;
                   SummaryVerdict := SummaryVerdict s |} in
         if WorstElapsedMS s <? ElapsedMS r
         then {| Total := Total s; Passed := Passed s; Failed := Failed s;
                 WorstElapsedMS := ElapsedMS r;
                 SummaryVerdict := SummaryVerdict s |}
         else s)
      runs s in
  Total s' = Total s
  /\ Passed s' = Passed s + Z.of_nat (length (List.filter passed runs))
  /\ Failed s' = Failed s
                 + Z.of_nat (length (List.filter (fun r => negb (passed r)) runs))
  /\ WorstElapsedMS s'
     = fold_left (fun w r => Z.max w (ElapsedMS r)) runs (WorstElapsedMS s).
Proof.
  induction runs as [|r runs IH]; intros s; cbv zeta; cbn [fold_left List.filter length].
  - repeat split; lia.
  - match goal with |- context [fold_left ?f runs ?s0] =>
      specialize (IH s0); cbv zeta in IH; destruct IH as (T & P & F & W) end.
    rewrite T, P, F, W. clear T P F W. unfold passed.
    destruct (String.eqb (Verdict r) "pass"); cbn [negb length];
      cbn [Total Passed Failed WorstElapsedMS];
      destruct (Z.ltb_spec (WorstElapsedMS s) (ElapsedMS r));
      cbn [Total Passed Failed WorstElapsedMS];
      (split; [reflexivity|]); (split; [lia|]); (split; [lia|]); f_equal; lia.
Qed.

Lemma fold_max_spec (runs : list runResult) : forall w,
  let m := fold_left (fun w r => Z.max w (ElapsedMS r)) runs w in
  w <= m /\ Forall (fun r => ElapsedMS r <= m) runs
  /\ (m = w \/ exists r, In r runs /\ ElapsedMS r = m).
Proof.
  induction runs as [|r runs IH]; intros w; cbv zeta; cbn [fold_left].
  - split; [lia|]. split; [constructor | left; reflexivity].
  - specialize (IH (Z.max w (ElapsedMS r))). cbv zeta in IH.
    destruct IH as (L & F & E). split; [lia|]. split.
    + constructor; [lia | exact F].
    + destruct E as [E | (r' & Hin & E)].
      * destruct (Z.max_spec w (ElapsedMS r)) as [[_ M]|[_ M]].
        -- right. exists r. split; [left; reflexivity | rewrite E; lia].
        -- left. rewrite E. exact M.
      * right. exists r'. split; [right; exact Hin | exact E].
Qed.

Lemma filter_none {A} (f : A -> bool) (l : list A) :
  length (List.filter f l) = 0%nat <-> Forall (fun a => f a = false) l.
Proof.
  induction l as [|a l IH]; cbn [List.filter].
  - split; [constructor | reflexivity].
  - destruct (f a) eqn:E; cbn [length].
    + split; [discriminate | intros H; inversion H; congruence].
    + rewrite IH. split; [intros H; constructor; assumption | intros H; inversion H; assumption].
Qed.

Lemma filter_some {A} (f : A -> bool) (l : list A) :
  length (List.filter f l) <> 0%nat -> exists a, In a l /\ f a = true.
Proof.
  induction l as [|a l IH]; cbn [List.filter]; [intros H; contradiction|].
  destruct (f a) eqn:E.
  - intros _. exists a. split; [left; reflexivity | exact E].
  - intros H. destruct (IH H) as (b & Hin & Hb). exists b. split; [right|]; assumption.
Qed.

Lemma summarize_eqs runs :
  let s := summarize runs in
  Total s = Z.of_nat (length runs)
  /\ Passed s = Z.of_nat (length (List.filter passed runs))
  /\ Failed s = Z.of_nat (length (List.filter (fun r => negb (passed r)) runs))
  /\ WorstElapsedMS s = fold_left (fun w r => Z.max w (ElapsedMS r)) runs 0
  /\ SummaryVerdict s = if 0 <? Failed s then "STRAGGLER" else "HEALTHY".
Proof.
  cbv zeta. unfold summarize.
  match goal with |- context [fold_left ?f runs ?s0] =>
    pose proof (summarize_fold runs s0) as H; cbv zeta in H;
    destruct H as (T & P & F & W); set (s' := fold_left f runs s0) in * end.
  cbn [Total Passed Failed WorstElapsedMS SummaryVerdict] in *.
  rewrite T, P, F, W. repeat split.
Qed.

Lemma failed_pass runs :
  length (List.filter (fun r => negb (passed r)) runs) = 0%nat
  <-> Forall (fun r => Verdict r = "pass") runs.
Proof.
  rewrite filter_none. apply Forall_iff. intros r. unfold passed.
  rewrite negb_false_iff. apply String.eqb_eq.
Qed.

(** X17. [summarize]. The total is the number of runs, and every run is
    counted once, as passed when its verdict is "pass" and as failed
    otherwise. The verdict of the summary is "HEALTHY" exactly when every
    run passed (so it is for no runs at all) and "STRAGGLER" exactly when
    some run did not. The worst elapsed time is never negative, is at least
    the elapsed time of every run, and is 0 or the elapsed time of one of
    the runs. *)
Theorem summarize_counts runs :
  let s := summarize runs in
  Total s = Z.of_nat (length runs)
  /\ Passed s = Z.of_nat (length (List.filter passed runs))
  /\ Passed s + Failed s = Total s
  /\ (SummaryVerdict s = "HEALTHY" <-> Forall (fun r => Verdict r = "pass") runs)
  /\ (SummaryVerdict s = "STRAGGLER"
      <-> exists r, In r runs /\ Verdict r <> "pass")
  /\ 0 <= WorstElapsedMS s
  /\ Forall (fun r => ElapsedMS r <= WorstElapsedMS s) runs
  /\ (WorstElapsedMS s = 0
      \/ exists r, In r runs /\ ElapsedMS r = WorstElapsedMS s).
Proof.
  cbv zeta. destruct (summarize_eqs runs) as (T & P & F & W & V). cbv zeta in *.
  pose proof (fold_max_spec runs 0) as (M0 & MF & ME). cbv zeta in M0, MF, ME.
  rewrite <- W in M0, MF, ME.
  pose proof (List.filter_length passed runs) as FL.
  pose proof (failed_pass runs) as HF.
  split; [exact T|]. split; [exact P|]. split; [lia|]. rewrite V. split; [|split].
  - rewrite <- HF. destruct (Z.ltb_spec 0 (Failed (summarize runs)));
      split; try discriminate; try lia. reflexivity.
  - destruct (Z.ltb_spec 0 (Failed (summarize runs))) as [Hpos|Hz].
    + split; [intros _|reflexivity].
      destruct (filter_some (fun r => negb (passed r)) runs) as (r & Hin & Hr); [lia|].
      exists r. split; [exact Hin|]. unfold passed in Hr.
      apply negb_true_iff, String.eqb_neq in Hr. exact Hr.
    + split; [discriminate|]. intros (r & Hin & Hr).
      assert (E0 : length (List.filter (fun r => negb (passed r)) runs) = 0%nat) by lia.
      apply HF in E0. rewrite Forall_forall in E0. exfalso.
      apply Hr, E0, list_elem_of_In, Hin.
  - split; [exact M0|]. split; [exact MF | exact ME].
Qed.

(** *** [main] *)

Lemma scenarios_lookup real thr name :
  scenarios real thr !! name
  = if String.eqb name "real" then Some real
    else if String.eqb name "healthy" then Some (healthy thr)
    else if String.eqb name "straggler" then Some (straggler thr)
    else if String.eqb name "high-variance" then Some (highVariance thr)
    else if String.eqb name "p2p-degraded" then Some p2pDegraded
    else None.
Proof.
  unfold scenarios.
  destruct (String.eqb_spec name "real") as [->|N1]; [apply lookup_insert_eq|].
  rewrite lookup_insert_ne by congruence.
  destruct (String.eqb_spec name "healthy") as [->|N2]; [apply lookup_insert_eq|].
  rewrite lookup_insert_ne by congruence.
  destruct (String.eqb_spec name "straggler") as [->|N3]; [apply lookup_insert_eq|].
  rewrite lookup_insert_ne by congruence.
  destruct (String.eqb_spec name "high-variance") as [->|N4]; [apply lookup_insert_eq|].
  rewrite lookup_insert_ne by congruence.
  destruct (String.eqb_spec name "p2p-degraded") as [->|N5]; [apply lookup_singleton_eq|].
  apply lookup_singleton_ne. congruence.
Qed.

Lemma execute_map room fn count :
  0 <= count -> count * runResultSize <= maxAlloc -> count <= room ->
  execute room fn count
  = Some (List.map (fun k => record (Z.of_nat k + 1) (fn k)) (seq 0 (Z.to_nat count))).
Proof.
  intros H Ha Hr. unfold execute.
  rewrite (proj2 (Z.ltb_ge _ _) H), (proj2 (Z.ltb_ge _ _) Ha), (proj2 (Z.ltb_ge _ _) Hr).
  cbn [orb]. rewrite execute_loop_map. cbn [app]. f_equal.
  apply List.map_ext. intros k. f_equal. lia.
Qed.

Lemma forallb_false {A} (f : A -> bool) (l : list A) :
  forallb f l = false -> exists x, In x l /\ f x = false.
Proof.
  induction l as [|a l IH]; cbn [forallb]; [discriminate|].
  destruct (f a) eqn:E; cbn [andb].
  - intros H. destruct (IH H) as (x & Hin & Hx). exists x. split; [right|]; assumption.
  - intros _. exists a. split; [left; reflexivity | exact E].
Qed.

Lemma execute_dies room fn count :
  count < 0 \/ maxAlloc < count * runResultSize \/ room < count ->
  execute room fn count = None.
Proof.
  intros H. unfold execute.
  destruct (Z.ltb_spec count 0); [reflexivity|].
  destruct (Z.ltb_spec maxAlloc (count * runResultSize)); [reflexivity|].
  destruct (Z.ltb_spec room count); [reflexivity | lia].
Qed.

Lemma record_verdict i res :
  Run (record i res) = i
  /\ ElapsedMS (record i res) = Milliseconds (fst res)
  /\ Verdict (record i res) = match snd res with None => "pass" | Some _ => "fail" end.
Proof.
  destruct res as [elapsed [e|]]; cbn [record fst snd]; [|repeat split].
  destruct (errors_As e) as [[[m t] u]|]; repeat split.
Qed.

(** X18. The benchmark command. It prints a report only for one of the
    five scenario names, a count of at least 1 and a capacity of [count]
    runs that the run-time and the host can allocate. The report then
    names the scenario, has one run for each of the [count] invocations of
    the scenario, in order and numbered from 1, each with the elapsed time
    in whole milliseconds and the verdict "pass" exactly when the
    invocation returned no error; its summary counts [count] runs and its
    verdict is "STRAGGLER" exactly when some invocation returned an error.
    For a known scenario and a count of at least 1 the process dies
    exactly when the capacity is more than [maxAlloc] bytes (a count above
    3518437208883, which the command does not reject: [make] panics
    before the first run) or the count is more than the host has the
    memory for; [execute] alone also panics on a negative count. The
    command exits with status 1 only for an unknown scenario, a count
    below 1, or a run whose evidence the JSON encoder refuses. *)
Theorem main_reports_every_run h name count :
  match main h name count with
  | Exit1 _ =>
      scenarios (host_real h) (host_thresholdMS h) !! name = None
      \/ count < 1
      \/ exists fn k,
           scenarios (host_real h) (host_thresholdMS h) !! name = Some fn
           /\ (k < Z.to_nat count)%nat
           /\ encodable (MeasuredValue (record (Z.of_nat k + 1) (fn k)))
               && encodable (ThresholdValue (record (Z.of_nat k + 1) (fn k))) = false
  | Crashed =>
      (exists fn, scenarios (host_real h) (host_thresholdMS h) !! name = Some fn)
      /\ 1 <= count
      /\ (maxAlloc < count * runResultSize \/ host_room h < count)
  | Printed r =>
      exists fn,
        scenarios (host_real h) (host_thresholdMS h) !! name = Some fn
        /\ In name ["real"; "healthy"; "straggler"; "high-variance"; "p2p-degraded"]
        /\ 1 <= count /\ fits h count
        /\ Scenario r = name
        /\ Runs r = List.map (fun k => record (Z.of_nat k + 1) (fn k))
                             (seq 0 (Z.to_nat count))
        /\ (forall k run, Runs r !! k = Some run ->
              Run run = Z.of_nat k + 1
              /\ ElapsedMS run = Milliseconds (fst (fn k))
              /\ (Verdict run = "pass" <-> snd (fn k) = None))
        /\ Total (Summary r) = count
        /\ (SummaryVerdict (Summary r) = "STRAGGLER"
            <-> exists k, (k < Z.to_nat count)%nat /\ snd (fn k) <> None)
  end
  /\ (forall fn,
        scenarios (host_real h) (host_thresholdMS h) !! name = Some fn ->
        1 <= count ->
        maxAlloc < count * runResultSize \/ host_room h < count ->
        main h name count = Crashed)
  /\ (forall room fn, count < 0 -> execute room fn count = None)
  /\ maxAlloc / runResultSize = 3518437208883.
Proof.
  split; [|split; [|split; [|reflexivity]]].
  3:{ intros room fn H. apply execute_dies. left. exact H. }
  2:{ intros fn ES H1 H. unfold main. unfold scenario in *. rewrite ES.
      rewrite (proj2 (Z.ltb_ge _ _) H1), execute_dies; [reflexivity|].
      right. exact H. }
  unfold main.
  destruct (scenarios (host_real h) (host_thresholdMS h) !! name) as [fn|] eqn:ES;
    [|left; reflexivity].
  destruct (Z.ltb_spec count 1) as [|Hc]; [right; left; assumption|].
  destruct (Z.ltb_spec maxAlloc (count * runResultSize)) as [Ha|Ha].
  { rewrite execute_dies by (right; left; exact Ha).
    split; [eauto|]. split; [exact Hc|]. left. exact Ha. }
  destruct (Z.ltb_spec (host_room h) count) as [Hroom|Hroom].
  { rewrite execute_dies by (right; right; exact Hroom).
    split; [eauto|]. split; [exact Hc|]. right. exact Hroom. }
  rewrite execute_map by lia.
  set (runs := List.map (fun k => record (Z.of_nat k + 1) (fn k)) (seq 0 (Z.to_nat count))).
  destruct (forallb (fun r => encodable (MeasuredValue r) && encodable (ThresholdValue r))
                    runs) eqn:Enc.
  2:{ right. right. exists fn.
      apply forallb_false in Enc as (run & Hin & Hrun).
      unfold runs in Hin. apply in_map_iff in Hin as (k & <- & Hk).
      apply in_seq in Hk. exists k. split; [reflexivity|]. split; [lia | exact Hrun]. }
  assert (Hlook : forall k run, runs !! k = Some run ->
            (k < Z.to_nat count)%nat /\ run = record (Z.of_nat k + 1) (fn k)).
  { intros k run H. unfold runs in H. rewrite list_lookup_fmap in H.
    destruct (seq 0 (Z.to_nat count) !! k) as [j|] eqn:Ej; [|discriminate].
    apply lookup_seq in Ej as [-> Hk]. cbn in H. injection H as <-.
    split; [exact Hk | reflexivity]. }
  exists fn. cbn [Scenario Runs Summary].
  split; [reflexivity|]. split.
  { rewrite scenarios_lookup in ES. cbn [In].
    destruct (String.eqb_spec name "real"); [auto|].
    destruct (String.eqb_spec name "healthy"); [auto|].
    destruct (String.eqb_spec name "straggler"); [auto|].
    destruct (String.eqb_spec name "high-variance"); [auto 6|].
    destruct (String.eqb_spec name "p2p-degraded"); [auto 6 | discriminate]. }
  split; [exact Hc|]. split; [split; [exact Ha | exact Hroom]|].
  split; [reflexivity|]. split; [reflexivity|].
  destruct (summarize_eqs runs) as (T & _ & F & _ & V). cbv zeta in T, F, V.
  split; [|split].
  - intros k run H. apply Hlook in H as [_ ->].
    destruct (record_verdict (Z.of_nat k + 1) (fn k)) as (R & E & Vk).
    split; [exact R|]. split; [exact E|]. rewrite Vk.
    destruct (snd (fn k)); split; try discriminate; reflexivity.
  - rewrite T. unfold runs. rewrite length_map, length_seq. lia.
  - rewrite V. destruct (Z.ltb_spec 0 (Failed (summarize runs))) as [Hpos|Hz].
    + split; [intros _|reflexivity].
      destruct (filter_some (fun r => negb (passed r)) runs) as (run & Hin & Hr); [lia|].
      apply list_elem_of_In, list_elem_of_lookup in Hin as [k Hk].
      apply Hlook in Hk as [Hk ->]. exists k. split; [exact Hk|].
      destruct (record_verdict (Z.of_nat k + 1) (fn k)) as (_ & _ & Vk).
      unfold passed in Hr. rewrite Vk in Hr.
      destruct (snd (fn k)); [discriminate | discriminate Hr].
    + split; [discriminate|]. intros (k & Hk & He). exfalso.
      assert (E0 : length (List.filter (fun r => negb (passed r)) runs) = 0%nat) by lia.
      apply failed_pass in E0. rewrite Forall_forall in E0.
      specialize (E0 (record (Z.of_nat k + 1) (fn k))).
      destruct (record_verdict (Z.of_nat k + 1) (fn k)) as (_ & _ & Vk).
      rewrite Vk in E0. destruct (snd (fn k)); [|contradiction].
      assert (D : "fail" = "pass"); [|discriminate D].
      apply E0, list_elem_of_In. unfold runs. apply in_map_iff.
      exists k. split; [reflexivity|]. apply in_seq. lia.
Qed.

(** *** The simulated scenarios *)

Lemma of_int_encodable (n : Z) :
  0 <= n < 2 ^ 53 -> encodable (Float64.of_int n) = true.
Proof.
  intros [H0 H1]. destruct n as [|p|p]; [reflexivity | | lia].
  assert (Hd : Zpos (digits2_pos p) <= 53).
  { pose proof (digits2_pos_bound p) as B.
    destruct (Z.le_gt_cases (Zpos (digits2_pos p)) 53) as [|G]; [assumption|].
    assert (2 ^ 53 <= 2 ^ (Zpos (digits2_pos p) - 1))
      by (apply Z.pow_le_mono_r; lia).
    lia. }
  destruct (of_int_exact p Hd) as (mz & ez & -> & _). reflexivity.
Qed.

Lemma uniform_runs (l : list runResult) (v : string) (e : Z) :
  l <> [] -> Forall (fun run => Verdict run = v /\ ElapsedMS run = e) l ->
  length (List.filter passed l) = (if String.eqb v "pass" then length l else 0%nat)
  /\ length (List.filter (fun r => negb (passed r)) l)
     = (if String.eqb v "pass" then 0%nat else length l)
  /\ fold_left (fun w r => Z.max w (ElapsedMS r)) l 0 = Z.max 0 e.
Proof.
  intros Hne F.
  assert (G : forall w, l <> [] ->
            fold_left (fun w r => Z.max w (ElapsedMS r)) l w = Z.max w e).
  { clear Hne. induction F as [|r l [_ Hr] _ IH]; intros w Hne; [contradiction|].
    cbn [fold_left]. rewrite Hr. destruct l as [|r' l]; [reflexivity|].
    rewrite IH by discriminate. lia. }
  split; [|split; [|apply G, Hne]].
  - clear Hne G. induction F as [|r l [Hr _] _ IH]; [destruct (String.eqb v "pass"); reflexivity|].
    cbn [List.filter length]. unfold passed at 1. rewrite Hr.
    destruct (String.eqb v "pass"); cbn [length]; rewrite IH; reflexivity.
  - clear Hne G. induction F as [|r l [Hr _] _ IH]; [destruct (String.eqb v "pass"); reflexivity|].
    cbn [List.filter length]. unfold passed at 1. rewrite Hr.
    destruct (String.eqb v "pass"); cbn [negb length]; rewrite IH; reflexivity.
Qed.

(** The report of a scenario that returns the same every time. *)
Lemma main_constant h name count fn res :
  scenarios (host_real h) (host_thresholdMS h) !! name = Some fn ->
  (forall k, fn k = res) -> 1 <= count -> fits h count ->
  encodable (MeasuredValue (record 0 res)) = true ->
  encodable (ThresholdValue (record 0 res)) = true ->
  exists r, main h name count = Printed r
    /\ Forall (fun run => MeasuredValue run = MeasuredValue (record 0 res)
                          /\ ThresholdValue run = ThresholdValue (record 0 res)
                          /\ Unit run = Unit (record 0 res)) (Runs r)
    /\ Total (Summary r) = count
    /\ Passed (Summary r) = match snd res with None => count | Some _ => 0 end
    /\ Failed (Summary r) = match snd res with None => 0 | Some _ => count end
    /\ SummaryVerdict (Summary r)
       = match snd res with None => "HEALTHY" | Some _ => "STRAGGLER" end
    /\ WorstElapsedMS (Summary r) = Z.max 0 (Milliseconds (fst res)).
Proof.
  intros ES Hfn Hc [Ha Hr] Em Et. unfold main. unfold scenario in *. rewrite ES.
  rewrite (proj2 (Z.ltb_ge _ _) Hc), execute_map by lia.
  set (runs := List.map (fun k => record (Z.of_nat k + 1) (fn k)) (seq 0 (Z.to_nat count))).
  assert (Hrec : forall i, MeasuredValue (record i res) = MeasuredValue (record 0 res)
                           /\ ThresholdValue (record i res) = ThresholdValue (record 0 res)
                           /\ Unit (record i res) = Unit (record 0 res)).
  { intros i. destruct res as [el [e|]]; cbn [record]; [|repeat split].
    destruct (errors_As e) as [[[m t] u]|]; repeat split. }
  assert (Hall : Forall (fun run => exists i, run = record i res) runs).
  { apply Forall_forall. intros run Hin. apply list_elem_of_In, in_map_iff in Hin as (k & <- & _).
    rewrite Hfn. eauto. }
  assert (Hne : runs <> []).
  { unfold runs. destruct (Z.to_nat count) as [|n] eqn:E; [lia | discriminate]. }
  assert (Hlen : Z.of_nat (length runs) = count)
    by (unfold runs; rewrite length_map, length_seq; lia).
  assert (Henc : forallb (fun r => encodable (MeasuredValue r)
                                   && encodable (ThresholdValue r)) runs = true).
  { apply forallb_forall. intros run Hin. rewrite Forall_forall in Hall.
    destruct (Hall run (proj2 (list_elem_of_In _ _) Hin)) as [i ->].
    destruct (Hrec i) as (-> & -> & _). rewrite Em, Et. reflexivity. }
  rewrite Henc. eexists. split; [reflexivity|]. cbn [Runs Summary].
  split.
  { eapply Forall_impl; [exact Hall|]. intros run [i ->]. apply Hrec. }
  destruct (summarize_eqs runs) as (T & P & F & W & V). cbv zeta in T, P, F, W, V.
  destruct (uniform_runs runs
              (match snd res with None => "pass" | Some _ => "fail" end)
              (Milliseconds (fst res)) Hne) as (U1 & U2 & U3).
  { eapply Forall_impl; [exact Hall|]. intros run [i ->].
    destruct (record_verdict i res) as (_ & E & Vr). split; assumption. }
  rewrite V, T, P, F, W, U1, U2, U3.
  destruct (snd res); cbn [String.eqb Ascii.eqb Bool.eqb]; repeat split; try lia.
  - destruct (Z.ltb_spec 0 (Z.of_nat (length runs))); [reflexivity | lia].
Qed.

Lemma ms_exact (a : Z) :
  0 <= a <= 9223372036854 ->
  Int64.mul a Millisecond = a * 1000000
  /\ Milliseconds (a * 1000000) = a.
Proof.
  intros H. unfold Int64.mul, Millisecond, Milliseconds. split.
  - apply wrap_small. unfold Int64.in_range, Int64.min_int, Int64.max_int. lia.
  - apply Z.quot_mul. lia.
Qed.

Lemma floor_scenario (a : Z) :
  0 <= a <= 9223372036854 ->
  Milliseconds (if Int64.mul a Millisecond <? Millisecond
                then Millisecond else Int64.mul a Millisecond)
  = Z.max 1 a.
Proof.
  intros H. destruct (ms_exact a H) as [-> E]. unfold Millisecond.
  destruct (Z.ltb_spec (a * 1000000) 1000000).
  - replace (Z.max 1 a) with 1 by lia. reflexivity.
  - rewrite E. lia.
Qed.

(** X19. The simulated scenarios against the thresholds. For a threshold
    between 1 and 1844674407370 ms and a count of at least 1 whose
    capacity the run-time and the host can allocate, the command prints a
    report for each of the four simulated scenarios. "healthy"
    gives HEALTHY with every run passed and an elapsed time of a quarter of
    the threshold (at least 1 ms), which is within the threshold.
    "straggler" gives STRAGGLER with every run failed, an elapsed time of
    five times the threshold, and the evidence in "ms": five times the
    threshold against the threshold. "high-variance" gives STRAGGLER with
    an elapsed time of a third of the threshold (at least 1 ms), within the
    threshold, and the evidence 0.35 against 0.20 in "cv", whatever the
    configured variance ceiling is. "p2p-degraded" gives STRAGGLER with an
    elapsed time of 0 and the evidence 1.2 against 5.0 in "gbs". *)
Theorem simulated_scenarios_report h count :
  1 <= count -> fits h count -> 1 <= host_thresholdMS h <= 1844674407370 ->
  let thr := host_thresholdMS h in
  (exists r, main h "healthy" count = Printed r
     /\ SummaryVerdict (Summary r) = "HEALTHY"
     /\ Passed (Summary r) = count /\ Failed (Summary r) = 0
     /\ WorstElapsedMS (Summary r) = Z.max 1 (thr / 4)
     /\ WorstElapsedMS (Summary r) <= thr)
  /\ (exists r, main h "straggler" count = Printed r
     /\ SummaryVerdict (Summary r) = "STRAGGLER"
     /\ Passed (Summary r) = 0 /\ Failed (Summary r) = count
     /\ WorstElapsedMS (Summary r) = 5 * thr
     /\ Forall (fun run => MeasuredValue run = Float64.of_int (5 * thr)
                           /\ ThresholdValue run = Float64.of_int thr
                           /\ Unit run = "ms") (Runs r))
  /\ (exists r, main h "high-variance" count = Printed r
     /\ SummaryVerdict (Summary r) = "STRAGGLER"
     /\ Passed (Summary r) = 0 /\ Failed (Summary r) = count
     /\ WorstElapsedMS (Summary r) = Z.max 1 (thr / 3)
     /\ WorstElapsedMS (Summary r) <= thr
     /\ Forall (fun run => MeasuredValue run = lit_0_350
                           /\ ThresholdValue run = Float64.lit_0_20
                           /\ Unit run = "cv") (Runs r)
     /\ Float64.gtb lit_0_350 Float64.lit_0_20 = true)
  /\ (exists r, main h "p2p-degraded" count = Printed r
     /\ SummaryVerdict (Summary r) = "STRAGGLER"
     /\ Passed (Summary r) = 0 /\ Failed (Summary r) = count
     /\ WorstElapsedMS (Summary r) = 0
     /\ Forall (fun run => MeasuredValue run = lit_1_20
                           /\ ThresholdValue run = Float64.lit_5_0
                           /\ Unit run = "gbs") (Runs r)
     /\ Float64.ltb lit_1_20 Float64.lit_5_0 = true).
Proof.
  intros Hc Hfit Hthr. cbv zeta. set (thr := host_thresholdMS h) in *.
  assert (Q4 : Z.quot thr 4 = thr / 4) by (apply Z.quot_div_nonneg; lia).
  assert (Q3 : Z.quot thr 3 = thr / 3) by (apply Z.quot_div_nonneg; lia).
  assert (D4 : 0 <= thr / 4 <= thr)
    by (split; [apply Z.div_pos; lia | apply Z.div_le_upper_bound; lia]).
  assert (D3 : 0 <= thr / 3 <= thr)
    by (split; [apply Z.div_pos; lia | apply Z.div_le_upper_bound; lia]).
  assert (M5 : Int64.mul thr 5 = 5 * thr).
  { unfold Int64.mul. rewrite wrap_small; [lia|].
    unfold Int64.in_range, Int64.min_int, Int64.max_int. lia. }
  split; [|split; [|split]].
  - destruct (main_constant h "healthy" count (healthy thr) (healthy thr 0%nat))
      as (r & E & _ & _ & P & F & V & W);
      [rewrite scenarios_lookup; reflexivity | reflexivity | exact Hc | exact Hfit
       | reflexivity | reflexivity |].
    exists r. cbn [healthy fst snd] in P, F, V, W.
    rewrite Q4, floor_scenario in W by lia.
    repeat split; try assumption; lia.
  - destruct (main_constant h "straggler" count (straggler thr) (straggler thr 0%nat))
      as (r & E & Fr & _ & P & F & V & W);
      [rewrite scenarios_lookup; reflexivity | reflexivity | exact Hc | exact Hfit | | |].
    + cbn [straggler record errors_As MeasuredValue]. rewrite M5.
      apply of_int_encodable. lia.
    + cbn [straggler record errors_As ThresholdValue]. apply of_int_encodable. lia.
    + exists r. cbn [straggler fst snd record errors_As MeasuredValue ThresholdValue Unit]
        in P, F, V, W, Fr.
      rewrite M5 in W, Fr.
      destruct (ms_exact (5 * thr)) as [E1 E2]; [lia|]. rewrite E1, E2 in W.
      repeat split; try assumption; lia.
  - destruct (main_constant h "high-variance" count (highVariance thr)
                (highVariance thr 0%nat))
      as (r & E & Fr & _ & P & F & V & W);
      [rewrite scenarios_lookup; reflexivity | reflexivity | exact Hc | exact Hfit
       | reflexivity | reflexivity |].
    exists r.
    cbn [highVariance fst snd record errors_As MeasuredValue ThresholdValue Unit]
      in P, F, V, W, Fr.
    rewrite Q3, floor_scenario in W by lia.
    repeat split; try assumption; lia.
  - destruct (main_constant h "p2p-degraded" count p2pDegraded (p2pDegraded 0%nat))
      as (r & E & Fr & _ & P & F & V & W);
      [rewrite scenarios_lookup; reflexivity | reflexivity | exact Hc | exact Hfit
       | reflexivity | reflexivity |].
    exists r.
    cbn [p2pDegraded fst snd record errors_As MeasuredValue ThresholdValue Unit]
      in P, F, V, W, Fr.
    repeat split; assumption.
Qed.

Lemma simulated_scenarios_report_witness :
  let thr := host_thresholdMS hostA100 in
  (exists r, main hostA100 "healthy" 3 = Printed r
     /\ SummaryVerdict (Summary r) = "HEALTHY"
     /\ Passed (Summary r) = 3 /\ Failed (Summary r) = 0
     /\ WorstElapsedMS (Summary r) = Z.max 1 (thr / 4)
     /\ WorstElapsedMS (Summary r) <= thr)
  /\ (exists r, main hostA100 "straggler" 3 = Printed r
     /\ SummaryVerdict (Summary r) = "STRAGGLER"
     /\ Passed (Summary r) = 0 /\ Failed (Summary r) = 3
     /\ WorstElapsedMS (Summary r) = 5 * thr
     /\ Forall (fun run => MeasuredValue run = Float64.of_int (5 * thr)
                           /\ ThresholdValue run = Float64.of_int thr
                           /\ Unit run = "ms") (Runs r))
  /\ (exists r, main hostA100 "high-variance" 3 = Printed r
     /\ SummaryVerdict (Summary r) = "STRAGGLER"
     /\ Passed (Summary r) = 0 /\ Failed (Summary r) = 3
     /\ WorstElapsedMS (Summary r) = Z.max 1 (thr / 3)
     /\ WorstElapsedMS (Summary r) <= thr
     /\ Forall (fun run => MeasuredValue run = lit_0_350
                           /\ ThresholdValue run = Float64.lit_0_20
                           /\ Unit run = "cv") (Runs r)
     /\ Float64.gtb lit_0_350 Float64.lit_0_20 = true)
  /\ (exists r, main hostA100 "p2p-degraded" 3 = Printed r
     /\ SummaryVerdict (Summary r) = "STRAGGLER"
     /\ Passed (Summary r) = 0 /\ Failed (Summary r) = 3
     /\ WorstElapsedMS (Summary r) = 0
     /\ Forall (fun run => MeasuredValue run = lit_1_20
                           /\ ThresholdValue run = Float64.lit_5_0
                           /\ Unit run = "gbs") (Runs r)
     /\ Float64.ltb lit_1_20 Float64.lit_5_0 = true).
Proof.
  apply (simulated_scenarios_report hostA100 3).
  - lia.
  - unfold fits, runResultSize, maxAlloc. cbn [host_room hostA100]. lia.
  - cbn [host_thresholdMS hostA100]. lia.
Defined.

End BenchmarkFacts.

(* ===================================================================== *)
(** ** The agent: reconnecting and edge detection *)
(* ===================================================================== *)

Module AgentFacts.

Import Time K8s Agent Int64Facts.

(** *** [run] *)





(** Eight rounds of a watch that the server closes, without cancellation. *)
Example eight_rounds :
  List.map Milliseconds
    (waits (snd (run (repeat {| watchFailed := false; cancelledAfterWatch := false;
                                cancelledInWait := false |} 8))))
  = [1000; 2000; 4000; 8000; 16000; 30000; 30000; 30000].
Proof. vm_compute. reflexivity. Qed.

(** *** [watchOnce] *)

Lemma rising_cons b e evs j :
  rising b (e :: evs) j
  <-> (j = 0%nat /\ readiness e = Some true /\ b = false)
      \/ (exists j', j = S j' /\ rising (default b (readiness e)) evs j').
Proof.
  unfold rising. split.
  - intros ((x & Hx & Rx) & H2 & H3). destruct j as [|j'].
    + left. cbn in Hx. injection Hx as <-. split; [reflexivity|]. split; [exact Rx|].
      destruct b; [|reflexivity]. destruct (H2 eq_refl) as (m & _ & Hm & _). lia.
    + right. exists j'. split; [reflexivity|]. cbn in Hx. split; [eauto|]. split.
      * intros Hb. destruct (readiness e) as [[|]|] eqn:Re; cbn [default] in Hb.
        -- destruct (H3 0%nat e ltac:(lia) eq_refl Re) as (m' & y' & Hm' & L & R).
           destruct m' as [|m'']; [lia|]. cbn in L. exists m'', y'.
           split; [lia|]. split; assumption.
        -- discriminate.
        -- destruct (H2 Hb) as (m & y & Hm & L & R). destruct m as [|m''].
           ++ cbn in L. injection L as <-. congruence.
           ++ cbn in L. exists m'', y. split; [lia|]. split; assumption.
      * intros m y Hm L R.
        destruct (H3 (S m) y ltac:(lia) L R) as (m' & y' & Hm' & L' & R').
        destruct m' as [|m'']; [lia|]. cbn in L'. exists m'', y'.
        split; [lia|]. split; assumption.
  - intros [(-> & Re & ->) | (j' & -> & (x & Hx & Rx) & H2 & H3)].
    + split; [exists e; split; [reflexivity | exact Re]|].
      split; [discriminate | intros m y Hm; lia].
    + split; [exists x; split; [exact Hx | exact Rx]|]. split.
      * intros Hb. destruct (readiness e) as [[|]|] eqn:Re; cbn [default] in H2.
        -- destruct (H2 eq_refl) as (m & y & Hm & L & R).
           exists (S m), y. split; [lia|]. split; assumption.
        -- exists 0%nat, e. split; [lia|]. split; [reflexivity | exact Re].
        -- destruct (H2 Hb) as (m & y & Hm & L & R).
           exists (S m), y. split; [lia|]. split; assumption.
      * intros m y Hm L R. destruct m as [|m0].
        -- cbn in L. injection L as <-. rewrite R in H2. cbn [default] in H2.
           destruct (H2 eq_refl) as (m & y' & Hm' & L' & R').
           exists (S m), y'. split; [lia|]. split; assumption.
        -- cbn in L. destruct (H3 m0 y ltac:(lia) L R) as (m' & y' & Hm' & L' & R').
           exists (S m'), y'. split; [lia|]. split; assumption.
Qed.

Lemma rising_nil b j : ~ rising b [] j.
Proof. intros ((x & Hx & _) & _). discriminate. Qed.

Lemma watch_loop_spec stream : forall b i sp k,
  In k (snd (watch_loop b i stream sp))
  <-> In k sp \/ exists j, k = (i + j)%nat /\ rising b (live stream) j.
Proof.
  assert (Nil : forall b i sp k,
            In k sp <-> In k sp \/ exists j, k = (i + j)%nat /\ rising b [] j).
  { intros b i sp k. split; [auto|]. intros [H|(j & _ & H)]; [exact H|].
    destruct (rising_nil _ _ H). }
  induction stream as [|e rest IH]; intros b i sp k; [apply Nil|].
  assert (Skip : readiness e = None ->
            (In k (snd (watch_loop b (S i) rest sp))
             <-> In k sp \/ exists j, k = (i + j)%nat /\ rising b (e :: live rest) j)).
  { intros Re. rewrite IH. split; intros [H|(j & -> & H)]; try (left; exact H); right.
    - exists (S j). split; [lia|]. apply rising_cons. right. exists j.
      rewrite Re. split; [reflexivity | exact H].
    - apply rising_cons in H as [(_ & C & _)|(j' & -> & H)]; [congruence|].
      rewrite Re in H. exists j'. split; [lia | exact H]. }
  destruct e as [| |ty obj]; [apply Nil | apply Nil |].
  cbn [watch_loop live].
  assert (Take : forall n, readiness (Ev ty (ObjNode n)) = Some (IsNodeReady n) ->
            (In k (snd (watch_loop (IsNodeReady n) (S i) rest
                          (if IsNodeReady n && negb b then sp ++ [i] else sp)%list))
             <-> In k sp \/ exists j, k = (i + j)%nat
                              /\ rising b (Ev ty (ObjNode n) :: live rest) j)).
  { intros n Re. rewrite IH. split.
    - intros [H|(j & -> & H)].
      + destruct (IsNodeReady n) eqn:Rn, b; cbn [andb negb] in H; try (left; exact H).
        apply in_app_iff in H as [H|[<-|[]]]; [left; exact H|].
        right. exists 0%nat. split; [lia|]. apply rising_cons. left.
        rewrite Re. auto.
      + right. exists (S j). split; [lia|]. apply rising_cons. right. exists j.
        rewrite Re. split; [reflexivity | exact H].
    - intros [H|(j & -> & H)].
      + left. destruct (IsNodeReady n && negb b); [apply in_app_iff; left|]; exact H.
      + apply rising_cons in H as [(-> & R1 & ->)|(j' & -> & H)].
        * left. rewrite Re in R1. injection R1 as ->. cbn [andb negb].
          apply in_app_iff. right. left. lia.
        * rewrite Re in H. right. exists j'. split; [lia | exact H]. }
  destruct ty; try (apply Skip; reflexivity);
    (destruct obj as [n|]; [apply Take; reflexivity | apply Skip; reflexivity]).
Qed.

(** X21. Edge detection. A watch that cannot be opened returns the error
    and starts nothing. Otherwise [watchOnce] never returns an error, and it
    starts a reconciliation at exactly the rising edges of readiness among
    the events it receives before the stream closes or the context is
    cancelled: at an Added or Modified event whose node is Ready, when no
    earlier such event showed the node Ready without a later one, still
    before it, showing it not Ready. The first event showing a Ready node
    is therefore an edge in every watch, so every reconnection starts a
    reconciliation of a node that is Ready; events of other types and
    objects that are no nodes are skipped and do not count. Between two
    reconciliations started there is always an event showing the node not
    Ready. *)
Theorem reconcile_on_rising_edge stream :
  watchOnce false stream = (RetErr, [])
  /\ fst (watchOnce true stream) <> RetErr
  /\ (forall k, In k (snd (watchOnce true stream)) <-> rising false (live stream) k)
  /\ (forall k1 k2,
        In k1 (snd (watchOnce true stream)) -> In k2 (snd (watchOnce true stream)) ->
        (k1 < k2)%nat ->
        exists m y, (k1 < m < k2)%nat /\ live stream !! m = Some y
                    /\ readiness y = Some false).
Proof.
  assert (E : forall k, In k (snd (watchOnce true stream))
                        <-> rising false (live stream) k).
  { intros k. unfold watchOnce. rewrite watch_loop_spec. cbn [In Nat.add].
    split; [intros [[]|(j & -> & H)]; exact H | intros H; right; eauto]. }
  split; [reflexivity|]. split; [|split; [exact E|]].
  - unfold watchOnce.
    assert (G : forall s b i sp, fst (watch_loop b i s sp) <> RetErr).
    { induction s as [|e rest IH]; intros b i sp; cbn [watch_loop]; [discriminate|].
      destruct e as [| |ty obj]; try discriminate.
      destruct ty; try apply IH; destruct obj; apply IH. }
    apply G.
  - intros k1 k2 H1 H2 Hlt. apply E in H1 as ((x & Hx & Rx) & _).
    apply E in H2 as (_ & _ & H3). apply (H3 k1 x Hlt Hx Rx).
Qed.

(** On the flapping stream the reconciliation is started at the first
    event and at the fifth, and the watch returns nil at the closing. *)
Example flapping_stream : watchOnce true flapping = (RetNil, [0; 4]%nat).
Proof. vm_compute. reflexivity. Qed.

End AgentFacts.

(* ===================================================================== *)
(** ** Facts: the native library *)
(* ===================================================================== *)

Module NativeFacts.

Import Time Pulse Scenarios Stages Native.

Lemma leak_freeb_sound ops : leak_freeb ops = true -> leak_free ops.
Proof.
  unfold leak_freeb, leak_free. rewrite forallb_forall. intros H b.
  assert (Hb : In b buffers) by (destruct b; cbn; tauto).
  specialize (H b Hb).
  apply andb_true_iff in H as [H H3]. apply andb_true_iff in H as [H1 H2].
  apply Nat.leb_le in H1. apply Nat.eqb_eq in H2.
  split; [exact H1|]. split; [exact H2|].
  intros n. rewrite forallb_forall in H3.
  destruct (le_lt_dec n (length ops)) as [Hn|Hn].
  - apply Nat.leb_le, H3, in_seq. lia.
  - rewrite firstn_all2 by lia. lia.
Qed.

Ltac answers a :=
  destruct a as [sd ma mb ca cb cc ks];
  destruct sd, ma, mb, ca, cb, cc, ks.

(** X22. The return code of [run_gpu_pulse]. It is 0, 1 or 2. It is 0
    exactly when the device could be selected and all five allocations
    succeeded: the results of the copies, of the kernel launches and of
    the synchronisations play no part, so a failed kernel still gives 0.
    It is 2 (GPU_PULSE_ERR_OOM) exactly when the device was selected and a
    host allocation failed; a failed device allocation gives 1
    (GPU_PULSE_ERR_CUDA), as does a device that cannot be selected. The
    kernel is launched twice when the code is 0 and not at all otherwise. *)
Theorem run_gpu_pulse_codes a :
  let rc := fst (run_gpu_pulse a) in
  (rc = GPU_PULSE_OK \/ rc = GPU_PULSE_ERR_CUDA \/ rc = GPU_PULSE_ERR_OOM)
  /\ (rc = GPU_PULSE_OK <-> gemm_ok a = true)
  /\ (rc = GPU_PULSE_ERR_OOM
      <-> setDevice_ok a = true /\ (malloc_A a = false \/ malloc_B a = false))
  /\ (rc = GPU_PULSE_ERR_CUDA
      <-> setDevice_ok a = false
          \/ (malloc_A a = true /\ malloc_B a = true
              /\ (cudaMalloc_A a = false \/ cudaMalloc_B a = false
                  \/ cudaMalloc_C a = false)))
  /\ count Launch (snd (run_gpu_pulse a)) = (if rc =? GPU_PULSE_OK then 2%nat else 0%nat).
Proof.
  answers a; vm_compute; intuition congruence.
Qed.


(** X23. Neither native entry point leaks or releases twice. Whatever the
    runtime answers, every buffer that [run_gpu_pulse] or [run_p2p_check]
    allocated is released exactly once before the call returns, on the
    error paths as on the successful one, and no buffer is released that
    was not allocated before. *)
Theorem native_calls_leak_free :
  (forall a, leak_free (snd (run_gpu_pulse a)))
  /\ (forall a, leak_free (snd (run_p2p_check a))).
Proof.
  split; intros a; apply leak_freeb_sound.
  - answers a; vm_compute; reflexivity.
  - destruct a as [ca ep ms md el]. unfold run_p2p_check.
    cbn [can_access enablePeer cudaMalloc_src cudaMalloc_dst elapsed_ms snd].
    destruct ca, ep, ms, md; reflexivity.
Qed.

(** X24. The return code of [run_p2p_check] and the bandwidth it stores.
    The code is 0, 2 or 3. It is 3 (GPU_PULSE_ERR_P2P) exactly when the
    peer cannot be accessed or peer access cannot be enabled, where
    "already enabled" counts as enabled; otherwise it is 2
    (GPU_PULSE_ERR_OOM) exactly when one of the two device allocations
    failed, and 0 when both succeeded. A bandwidth is stored through the
    pointer exactly when the code is 0, and it is then the transfer size
    of 100 MiB divided by the elapsed time in seconds and by 1e9; on every
    error path the pointer is left untouched. The copy is made twice when
    the code is 0 and never otherwise. *)
Theorem run_p2p_check_codes a :
  let '(rc, written, ops) := run_p2p_check a in
  (rc = GPU_PULSE_OK \/ rc = GPU_PULSE_ERR_OOM \/ rc = GPU_PULSE_ERR_P2P)
  /\ (rc = GPU_PULSE_ERR_P2P <-> peer_ok a = false)
  /\ (rc = GPU_PULSE_ERR_OOM
      <-> peer_ok a = true
          /\ (cudaMalloc_src a = false \/ cudaMalloc_dst a = false))
  /\ (rc = GPU_PULSE_OK
      <-> peer_ok a = true /\ cudaMalloc_src a = true /\ cudaMalloc_dst a = true)
  /\ written = (if rc =? GPU_PULSE_OK then Some (bandwidth a) else None)
  /\ count PeerCopy ops = (if rc =? GPU_PULSE_OK then 2%nat else 0%nat).
Proof.
  destruct a as [ca ep ms md el]. unfold run_p2p_check, peer_ok, bandwidth.
  cbn [can_access enablePeer cudaMalloc_src cudaMalloc_dst elapsed_ms].
  destruct ca, ep, ms, md; cbn [negb andb];
    (split; [unfold GPU_PULSE_OK, GPU_PULSE_ERR_OOM, GPU_PULSE_ERR_P2P; tauto|]);
    (repeat split; try reflexivity; try discriminate; try tauto;
     unfold GPU_PULSE_OK, GPU_PULSE_ERR_OOM, GPU_PULSE_ERR_P2P;
     intuition congruence).
Qed.

(** A healthy link: 100 MiB in 0.5 ms is 209.7152 GB/s, to the nearest double. *)
Example bandwidth_half_millisecond :
  bandwidth {| can_access := true; enablePeer := PeerEnabled;
               cudaMalloc_src := true; cudaMalloc_dst := true;
               elapsed_ms := S754_finite false 4503599627370496 (-53) |}
  = S754_finite false 7378697629483821 (-45).
Proof. vm_compute. reflexivity. Qed.


Lemma gemm_code a :
  fst (run_gpu_pulse a)
  = if gemm_ok a then GPU_PULSE_OK
    else if setDevice_ok a && negb (malloc_A a && malloc_B a)
         then GPU_PULSE_ERR_OOM else GPU_PULSE_ERR_CUDA.
Proof. answers a; reflexivity. Qed.

Lemma p2p_code a :
  fst (run_p2p_check a)
  = if negb (peer_ok a) then (GPU_PULSE_ERR_P2P, None)
    else if negb (cudaMalloc_src a && cudaMalloc_dst a) then (GPU_PULSE_ERR_OOM, None)
    else (GPU_PULSE_OK, Some (bandwidth a)).
Proof.
  destruct a as [ca ep ms md el]. unfold run_p2p_check, peer_ok, bandwidth.
  cbn [can_access enablePeer cudaMalloc_src cudaMalloc_dst elapsed_ms].
  destruct ca, ep, ms, md; reflexivity.
Qed.

(** X25. The Go side on top of the shipped native library. When run [k]
    of a device (counted from 0, below the five) is the first in which a
    checked native call fails, [runDevicePulse] stops there with the time
    of that run and an error whose text is "out of device memory ...
    (rc=2)" exactly when the device was selected and a host allocation
    failed, and "cuda error ... (rc=1)" in every other case, a failed
    device allocation included; the text "gpu_pulse returned code ..." of
    the default branch is never produced. For a link, [checkP2P] reports
    "peer access unavailable" when the peer cannot be accessed or enabled,
    "p2p check rc=2" when a device allocation failed, both with a measured
    value of 0, and otherwise compares the computed bandwidth with the
    minimum. *)
Theorem native_failures_as_reported th rt dev k tr src dst tr' :
  (k < 5)%nat ->
  (forall j, (j < k)%nat -> gemm_ok (rt_gemm rt dev j) = true) ->
  gemm_ok (rt_gemm rt dev k) = false ->
  let a := rt_gemm rt dev k in
  let run := Z.of_nat k + 1 in
  let l := rt_p2p rt src dst in
  let min := thr_p2p th in
  runDevicePulse th (hardwareOf rt) dev tr
  = ((rt_gemm_time rt dev k, Float64.zero,
      Some (Errorf (if setDevice_ok a && negb (malloc_A a && malloc_B a)
                    then TxtOutOfMemory dev run 2
                    else TxtCudaError dev run 1))),
     (tr ++ repeat (EvGemm dev) (S k))%list)
  /\ fst (checkP2P th (hardwareOf rt) src dst tr')
     = (if negb (peer_ok l) then
          Some (PulseFailure
                  (ErrorfW (TxtPeerUnavailable src dst) InterconnectDegraded)
                  Float64.zero min "gbs")
        else if negb (cudaMalloc_src l && cudaMalloc_dst l) then
          Some (PulseFailure
                  (ErrorfW (TxtP2PReturnCode src dst 2) InterconnectDegraded)
                  Float64.zero min "gbs")
        else if Float64.ltb (bandwidth l) min then
          Some (PulseFailure
                  (ErrorfW (TxtBandwidth src dst (bandwidth l) min)
                           InterconnectDegraded)
                  (bandwidth l) min "gbs")
        else None).
Proof.
  intros Hk Hok Hbad. cbv zeta. split.
  - unfold runDevicePulse, bind.
    rewrite (StageFacts.timedRuns_stops (hardwareOf rt) dev k pulseRuns 0 [] tr).
    + cbn [Nat.add hardwareOf hw_gemm fst snd]. rewrite gemm_code, Hbad.
      unfold runError.
      destruct (setDevice_ok (rt_gemm rt dev k)
                && negb (malloc_A (rt_gemm rt dev k) && malloc_B (rt_gemm rt dev k)));
        reflexivity.
    + exact Hk.
    + intros j Hj. cbn [Nat.add hardwareOf hw_gemm fst]. rewrite gemm_code, (Hok j Hj).
      reflexivity.
    + cbn [Nat.add hardwareOf hw_gemm fst]. rewrite gemm_code, Hbad.
      destruct (setDevice_ok (rt_gemm rt dev k)
                && negb (malloc_A (rt_gemm rt dev k) && malloc_B (rt_gemm rt dev k)));
        discriminate.
  - unfold checkP2P, bind, emit. cbn [hardwareOf hw_p2p]. rewrite p2p_code.
    destruct (negb (peer_ok (rt_p2p rt src dst))); [reflexivity|].
    destruct (negb (cudaMalloc_src (rt_p2p rt src dst) && cudaMalloc_dst (rt_p2p rt src dst)));
      reflexivity.
Qed.

Lemma native_failures_as_reported_witness :
  runDevicePulse defaultThresholds (hardwareOf rtDeviceMemory) 0 []
  = ((7 * Millisecond, Float64.zero, Some (Errorf (TxtCudaError 0 3 1))),
     [EvGemm 0; EvGemm 0; EvGemm 0])
  /\ fst (checkP2P defaultThresholds (hardwareOf rtDeviceMemory) 0 1 []) = None.
Proof.
  pose proof (native_failures_as_reported defaultThresholds rtDeviceMemory 0 2 [] 0 1 [])
    as H.
  cbv zeta in H. apply H.
  - lia.
  - intros [|[|j]] Hj; [reflexivity | reflexivity | lia].
  - reflexivity.
Defined.

End NativeFacts.

(* ===================================================================== *)
(** ** Facts: the report of the management utility *)
(* ===================================================================== *)

Module SmiFacts.

Import Pulse Strconv Strings Smi.

(** *** Strings *)

Lemma append_cons (c : ascii) (a b : string) : String c a ++ b = String c (a ++ b).
Proof. reflexivity. Qed.

Lemma append_nil_l (a : string) : "" ++ a = a.
Proof. reflexivity. Qed.

Lemma append_nil_r (s : string) : s ++ "" = s.
Proof.
  induction s as [|c s IH]; [reflexivity|].
  rewrite append_cons. f_equal. exact IH.
Qed.

Lemma append_assoc (a b c : string) : (a ++ b) ++ c = a ++ (b ++ c).
Proof.
  induction a as [|x a IH]; [reflexivity|].
  rewrite !append_cons. f_equal. exact IH.
Qed.

Lemma rev_app_rev_app (f a b : string) :
  String.rev_app (String.rev_app f a) b = String.rev_app a (f ++ b).
Proof.
  revert a b. induction f as [|c f IH]; intros a b; [reflexivity|].
  cbn [String.rev_app]. rewrite IH. reflexivity.
Qed.

Lemma rev_rev_app (f : string) : String.rev (String.rev_app f "") = f.
Proof.
  unfold String.rev. rewrite rev_app_rev_app. cbn [String.rev_app].
  apply append_nil_r.
Qed.

Lemma prefix_app (s rest : string) : String.prefix s (s ++ rest) = true.
Proof.
  induction s as [|c s IH]; [destruct rest; reflexivity|].
  rewrite append_cons. cbn [String.prefix].
  destruct (ascii_dec c c); [exact IH | congruence].
Qed.

Lemma prefix_head (c0 c : ascii) (sep s : string) :
  Ascii.eqb c c0 = false -> String.prefix (String c0 sep) (String c s) = false.
Proof.
  intros H. cbn. destruct (ascii_dec c0 c) as [->|]; [|reflexivity].
  rewrite Ascii.eqb_refl in H. discriminate.
Qed.

(** *** Splitting at a separator whose first byte the pieces lack *)

Section Split.

Variables (c0 : ascii) (sep' : string).
Let sep := String c0 sep'.

Lemma Split_go_skip rest : forall (s cur : string),
  Split_go sep (s ++ rest) (String.length s) cur = Split_go sep rest O cur.
Proof.
  induction s as [|c s IH]; intros cur.
  - reflexivity.
  - rewrite append_cons. cbn [String.length Split_go]. apply IH.
Qed.

Lemma Split_go_piece (f tail : string) : forall cur,
  lacks c0 f = true ->
  Split_go sep (f ++ tail) O cur = Split_go sep tail O (String.rev_app f cur).
Proof.
  induction f as [|c f IH]; intros cur L; [reflexivity|].
  cbn [lacks] in L. apply andb_true_iff in L as [Lc L].
  apply negb_true_iff in Lc.
  rewrite append_cons. cbn [Split_go String.rev_app].
  unfold sep at 1. rewrite (prefix_head c0 c sep' (f ++ tail) Lc).
  apply IH, L.
Qed.

Lemma Split_go_sep (rest cur : string) :
  Split_go sep (sep ++ rest) O cur = String.rev cur :: Split_go sep rest O "".
Proof.
  unfold sep at 2. rewrite append_cons. cbn [Split_go].
  rewrite <- append_cons. fold sep.
  rewrite prefix_app. f_equal.
  replace (String.length sep - 1)%nat with (String.length sep')
    by (unfold sep; cbn [String.length]; lia).
  apply Split_go_skip.
Qed.

Lemma Split_go_end (cur : string) : Split_go sep "" O cur = [String.rev cur].
Proof. reflexivity. Qed.

Lemma Split_join_cons (rest : list string) : forall p,
  Forall (fun f => lacks c0 f = true) (p :: rest) ->
  Split (join sep (p :: rest)) sep = p :: rest.
Proof.
  unfold Split.
  induction rest as [|q rest IH]; intros p H; inversion H as [|? ? Hp Hrest]; subst.
  - cbn [join]. rewrite <- (append_nil_r p) at 1.
    rewrite (Split_go_piece p "" "" Hp), Split_go_end, rev_rev_app. reflexivity.
  - change (join sep (p :: q :: rest)) with (p ++ sep ++ join sep (q :: rest)).
    rewrite (Split_go_piece p _ "" Hp), Split_go_sep, rev_rev_app.
    f_equal. apply IH, Hrest.
Qed.

End Split.

(** *** Trimming *)

Lemma trim_right_cons (c : ascii) (s : string) :
  trim_right s <> "" -> trim_right (String c s) = String c (trim_right s).
Proof.
  intros H. cbn [trim_right]. destruct (trim_right s); [contradiction | reflexivity].
Qed.

Lemma trim_right_app (a b : string) :
  trim_right b <> "" -> trim_right (a ++ b) = a ++ trim_right b.
Proof.
  intros H. induction a as [|c a IH]; [reflexivity|].
  rewrite !append_cons, trim_right_cons; rewrite IH; [reflexivity|].
  destruct a; [exact H | discriminate].
Qed.

Lemma trim_right_app_blank (a b : string) :
  trim_right b = "" -> trim_right (a ++ b) = trim_right a.
Proof.
  intros H. induction a as [|c a IH]; [exact H|].
  rewrite append_cons. cbn [trim_right]. rewrite IH. reflexivity.
Qed.

Lemma trim_left_app (a b : string) :
  a <> "" -> trim_left a = a -> trim_left (a ++ b) = a ++ b.
Proof.
  destruct a as [|c a]; [contradiction|]. intros _ H.
  rewrite append_cons. cbn [trim_left] in *.
  destruct (is_space c); [|reflexivity].
  exfalso. assert (L : forall s, (String.length (trim_left s) <= String.length s)%nat).
  { induction s as [|x s IHs]; cbn [trim_left]; [lia|].
    destruct (is_space x); cbn [String.length]; lia. }
  specialize (L a). rewrite H in L. cbn [String.length] in L. lia.
Qed.

Lemma plain_trim_right (f : string) : plain f = true -> trim_right f = f.
Proof.
  induction f as [|c f IH]; [reflexivity|]. cbn [plain]. intros H.
  apply andb_true_iff in H as [H Hf]. apply andb_true_iff in H as [Hc _].
  apply negb_true_iff in Hc. cbn [trim_right]. rewrite (IH Hf), Hc.
  destruct f; reflexivity.
Qed.

Lemma field_trim_left (f : string) : field_ok f = true -> f <> "" /\ trim_left f = f.
Proof.
  unfold field_ok. destruct f as [|c f]; [discriminate|]. cbn [nonempty plain andb].
  intros H. apply andb_true_iff in H as [H _]. apply andb_true_iff in H as [Hc _].
  apply negb_true_iff in Hc. split; [discriminate|]. cbn [trim_left]. rewrite Hc.
  reflexivity.
Qed.

Lemma field_trimmed (f : string) : field_ok f = true -> TrimSpace f = f.
Proof.
  intros H. unfold TrimSpace. rewrite (proj2 (field_trim_left f H)).
  apply plain_trim_right. unfold field_ok in H. apply andb_true_iff in H as [_ H].
  exact H.
Qed.

Lemma lacks_app (c : ascii) (a b : string) :
  lacks c (a ++ b) = lacks c a && lacks c b.
Proof.
  induction a as [|x a IH]; [reflexivity|].
  rewrite append_cons. cbn [lacks]. rewrite IH, andb_assoc. reflexivity.
Qed.

Lemma plain_lacks (c : ascii) (f : string) :
  (is_space c || Ascii.eqb c ","%char = true) -> plain f = true -> lacks c f = true.
Proof.
  intros Hc. induction f as [|x f IH]; [reflexivity|]. cbn [plain lacks]. intros H.
  apply andb_true_iff in H as [H Hf]. apply andb_true_iff in H as [H1 H2].
  rewrite (IH Hf), andb_true_r. apply negb_true_iff.
  destruct (Ascii.eqb_spec x c) as [->|]; [|reflexivity].
  apply negb_true_iff in H1, H2. rewrite H1, H2 in Hc. discriminate.
Qed.

(** *** Rows *)

(** A row of fields starts and ends with a byte that is no white space,
    and holds no newline. *)
Lemma row_shape (r : list string) :
  row_ok r = true ->
  joinFields r <> ""
  /\ trim_left (joinFields r) = joinFields r
  /\ trim_right (joinFields r) = joinFields r
  /\ lacks (ascii_of_N 10) (joinFields r) = true.
Proof.
  unfold row_ok, joinFields. destruct r as [|p rest]; [discriminate|].
  revert p. induction rest as [|q rest IH]; intros p H.
  - cbn [forallb] in H. rewrite andb_true_r in H. cbn [join].
    destruct (field_trim_left p H) as [N L].
    unfold field_ok in H. apply andb_true_iff in H as [_ H].
    split; [exact N|]. split; [exact L|]. split; [apply plain_trim_right, H|].
    apply plain_lacks; [reflexivity | exact H].
  - cbn [forallb] in H. apply andb_true_iff in H as [Hp H].
    destruct (IH q H) as (N & L & R & K).
    change (join ", " (p :: q :: rest)) with (p ++ ", " ++ join ", " (q :: rest)).
    destruct (field_trim_left p Hp) as [Np Lp].
    assert (R' : trim_right (", " ++ join ", " (q :: rest))
                 = ", " ++ join ", " (q :: rest)).
    { rewrite trim_right_app; rewrite R; [reflexivity | exact N]. }
    split; [destruct p; [contradiction | discriminate]|].
    split; [apply trim_left_app; assumption|].
    split.
    + rewrite trim_right_app; rewrite R'; [reflexivity | discriminate].
    + rewrite !lacks_app, K, andb_true_r.
      unfold field_ok in Hp. apply andb_true_iff in Hp as [_ Hp].
      rewrite (plain_lacks (ascii_of_N 10) p); [reflexivity | reflexivity | exact Hp].
Qed.

Lemma row_split (r : list string) :
  row_ok r = true -> Split (joinFields r) ", " = r.
Proof.
  unfold row_ok, joinFields. destruct r as [|p rest]; [discriminate|]. intros H.
  apply (Split_join_cons ","%char " ").
  apply Forall_forall. intros f Hf. rewrite forallb_forall in H.
  apply list_elem_of_In in Hf. specialize (H f Hf). unfold field_ok in H. apply andb_true_iff in H as [_ H].
  apply plain_lacks; [reflexivity | exact H].
Qed.

(** The report without its leading and trailing white space: the rows,
    separated by newlines. *)
Lemma render_trimmed (rows : list (list string)) :
  Forall (fun r => row_ok r = true) rows ->
  TrimSpace (render rows) = join newline (map joinFields rows).
Proof.
  intros H. unfold TrimSpace.
  assert (L : trim_left (render rows) = render rows).
  { destruct rows as [|r rest]; [reflexivity|]. inversion H as [|? ? Hr _]; subst.
    destruct (row_shape r Hr) as (N & Lr & _). cbn [render].
    apply trim_left_app; assumption. }
  rewrite L. clear L.
  induction rows as [|r rest IH]; [reflexivity|].
  inversion H as [|? ? Hr Hrest]; subst. specialize (IH Hrest).
  destruct (row_shape r Hr) as (N & _ & R & _). cbn [render].
  destruct rest as [|r' rest].
  - cbn [render map join]. rewrite append_nil_r.
    rewrite trim_right_app_blank; [exact R | reflexivity].
  - assert (J : join newline (map joinFields (r' :: rest)) <> "").
    { inversion Hrest as [|? ? Hr' _]; subst.
      destruct (row_shape r' Hr') as (N' & _). cbn [map join].
      destruct (map joinFields rest); [exact N'|].
      destruct (joinFields r'); [contradiction | discriminate]. }
    change (join newline (map joinFields (r :: r' :: rest)))
      with (joinFields r ++ newline ++ join newline (map joinFields (r' :: rest))).
    rewrite <- IH in *.
    rewrite trim_right_app; rewrite trim_right_app; try reflexivity; try exact J.
    destruct (trim_right (render (r' :: rest))); [contradiction | discriminate].
Qed.

Lemma parseLines_rows (rows : list (list string)) : forall acc,
  Forall (fun r => row_ok r = true) rows ->
  parseLines (map joinFields rows) acc
  = if forallb fourFields rows then Some (acc ++ map readRow rows)%list else None.
Proof.
  induction rows as [|r rest IH]; intros acc H.
  - cbn. rewrite app_nil_r. reflexivity.
  - inversion H as [|? ? Hr Hrest]; subst.
    destruct (row_shape r Hr) as (N & _). cbn [map parseLines forallb].
    destruct (joinFields r) eqn:E; [contradiction|]. cbn [nonempty]. rewrite <- E.
    rewrite (row_split r Hr).
    destruct r as [|f0 [|f1 [|f2 [|f3 [|f4 r]]]]]; try reflexivity.
    rewrite (IH _ Hrest). cbn [fourFields length Nat.eqb andb].
    destruct (forallb fourFields rest); [|reflexivity].
    rewrite <- app_assoc. reflexivity.
Qed.

Lemma report_read (rows : list (list string)) :
  Forall (fun r => row_ok r = true) rows ->
  parseLines (Split (TrimSpace (render rows)) newline) []
  = if forallb fourFields rows then Some (map readRow rows) else None.
Proof.
  intros H. rewrite (render_trimmed rows H).
  destruct rows as [|r rest]; [reflexivity|].
  assert (S : Split (join newline (map joinFields (r :: rest))) newline
              = map joinFields (r :: rest)).
  { cbn [map]. apply (Split_join_cons (ascii_of_N 10) "").
    change (joinFields r :: map joinFields rest) with (map joinFields (r :: rest)).
    apply List.Forall_map.
    eapply Forall_impl; [exact H|]. intros x Hx. apply (row_shape x Hx). }
  rewrite S. apply (parseLines_rows (r :: rest) [] H).
Qed.

(** X26. Reading the report of the management utility. When the utility
    prints one row per device, each ended by a newline, with the fields of
    a row separated by a comma and a space, and every field is non-empty
    and free of white space and commas, then [queryAllSMI] returns one
    entry per row, in the order of the rows, each field read by the field
    parser, provided every row has exactly four fields; one row with fewer
    or more fields makes the whole query fail, however many good rows come
    before it. An empty report gives an empty list and no error. The
    utility is run once. *)
Theorem smi_report_read hw k tr rows :
  hw_smi hw k = Some (render rows) ->
  Forall (fun r => row_ok r = true) rows ->
  queryAllSMI hw k tr
  = (if forallb fourFields rows then Some (map readRow rows) else None,
     (tr ++ [EvSMI])%list).
Proof.
  intros Hout H. unfold queryAllSMI, bind, emit, ret. rewrite Hout.
  rewrite (report_read rows H). reflexivity.
Qed.

Lemma smi_report_read_witness :
  queryAllSMI (reporting (render [["1410"; "1410"; "35"; "0"];
                                  ["210"; "1410"; "N/A"; "[N/A]"]])) 0 []
  = (Some [ {| SMClockMHz := 1410; MaxSMClockMHz := 1410; TempC := 35; ECCErrors := 0 |};
            {| SMClockMHz := 210; MaxSMClockMHz := 1410; TempC := 0; ECCErrors := 0 |} ],
     [EvSMI]).
Proof.
  apply (smi_report_read
           (reporting (render [["1410"; "1410"; "35"; "0"];
                               ["210"; "1410"; "N/A"; "[N/A]"]])) 0 []
           [["1410"; "1410"; "35"; "0"]; ["210"; "1410"; "N/A"; "[N/A]"]]).
  - reflexivity.
  - repeat constructor.
Defined.


(** *** Numbers *)

Lemma digit_of_pretty (m : N) :
  (m < 10)%N -> digit_of (pretty_N_char m) = Some (Z.of_N m).
Proof.
  intros H.
  assert (C : (m = 0 \/ m = 1 \/ m = 2 \/ m = 3 \/ m = 4 \/ m = 5 \/ m = 6
               \/ m = 7 \/ m = 8 \/ m = 9)%N) by lia.
  repeat (destruct C as [->|C]; [reflexivity|]). subst m. reflexivity.
Qed.

(** The digits that [pretty_N_go] puts in front of a string read back as
    the number. *)
Lemma pretty_go_spec (x : N) : forall s,
  exists t d,
    pretty_N_go x s = t ++ s
    /\ ((0 < x)%N -> t <> "")
    /\ forall s' acc,
         parse_digits (t ++ s') acc
         = parse_digits s' (acc * 10 ^ Z.of_nat d + Z.of_N x).
Proof.
  induction (N.lt_wf_0 x) as [x _ IH]. intros s.
  destruct (N.eq_dec x 0%N) as [->|Hx].
  - exists "", 0%nat. rewrite pretty_N_go_0.
    split; [reflexivity|]. split; [lia|].
    intros s' acc. rewrite append_nil_l. f_equal. cbn. lia.
  - assert (P : (0 < x)%N) by lia.
    rewrite (pretty_N_go_step x s P).
    destruct (IH (x `div` 10)%N (N.div_lt x 10 P eq_refl)
                 (String (pretty_N_char (x `mod` 10)) s))
      as (t & d & E & _ & R).
    exists (t ++ String (pretty_N_char (x `mod` 10)) ""), (S d).
    split; [rewrite E, append_assoc; reflexivity|].
    split; [intros _; destruct t; discriminate|].
    intros s' acc. rewrite append_assoc, R, append_cons, append_nil_l.
    cbn [parse_digits].
    rewrite digit_of_pretty by (apply N.mod_lt; lia).
    f_equal. rewrite Nat2Z.inj_succ, Z.pow_succ_r by lia.
    pose proof (N.div_mod x 10 ltac:(lia)) as D.
    rewrite N2Z.inj_div, N2Z.inj_mod.
    pose proof (Z.div_mod (Z.of_N x) 10 ltac:(lia)) as D'.
    change (Z.of_N 10) with 10. lia.
Qed.

Lemma parse_pretty (x : N) :
  pretty x <> "" /\ parse_digits (pretty x) 0 = Some (Z.of_N x).
Proof.
  unfold pretty, pretty_N. destruct (decide (x = 0%N)) as [->|Hx].
  - split; [discriminate | reflexivity].
  - destruct (pretty_go_spec x "") as (t & d & E & N & R).
    rewrite E, append_nil_r. split; [apply N; lia|].
    specialize (R "" 0). rewrite append_nil_r in R. rewrite R. cbn [parse_digits].
    f_equal; lia.
Qed.

Lemma digit_plain (c : ascii) (d : Z) :
  digit_of c = Some d ->
  is_space c = false /\ Ascii.eqb c ","%char = false
  /\ Ascii.eqb c "+"%char = false /\ Ascii.eqb c "-"%char = false.
Proof.
  unfold digit_of, is_space. intros H.
  destruct ((48 <=? Z.of_N (N_of_ascii c)) && (Z.of_N (N_of_ascii c) <=? 57)) eqn:E;
    [|discriminate].
  apply andb_true_iff in E as [E1 E2]. apply Z.leb_le in E1, E2.
  assert (Hne : forall c', (N_of_ascii c' < 48)%N -> Ascii.eqb c c' = false).
  { intros c' Hc'. destruct (Ascii.eqb_spec c c') as [->|]; [lia | reflexivity]. }
  split.
  - apply orb_false_iff. split.
    + apply andb_false_iff. right. apply N.leb_gt. lia.
    + apply N.eqb_neq. lia.
  - repeat split; apply Hne; vm_compute; reflexivity.
Qed.

Lemma digits_plain (s : string) : forall acc v,
  parse_digits s acc = Some v -> plain s = true.
Proof.
  induction s as [|c s IH]; intros acc v H; [reflexivity|].
  cbn [parse_digits] in H. destruct (digit_of c) as [d|] eqn:D; [|discriminate].
  destruct (digit_plain c d D) as (S1 & S2 & _).
  cbn [plain]. rewrite S1, S2, (IH _ _ H). reflexivity.
Qed.

(** A number printed by [strconv.Itoa] is read back by [strconv.Atoi],
    and is a field without white space or commas. *)
Lemma Atoi_Itoa (n : Z) :
  Int64.in_range n -> Atoi (Itoa n) = POk n /\ field_ok (Itoa n) = true.
Proof.
  unfold Int64.in_range, Int64.min_int, Int64.max_int. intros R.
  unfold Atoi, Itoa. destruct (Z.ltb_spec n 0) as [Hn|Hn].
  - destruct (parse_pretty (Z.to_N (- n))) as [N P].
    rewrite Z2N.id in P by lia. split.
    + rewrite append_cons, append_nil_l. unfold ParseInt.
      change (Ascii.eqb "-" "+") with false. change (Ascii.eqb "-" "-") with true.
      cbv iota beta.
      destruct (pretty (Z.to_N (- n))) as [|c s] eqn:E; [contradiction|].
      rewrite P. destruct (Z.leb_spec (- n) (2 ^ 63)) as [_|B]; [|lia].
      f_equal. lia.
    + rewrite append_cons, append_nil_l. unfold field_ok. cbn [nonempty plain andb].
      change (is_space "-") with false. change (Ascii.eqb "-" ",") with false.
      cbn [negb andb]. apply (digits_plain _ _ _ P).
  - destruct (parse_pretty (Z.to_N n)) as [N P].
    rewrite Z2N.id in P by lia. split.
    + unfold ParseInt.
      destruct (pretty (Z.to_N n)) as [|c s] eqn:E; [contradiction|].
      assert (D : exists d, digit_of c = Some d).
      { cbn [parse_digits] in P. destruct (digit_of c) as [d|]; [eauto | discriminate]. }
      destruct D as [d D]. destruct (digit_plain c d D) as (_ & _ & S3 & S4).
      rewrite S3, S4, P. destruct (Z.ltb_spec n (2 ^ 63)) as [_|B]; [reflexivity | lia].
    + unfold field_ok. rewrite (digits_plain _ _ _ P), andb_true_r.
      destruct (pretty (Z.to_N n)); [contradiction | reflexivity].
Qed.

Lemma parseField_Itoa (n : Z) :
  Int64.in_range n -> parseField (Itoa n) = n.
Proof.
  intros R. destruct (Atoi_Itoa n R) as [A F]. unfold parseField.
  rewrite (field_trimmed _ F).
  destruct (String.eqb_spec (Itoa n) "N/A") as [E|_];
    [rewrite E in A; discriminate|].
  destruct (String.eqb_spec (Itoa n) "[N/A]") as [E|_];
    [rewrite E in A; discriminate|].
  cbn [orb]. rewrite A. reflexivity.
Qed.

(** X27. Round trip of the device statistics through the report. When the
    utility prints, for each device in turn, its four numbers in decimal
    (negative ones with a minus sign) separated by a comma and a space,
    one row per device, then [queryAllSMI] returns exactly these
    statistics, for every list of devices and all numbers that fit a
    64-bit integer. *)
Theorem smi_round_trip hw k tr stats :
  hw_smi hw k = Some (render (map rowOf stats)) ->
  Forall stats_in_range stats ->
  queryAllSMI hw k tr = (Some stats, (tr ++ [EvSMI])%list).
Proof.
  intros Hout H. unfold queryAllSMI, bind, emit, ret. rewrite Hout.
  rewrite report_read.
  - replace (forallb fourFields (map rowOf stats)) with true.
    + do 2 f_equal. rewrite List.map_map. rewrite <- (List.map_id stats) at 2.
      apply List.map_ext_in. intros s Hs. apply list_elem_of_In in Hs.
      rewrite Forall_forall in H. destruct (H s Hs) as (R0 & R1 & R2 & R3).
      unfold readRow, rowOf. cbn [nth].
      rewrite !parseField_Itoa by assumption. destruct s; reflexivity.
    + symmetry. apply forallb_forall. intros r Hr. apply in_map_iff in Hr as (s & <- & _).
      reflexivity.
  - apply List.Forall_map. eapply Forall_impl; [exact H|].
    intros s (R0 & R1 & R2 & R3). unfold rowOf, row_ok. cbn [forallb].
    rewrite (proj2 (Atoi_Itoa _ R0)), (proj2 (Atoi_Itoa _ R1)),
            (proj2 (Atoi_Itoa _ R2)), (proj2 (Atoi_Itoa _ R3)).
    reflexivity.
Qed.

Lemma smi_round_trip_witness :
  queryAllSMI
    (reporting (render (map rowOf
       [ {| SMClockMHz := 1410; MaxSMClockMHz := 1410; TempC := 35; ECCErrors := 0 |};
         {| SMClockMHz := 210; MaxSMClockMHz := 1410; TempC := 91; ECCErrors := 3 |} ])))
    0 []
  = (Some [ {| SMClockMHz := 1410; MaxSMClockMHz := 1410; TempC := 35; ECCErrors := 0 |};
            {| SMClockMHz := 210; MaxSMClockMHz := 1410; TempC := 91; ECCErrors := 3 |} ],
     ([] ++ [EvSMI])%list).
Proof.
  apply smi_round_trip.
  - reflexivity.
  - repeat constructor; vm_compute; discriminate.
Defined.


(** *** The product name *)

Lemma trim_left_head (s : string) :
  trim_left s = ""
  \/ exists c r, trim_left s = String c r /\ is_space c = false.
Proof.
  induction s as [|c s IH]; [left; reflexivity|]. cbn [trim_left].
  destruct (is_space c) eqn:E; [exact IH|]. right. eauto.
Qed.

Lemma trim_right_idem (s : string) : trim_right (trim_right s) = trim_right s.
Proof.
  induction s as [|c s IH]; [reflexivity|]. cbn [trim_right].
  destruct (trim_right s) as [|x t] eqn:E.
  - destruct (is_space c) eqn:Ec; [reflexivity|]. cbn [trim_right]. rewrite Ec.
    reflexivity.
  - cbn [trim_right] in IH |- *. rewrite IH. reflexivity.
Qed.

Lemma TrimSpace_idem (s : string) : TrimSpace (TrimSpace s) = TrimSpace s.
Proof.
  unfold TrimSpace. destruct (trim_left_head s) as [E|(c & r & E & Hc)]; rewrite E.
  - reflexivity.
  - assert (H : exists r', trim_right (String c r) = String c r').
    { cbn [trim_right]. destruct (trim_right r); [rewrite Hc|]; eauto. }
    destruct H as [r' H].
    assert (L : trim_left (trim_right (String c r)) = trim_right (String c r)).
    { rewrite H. cbn [trim_left]. rewrite Hc. reflexivity. }
    rewrite L. apply trim_right_idem.
Qed.

(** X28. The product name [DetectGPUName] returns is never empty and
    carries no white space at either end. It is the output of the utility
    without its surrounding white space, trailing newline included, and
    the word "unknown" when the utility cannot be run or prints white
    space only; such a host gets the fallback latency threshold of
    500 ms. *)
Theorem DetectGPUName_clean out :
  DetectGPUName out <> ""
  /\ TrimSpace (DetectGPUName out) = DetectGPUName out
  /\ DetectGPUName out
     = match out with
       | None => "unknown"
       | Some o => if String.eqb (TrimSpace o) "" then "unknown" else TrimSpace o
       end
  /\ (DetectGPUName out = "unknown" ->
      detectGPUThreshold (DetectGPUName out) = 500 * Time.Millisecond).
Proof.
  assert (S : forall o, DetectGPUName (Some o)
                        = if String.eqb (TrimSpace o) "" then "unknown" else TrimSpace o).
  { intros o. unfold DetectGPUName. destruct (TrimSpace o); reflexivity. }
  split; [|split; [|split]].
  - destruct out as [o|]; [|discriminate]. rewrite S.
    destruct (String.eqb_spec (TrimSpace o) ""); [discriminate | assumption].
  - destruct out as [o|]; [|reflexivity]. rewrite S.
    destruct (String.eqb_spec (TrimSpace o) ""); [reflexivity | apply TrimSpace_idem].
  - destruct out as [o|]; [apply S | reflexivity].
  - intros ->. reflexivity.
Qed.

End SmiFacts.

(* ===================================================================== *)
(** ** Facts: the metrics of a pulse *)
(* ===================================================================== *)

Module MetricsFacts.

Import Time Pulse Spec Scenarios Stages Metrics PulseFacts StageFacts.

Lemma metrics_app (a b : list Event) : metrics (a ++ b) = (metrics a ++ metrics b)%list.
Proof. apply List.filter_app. Qed.

Lemma timedRuns_metrics hw dev : forall todo i durs tr,
  metrics (snd (timedRuns hw dev todo i durs tr)) = metrics tr.
Proof.
  induction todo as [|todo IH]; intros i durs tr; cbn [timedRuns]; [reflexivity|].
  unfold bind, emit. destruct (hw_gemm hw dev i) as [rc elapsed].
  assert (E : metrics (tr ++ [EvGemm dev]) = metrics tr)
    by (rewrite metrics_app; apply app_nil_r).
  destruct (rc =? GPU_PULSE_OK); [rewrite IH; exact E|].
  destruct (rc =? GPU_PULSE_ERR_CUDA); [exact E|].
  destruct (rc =? GPU_PULSE_ERR_OOM); exact E.
Qed.

Lemma runDevicePulse_metrics th hw dev tr :
  metrics (snd (runDevicePulse th hw dev tr)) = metrics tr.
Proof.
  unfold runDevicePulse, bind.
  pose proof (timedRuns_metrics hw dev pulseRuns 0 [] tr) as H.
  destruct (timedRuns hw dev pulseRuns 0 [] tr) as [r tr1]. exact H.
Qed.

Lemma deviceLoop_metrics th hw : forall todo dev worst tr,
  metrics (snd (deviceLoop th hw todo dev worst tr))
  = (metrics tr
     ++ flat_map (observations th hw) (pulsedFrom th hw dev (Z.of_nat todo)))%list.
Proof.
  unfold pulsedFrom.
  induction todo as [|todo IH]; intros dev worst tr.
  - cbn. rewrite app_nil_r. reflexivity.
  - rewrite seqZ_S. cbn [deviceLoop List.find]. unfold bind at 1.
    pose proof (runDevicePulse_result th hw dev tr) as R.
    pose proof (runDevicePulse_metrics th hw dev tr) as M.
    destruct (runDevicePulse th hw dev tr) as [[[mean cv] err] tr1].
    cbn [fst snd] in R, M.
    assert (O : observations th hw dev
                = [EvPulseDuration (Strconv.Itoa dev) (Seconds mean);
                   EvPulseCV (Strconv.Itoa dev) cv]).
    { unfold observations, deviceMean, deviceCV. rewrite <- R. reflexivity. }
    unfold devicePasses at 1. rewrite <- R. cbn [snd].
    unfold bind, emit, ret. destruct err as [e|]; cbn [negb snd].
    + replace (dev - dev + 1) with 1 by lia.
      change (seqZ dev 1) with [dev]. cbn [flat_map]. rewrite app_nil_r, O.
      rewrite !metrics_app, M, <- app_assoc. reflexivity.
    + rewrite IH, !metrics_app, M, <- !app_assoc. f_equal.
      change (metrics [EvPulseDuration (Strconv.Itoa dev) (Seconds mean)]
              ++ metrics [EvPulseCV (Strconv.Itoa dev) cv]
              ++ ?x)%list
        with ([EvPulseDuration (Strconv.Itoa dev) (Seconds mean);
               EvPulseCV (Strconv.Itoa dev) cv] ++ x)%list.
      rewrite <- O.
      destruct (List.find (fun d => negb (devicePasses th hw d))
                          (seqZ (dev + 1) (Z.of_nat todo))) as [k|] eqn:F.
      * apply find_some in F as [F _]. apply list_elem_of_In, elem_of_seqZ in F.
        rewrite (seqZ_cons dev (k - dev + 1)) by lia.
        replace (Z.succ dev) with (dev + 1) by lia.
        replace (Z.pred (k - dev + 1)) with (k - (dev + 1) + 1) by lia.
        reflexivity.
      * reflexivity.
Qed.

Lemma ringLoop_metrics th hw count : forall todo i tr,
  metrics (snd (ringLoop th hw count todo i tr)) = metrics tr.
Proof.
  induction todo as [|todo IH]; intros i tr; cbn [ringLoop]; [reflexivity|].
  unfold bind. rewrite checkP2P_spec.
  assert (E : metrics (tr ++ [EvP2P i (Z.rem (i + 1) count)]) = metrics tr)
    by (rewrite metrics_app; apply app_nil_r).
  destruct (segmentError th hw (i, Z.rem (i + 1) count)); [exact E|].
  rewrite IH. exact E.
Qed.

Lemma ringStage_metrics th hw count tr :
  metrics (snd (ringStage th hw count tr)) = metrics tr.
Proof.
  unfold ringStage. destruct (1 <? count); [apply ringLoop_metrics | reflexivity].
Qed.

Lemma validateClocks_metrics hw tr :
  metrics (snd (validateClocks hw tr)) = metrics tr.
Proof.
  destruct (validateClocks_appends hw tr) as (evs & E & F). rewrite E, metrics_app.
  replace (metrics evs) with (@nil Event); [apply app_nil_r|].
  symmetry. clear E. induction F as [|e evs He _ IH]; [reflexivity|].
  unfold isSMI in He. subst e. exact IH.
Qed.

(** X29. The observations of a pulse. A pulse that fails the pre-flight
    check records nothing. Otherwise it records, for each device it
    pulsed and in the order of the devices, one duration (the mean the
    device's pulse returned, in seconds) and then one coefficient of
    variation, both labelled with the decimal index of the device. The
    devices pulsed are those up to the first that fails, the failing one
    included: its observations are recorded before the pulse returns, and
    the devices after it get none. The P2P probes and the clock
    validation record nothing, whatever their verdict. *)
Theorem pulse_observations th hw :
  metrics (snd (RunPulse th hw []))
  = match preflightVerdict th hw with
    | Some _ => []
    | None => flat_map (observations th hw) (pulsedFrom th hw 0 (effectiveCount hw))
    end.
Proof.
  unfold RunPulse, preflightVerdict. unfold bind at 1.
  pose proof (preflight_trace th hw []) as T.
  destruct (preflight th hw []) as [[err|] tr1]; cbn [fst snd] in *; subst tr1;
    [reflexivity|].
  unfold bind at 1. rewrite deviceCount_spec. fold (effectiveCount hw).
  pose proof (effectiveCount_pos hw) as Hc.
  unfold bind at 1.
  pose proof (deviceLoop_metrics th hw (Z.to_nat (effectiveCount hw)) 0 0
                ([] ++ [EvSMI] ++ [EvDeviceCount])%list) as H.
  rewrite Z2Nat.id in H by lia. cbn [app] in *.
  destruct (deviceLoop th hw (Z.to_nat (effectiveCount hw)) 0 0 [EvSMI; EvDeviceCount])
    as [[w|[m e]] tr2]; cbn [snd] in H; [|exact H].
  unfold bind at 1.
  pose proof (ringStage_metrics th hw (effectiveCount hw) tr2) as HR.
  destruct (ringStage th hw (effectiveCount hw) tr2) as [[e|] tr3]; cbn [snd] in HR.
  - unfold ret. cbn [snd]. rewrite HR. exact H.
  - unfold bind at 1.
    pose proof (validateClocks_metrics hw tr3) as HV.
    destruct (validateClocks hw tr3) as [[e|] tr4]; unfold ret; cbn [snd] in HV |- *;
      rewrite HV, HR; exact H.
Qed.

(** Four devices of which the third is slow: eight GEMM runs before it,
    and six observations in all. *)
Example slow_third_device :
  metrics (snd (RunPulse defaultThresholds hwSlowThird []))
  = flat_map (observations defaultThresholds hwSlowThird) [0; 1; 2].
Proof. vm_compute. reflexivity. Qed.

End MetricsFacts.

(* ===================================================================== *)
(** ** Facts: the latency verdict and the single runs *)
(* ===================================================================== *)

Module LatencyFacts.

Import Time Pulse Spec Scenarios Evidence Stages PulseFacts.

Lemma five_runs_result th hw dev :
  (forall i, (i < 5)%nat -> fst (hw_gemm hw dev i) = GPU_PULSE_OK) ->
  Forall (fun d => 0 <= d) (fiveRuns hw dev) ->
  sumZ (fiveRuns hw dev) <= Int64.max_int ->
  let mean := sumZ (fiveRuns hw dev) / 5 in
  exists cv, deviceResult th hw dev = (mean, cv, judge th dev mean cv).
Proof.
  intros Hok Hpos Hsum mean.
  pose proof (computeStats_exact (fiveRuns hw dev) ltac:(discriminate) Hpos Hsum) as Hs.
  cbv zeta in Hs. change (Z.of_nat (length (fiveRuns hw dev))) with 5 in Hs.
  fold mean in Hs.
  unfold deviceResult, runDevicePulse, pulseRuns, bind.
  rewrite timedRuns_ok by (intros k Hk; apply Hok; lia).
  unfold ret. cbn [fst].
  change ([] ++ List.map (fun k => snd (hw_gemm hw dev k)) (seq 0 5))%list
    with (fiveRuns hw dev).
  rewrite Hs. eexists. reflexivity.
Qed.

(** X30. The latency verdict against the single runs. On a device whose
    five runs succeed and take between [lo] and [hi] nanoseconds each
    (with [0 <= lo] and five times [hi] within a 64-bit integer), the mean
    that [runDevicePulse] returns lies between [lo] and [hi]. So a device
    is reported for latency only if at least one of its five runs was
    slower than the threshold: with every run at or below it, the only
    failure left is the variance one. And a device whose five runs are all
    slower than the threshold is always reported for latency, whatever the
    variance. *)
Theorem latency_verdict_bounds th hw dev lo hi :
  (forall i, (i < 5)%nat -> fst (hw_gemm hw dev i) = GPU_PULSE_OK) ->
  (forall i, (i < 5)%nat -> lo <= snd (hw_gemm hw dev i) <= hi) ->
  0 <= lo -> 5 * hi <= Int64.max_int ->
  lo <= deviceMean th hw dev <= hi
  /\ (hi <= thr_straggler th ->
      forall e, snd (deviceResult th hw dev) = Some e ->
                sentinelOf e = Some HighVariance)
  /\ (thr_straggler th < lo ->
      exists e, snd (deviceResult th hw dev) = Some e
                /\ sentinelOf e = Some StragglerDetected).
Proof.
  intros Hok Hb Hlo Hhi.
  pose proof (Hb 0%nat ltac:(lia)) as B0. pose proof (Hb 1%nat ltac:(lia)) as B1.
  pose proof (Hb 2%nat ltac:(lia)) as B2. pose proof (Hb 3%nat ltac:(lia)) as B3.
  pose proof (Hb 4%nat ltac:(lia)) as B4.
  assert (Hs : 5 * lo <= sumZ (fiveRuns hw dev) <= 5 * hi).
  { unfold fiveRuns, sumZ. cbn [List.map fold_right]. lia. }
  assert (Hpos : Forall (fun d => 0 <= d) (fiveRuns hw dev)).
  { unfold fiveRuns. cbn [List.map]. repeat constructor; lia. }
  destruct (five_runs_result th hw dev Hok Hpos ltac:(lia)) as [cv R].
  cbv zeta in R.
  assert (Hm : lo <= sumZ (fiveRuns hw dev) / 5 <= hi).
  { split; [apply Z.div_le_lower_bound; lia|].
    apply Z.div_le_upper_bound; lia. }
  unfold deviceMean. rewrite R. cbn [fst snd].
  split; [exact Hm|]. unfold judge. split.
  - intros Ht e. rewrite (proj2 (Z.ltb_ge _ _)) by lia.
    destruct (Float64.gtb cv (thr_cv th)); [|discriminate].
    intros [= <-]. reflexivity.
  - intros Ht. rewrite (proj2 (Z.ltb_lt _ _)) by lia.
    eexists. split; reflexivity.
Qed.

Lemma latency_verdict_bounds_witness :
  ms 10 <= deviceMean defaultThresholds hwUneven 1 <= ms 210
  /\ (ms 210 <= thr_straggler defaultThresholds ->
      forall e, snd (deviceResult defaultThresholds hwUneven 1) = Some e ->
                sentinelOf e = Some HighVariance)
  /\ (thr_straggler defaultThresholds < ms 10 ->
      exists e, snd (deviceResult defaultThresholds hwUneven 1) = Some e
                /\ sentinelOf e = Some StragglerDetected).
Proof.
  apply (latency_verdict_bounds defaultThresholds hwUneven 1 (ms 10) (ms 210)).
  - intros i Hi. reflexivity.
  - intros [|[|[|[|[|i]]]]] Hi; try lia; vm_compute; split; discriminate.
  - vm_compute. discriminate.
  - vm_compute. discriminate.
Defined.

End LatencyFacts.
